(** * dns-weekend-deno: the DNS wire codec and the iterative resolver

    A shallow embedding of [utils.ts] (byte utilities and the
    [SeekableBytesReader] cursor) and of the final snapshot of the resolver
    (header/question encoding, [parseDNSPacket] with name decompression,
    [resolve]).

    Conventions.
    - A JavaScript number is a [Z]; every number the program computes is an
      integer far below 2^53.
    - A [Uint8Array] is a [list Z] whose elements are bytes; [len] is its
      [length] property.
    - A JavaScript string is a [string] holding the UTF-8 encoding of the
      text, so that [TextEncoder.encode] is the list of its characters'
      codes and [split(".")] cuts at the byte 46.
    - A call either returns, throws, or exhausts the [fuel] that bounds the
      program's loops and recursion: [OutOfFuel] stands for a run that has
      not finished within the given number of steps. *)

From Stdlib Require Import String Ascii Bool ZArith Lia List.
From Stdlib Require DecimalString HexadecimalString.
Import ListNotations.
Local Open Scope Z_scope.

(** ** Outcomes of a call *)

Inductive exn : Type :=
| Error (message : string)  (* [throw new Error(message)] in the sources *)
| RangeError                (* the platform's: [DataView] access out of bounds,
                               [new Uint8Array(-1)], [set] past the end, a call
                               the call stack has no room for *)
| TypeError.                (* the platform's: [decode] of a non-buffer *)

Inductive result (A : Type) : Type :=
| Ok (a : A)
| Throw (e : exn)
| OutOfFuel.
Arguments Ok {A} a.
Arguments Throw {A} e.
Arguments OutOfFuel {A}.

Definition rbind {A B} (c : result A) (k : A -> result B) : result B :=
  match c with
  | Ok a => k a
  | Throw e => Throw e
  | OutOfFuel => OutOfFuel
  end.

Definition len {A} (l : list A) : Z := Z.of_nat (length l).

(** [array.subarray(begin, end)] for [0 <= begin] and [0 <= end <= length]. *)
Definition subarray (array : list Z) (begin end_ : Z) : list Z :=
  firstn (Z.to_nat (end_ - begin)) (skipn (Z.to_nat begin) array).

(** ** utils.ts *)

Definition concatUint8Arrays (arrays : list (list Z)) : list Z :=
  concat arrays.

(** [byte.toString(16)] and [String.prototype.padStart]. *)
Definition toString16 (byte : Z) : string :=
  HexadecimalString.NilZero.string_of_uint (N.to_hex_uint (Z.to_N byte)).

Fixpoint replicate_ascii (n : nat) (c : ascii) : string :=
  match n with
  | O => EmptyString
  | S n' => String c (replicate_ascii n' c)
  end.

Definition padStart (targetLength : nat) (pad : ascii) (s : string) : string :=
  (replicate_ascii (targetLength - String.length s) pad ++ s)%string.

Definition uint8ArrayToHex (array : list Z) : string :=
  String.concat "" (map (fun byte => padStart 2 "0" (toString16 byte)) array).

(** [view.setUint16(i * 2, v, false)]: the value modulo 2^16, high byte
    first. *)
Definition packUnsignedShortsBigEndian (values : list Z) : list Z :=
  flat_map (fun v => [(v mod 65536) / 256; (v mod 65536) mod 256]) values.

(** [view.getUint16(i, false)] throws a [RangeError] when fewer than two
    bytes are left at [i]; the loop steps by two, so a buffer of odd length
    throws at its last byte. *)
Fixpoint unpackUnsignedShortsBigEndian (buffer : list Z) : result (list Z) :=
  match buffer with
  | [] => Ok []
  | [_] => Throw RangeError
  | hi :: lo :: rest =>
      rbind (unpackUnsignedShortsBigEndian rest)
            (fun values => Ok (hi * 256 + lo :: values))
  end.

(** [result.set(part, index)]: a [RangeError] unless [part] fits. *)
Definition typed_set (result_ part : list Z) (index : Z) : result (list Z) :=
  if len result_ <? index + len part then Throw RangeError
  else Ok (firstn (Z.to_nat index) result_ ++ part
             ++ skipn (Z.to_nat (index + len part)) result_).

(** [result[index] = v] on a typed array: ignored when [index] is not an
    index of the array. *)
Definition typed_store (result_ : list Z) (index v : Z) : list Z :=
  if (0 <=? index) && (index <? len result_)
  then firstn (Z.to_nat index) result_ ++ v :: skipn (Z.to_nat (index + 1)) result_
  else result_.

(** [new Uint8Array(totalLength)]: zero-filled; a [RangeError] for a
    negative length. *)
Definition newUint8Array (totalLength : Z) : result (list Z) :=
  if totalLength <? 0 then Throw RangeError
  else Ok (repeat 0 (Z.to_nat totalLength)).

(** One turn of the second loop of [joinUint8ArrayWithDot]: the array
    being filled and [index]. *)
Definition join_step (st : result (list Z * Z)) (part : list Z)
  : result (list Z * Z) :=
  rbind st (fun '(result_, index) =>
  rbind (typed_set result_ part index) (fun result1 =>
  let index1 := index + len part in
  Ok (typed_store result1 index1 46 (* ASCII code for '.' *), index1 + 1))).

Definition joinUint8ArrayWithDot (array : list (list Z)) : result (list Z) :=
  let totalLength := fold_left (fun acc part => acc + len part + 1) array (-1) in
  rbind (newUint8Array totalLength) (fun result0 =>
  rbind (fold_left join_step array (Ok (result0, 0)))
        (fun '(result_, _) => Ok result_)).

(** *** The cursor: [class SeekableBytesReader] *)

Module SeekableBytesReader.

Record t : Type := mk { data : list Z; position : Z }.

(** [new SeekableBytesReader(data)] *)
Definition new (data : list Z) : t := mk data 0.

Definition read (n : Z) (this : t) : result (list Z * t) :=
  if len (data this) <=? position this then
    Throw (Error "Read position is beyond the length of the data")
  else
    let endPosition := Z.min (position this + n) (len (data this)) in
    let readData := subarray (data this) (position this) endPosition in
    Ok (readData, mk (data this) endPosition).

Definition seek (offset : Z) (this : t) : result (unit * t) :=
  if (offset <? 0) || (len (data this) <? offset) then
    Throw (Error "Offset is out of range")
  else Ok (tt, mk (data this) offset).

Definition currentPosition (this : t) : result (Z * t) :=
  Ok (position this, this).

End SeekableBytesReader.

(** Code that drives a reader: a state-and-exception monad over the cursor. *)
Definition M (A : Type) : Type :=
  SeekableBytesReader.t -> result (A * SeekableBytesReader.t).

Definition ret {A} (a : A) : M A := fun r => Ok (a, r).

Definition bind {A B} (c : M A) (k : A -> M B) : M B :=
  fun r => match c r with
           | Ok (a, r') => k a r'
           | Throw e => Throw e
           | OutOfFuel => OutOfFuel
           end.

Definition lift {A} (c : result A) : M A :=
  fun r => rbind c (fun a => Ok (a, r)).

Notation "x <- c ;; k" := (bind c (fun x => k))
  (at level 61, c at next level, right associativity).
Notation "c ;;; k" := (bind c (fun _ => k))
  (at level 61, right associativity).

(** ** Text encoding (the platform's [TextEncoder] and [TextDecoder]) *)

Definition TextEncoder_encode (s : string) : list Z :=
  map (fun c => Z.of_N (N_of_ascii c)) (list_ascii_of_string s).

Definition string_of_bytes (bytes : list Z) : string :=
  string_of_list_ascii (map (fun b => ascii_of_N (Z.to_N b)) bytes).

(** U+FFFD, which the decoder emits for every malformed sequence. *)
Definition REPLACEMENT : list Z := [0xEF; 0xBF; 0xBD].

(** The lead bytes of the WHATWG UTF-8 decoder: the number of continuation
    bytes still needed, and the bounds of the next one. *)
Definition utf8_lead (b : Z) : option (nat * Z * Z) :=
  if (0xC2 <=? b) && (b <=? 0xDF) then Some (1%nat, 0x80, 0xBF)
  else if (0xE0 <=? b) && (b <=? 0xEF) then
    Some (2%nat, if b =? 0xE0 then 0xA0 else 0x80,
                 if b =? 0xED then 0x9F else 0xBF)
  else if (0xF0 <=? b) && (b <=? 0xF4) then
    Some (3%nat, if b =? 0xF0 then 0x90 else 0x80,
                 if b =? 0xF4 then 0x8F else 0xBF)
  else None.

(** The decoder in replacement mode, its output written back in UTF-8: a
    well-formed sequence is copied, a malformed one becomes U+FFFD and the
    offending byte is read again as the start of a sequence. *)
Fixpoint utf8_decode (seen : list Z) (needed : nat) (lower upper : Z)
                     (input : list Z) : list Z :=
  match input with
  | [] => match needed with O => [] | S _ => REPLACEMENT end
  | b :: rest =>
      let start (prefix : list Z) :=
        if b <=? 0x7F then prefix ++ b :: utf8_decode [] 0 0x80 0xBF rest
        else match utf8_lead b with
             | Some (n, lo, hi) => prefix ++ utf8_decode [b] n lo hi rest
             | None => prefix ++ REPLACEMENT ++ utf8_decode [] 0 0x80 0xBF rest
             end in
      match needed with
      | O => start []
      | S k =>
          if (lower <=? b) && (b <=? upper) then
            match k with
            | O => seen ++ b :: utf8_decode [] 0 0x80 0xBF rest
            | S _ => utf8_decode (seen ++ [b]) k 0x80 0xBF rest
            end
          else start REPLACEMENT
      end
  end.

(** [new TextDecoder("utf-8")] leaves [ignoreBOM] off: a leading U+FEFF is
    not part of the text it returns. *)
Definition strip_bom (bytes : list Z) : list Z :=
  match bytes with
  | 0xEF :: 0xBB :: 0xBF :: rest => rest
  | _ => bytes
  end.

Definition utf8_text (bytes : list Z) : string :=
  string_of_bytes (utf8_decode [] 0 0x80 0xBF (strip_bom bytes)).

(** [domainName.split(".")] *)
Fixpoint split_dot (s : string) : list string :=
  match s with
  | EmptyString => [EmptyString]
  | String c rest =>
      if Ascii.eqb c "." then EmptyString :: split_dot rest
      else match split_dot rest with
           | part :: parts => String c part :: parts
           | [] => [String c EmptyString]
           end
  end.

(** [String(n)] of a number, as [Array.prototype.join] renders elements. *)
Definition toString10 (n : Z) : string :=
  DecimalString.NilZero.string_of_uint (N.to_uint (Z.to_N n)).

(** Truthiness of a string: [if (s)]. *)
Definition nonempty (s : string) : bool :=
  match s with EmptyString => false | String _ _ => true end.

(** ** The resolver's data *)

Definition TYPE_A : Z := 1.
Definition TYPE_NS : Z := 2.
Definition TYPE_TXT : Z := 16.
Definition CLASS_IN : Z := 1.

(** [Uint8Array | string], the type of a record's [data]. *)
Inductive Data : Type :=
| Bytes (bytes : list Z)
| Text (text : string).

Module DNSHeader.
(** [id] and [flags] are [undefined] ([None]) when the header was built
    from a buffer cut short; the four counts default to 0. *)
Record t : Type := mk {
  id : option Z;
  flags : option Z;
  numQuestions : Z;
  numAnswers : Z;
  numAuthorities : Z;
  numAdditionals : Z
}.
End DNSHeader.

Module DNSQuestion.
Record t : Type := mk { name : list Z; type_ : Z; class_ : Z }.
End DNSQuestion.

Module DNSRecord.
Record t : Type := mk {
  name : list Z;
  type_ : Z;
  class_ : Z;
  ttl : Z;
  data : Data
}.
End DNSRecord.

Module DNSPacket.
Record t : Type := mk {
  header : DNSHeader.t;
  questions : list DNSQuestion.t;
  answers : list DNSRecord.t;
  authorities : list DNSRecord.t;
  additionals : list DNSRecord.t
}.
End DNSPacket.

(** ** Part 1: building a query *)

(** [setUint16] stores 0 for [undefined]. *)
Definition number (v : option Z) : Z :=
  match v with Some n => n | None => 0 end.

Definition headerToBytes (header : DNSHeader.t) : list Z :=
  let fields := [
    number (DNSHeader.id header);
    number (DNSHeader.flags header);
    DNSHeader.numQuestions header;
    DNSHeader.numAnswers header;
    DNSHeader.numAuthorities header;
    DNSHeader.numAdditionals header
  ] in
  packUnsignedShortsBigEndian fields.

Definition questionToBytes (question : DNSQuestion.t) : list Z :=
  concatUint8Arrays [
    DNSQuestion.name question;
    packUnsignedShortsBigEndian
      [DNSQuestion.type_ question; DNSQuestion.class_ question]
  ].

(** [new Uint8Array([partBytes.length])] keeps the length modulo 256. *)
Definition encodeDnsName (domainName : string) : list Z :=
  let parts := split_dot domainName in
  let encoded :=
    fold_left
      (fun encoded part =>
         let partBytes := TextEncoder_encode part in
         let lengthByte := [len partBytes mod 256] in
         concatUint8Arrays [encoded; lengthByte; partBytes])
      parts [] in
  concatUint8Arrays [encoded; [0]].

(** [id] is the draw [Math.floor(Math.random() * 65536)]. *)
Definition buildQuery (id : Z) (domainName : string) (recordType : Z) : list Z :=
  let name := encodeDnsName domainName in
  let header := DNSHeader.mk (Some id) (Some 0) 1 0 0 0 in
  let question := DNSQuestion.mk name recordType CLASS_IN in
  concatUint8Arrays [headerToBytes header; questionToBytes question].

(** ** Part 2: parsing a reply *)

Definition read (n : Z) : M (list Z) := SeekableBytesReader.read n.
Definition seek (offset : Z) : M unit := SeekableBytesReader.seek offset.
Definition currentPosition : M Z := SeekableBytesReader.currentPosition.

(** [array.at(0)].  It is only applied to the result of [read(1)], which
    holds exactly one byte; [undefined] does not arise. *)
Definition at0 (array : list Z) : Z := hd 0 array.

Definition getUint16 (view : list Z) (byteOffset : Z) : result Z :=
  if len view <? byteOffset + 2 then Throw RangeError
  else Ok (nth (Z.to_nat byteOffset) view 0 * 256
           + nth (Z.to_nat byteOffset + 1) view 0).

Definition getUint32 (view : list Z) (byteOffset : Z) : result Z :=
  if len view <? byteOffset + 4 then Throw RangeError
  else Ok (((nth (Z.to_nat byteOffset) view 0 * 256
             + nth (Z.to_nat byteOffset + 1) view 0) * 256
            + nth (Z.to_nat byteOffset + 2) view 0) * 256
           + nth (Z.to_nat byteOffset + 3) view 0).

Definition parseHeader : M DNSHeader.t :=
  buffer <- read 12 ;;
  items <- lift (unpackUnsignedShortsBigEndian buffer) ;;
  ret (DNSHeader.mk
         (nth_error items 0)
         (nth_error items 1)
         (number (nth_error items 2))
         (number (nth_error items 3))
         (number (nth_error items 4))
         (number (nth_error items 5))).

Fixpoint decodeNameSimple_loop (fuel : nat) (parts : list (list Z))
  : M (list Z) :=
  match fuel with
  | O => fun _ => OutOfFuel
  | S fuel' =>
      bytes <- read 1 ;;
      let length := at0 bytes in
      if length =? 0 then lift (joinUint8ArrayWithDot parts)
      else
        part <- read length ;;
        decodeNameSimple_loop fuel' (parts ++ [part])
  end.

Definition decodeNameSimple (fuel : nat) : M (list Z) :=
  decodeNameSimple_loop fuel [].

Definition parseQuestion (fuel : nat) : M DNSQuestion.t :=
  name <- decodeNameSimple fuel ;;
  buffer <- read 4 ;;
  type <- lift (getUint16 buffer 0) ;;
  class_ <- lift (getUint16 buffer 2) ;;
  ret (DNSQuestion.mk name type class_).

(** [decodeCompressedName], with the [decodeName] it calls back passed in. *)
Definition decodeCompressedName (decodeName : M (list Z)) (length : Z)
  : M (list Z) :=
  bytes <- read 1 ;;
  let pointerBytes := [Z.land length 0x3F; at0 bytes] in
  shorts <- lift (unpackUnsignedShortsBigEndian pointerBytes) ;;
  let pointer := hd 0 shorts in
  originalPosition <- currentPosition ;;
  seek pointer ;;;
  name <- decodeName ;;
  seek originalPosition ;;;
  ret name.

(** [decodeName]: one unit of fuel per iteration of its loop, the rest
    handed to the nested call behind a pointer. *)
Fixpoint decodeName_loop (fuel : nat) (parts : list (list Z)) : M (list Z) :=
  match fuel with
  | O => fun _ => OutOfFuel
  | S fuel' =>
      bytes <- read 1 ;;
      let length := at0 bytes in
      if length =? 0 then lift (joinUint8ArrayWithDot parts)
      else if negb (Z.land length 0xC0 =? 0) then
        name <- decodeCompressedName (decodeName_loop fuel' []) length ;;
        lift (joinUint8ArrayWithDot (parts ++ [name]))
      else
        part <- read length ;;
        decodeName_loop fuel' (parts ++ [part])
  end.

Definition decodeName (fuel : nat) : M (list Z) := decodeName_loop fuel [].

(** *** The call stack

    [decodeName] and [decodeCompressedName] call each other synchronously:
    every pointer followed is one more activation of [decodeName] on the
    engine's call stack, and a call the stack has no room for throws the
    engine's [RangeError] (Maximum call stack size exceeded) instead of
    running; nothing in the code catches it.  [decodeName_loop] above has
    no stack: it describes the runs that end within the stack of the
    engine.  [decodeName_turns nested] is the loop of one activation, with
    [nested] the call behind a pointer and [fuel] the turns of the loop;
    [decodeName_on stack] is [decodeName] on a stack with room for [stack]
    activations of it. *)
Fixpoint decodeName_turns (nested : M (list Z)) (fuel : nat)
                          (parts : list (list Z)) : M (list Z) :=
  match fuel with
  | O => fun _ => OutOfFuel
  | S fuel' =>
      bytes <- read 1 ;;
      let length := at0 bytes in
      if length =? 0 then lift (joinUint8ArrayWithDot parts)
      else if negb (Z.land length 0xC0 =? 0) then
        name <- decodeCompressedName nested length ;;
        lift (joinUint8ArrayWithDot (parts ++ [name]))
      else
        part <- read length ;;
        decodeName_turns nested fuel' (parts ++ [part])
  end.

Fixpoint decodeName_on (stack fuel : nat) : M (list Z) :=
  match stack with
  | O => fun _ => Throw RangeError
  | S stack' => decodeName_turns (decodeName_on stack' fuel) fuel []
  end.

Definition ipToString (ip : list Z) : string :=
  String.concat "." (map toString10 ip).

Definition parseRecord (fuel : nat) : M DNSRecord.t :=
  name <- decodeName fuel ;;
  buffer <- read 10 ;;
  type_ <- lift (getUint16 buffer 0) ;;
  class_ <- lift (getUint16 buffer 2) ;;
  ttl <- lift (getUint32 buffer 4) ;;
  dataLen <- lift (getUint16 buffer 8) ;;
  data <- (if type_ =? TYPE_NS then
             name' <- decodeName fuel ;; ret (Bytes name')
           else if type_ =? TYPE_A then
             ip <- read 4 ;; ret (Text (ipToString ip))
           else
             raw <- read dataLen ;; ret (Bytes raw)) ;;
  ret (DNSRecord.mk name type_ class_ ttl data).

(** [for (let i = 0; i < count; i++) entries.push(parse(reader))] *)
Fixpoint times {A} (count : nat) (parse : M A) : M (list A) :=
  match count with
  | O => ret []
  | S count' =>
      entry <- parse ;;
      entries <- times count' parse ;;
      ret (entry :: entries)
  end.

Definition parseDNSPacket (fuel : nat) (data : list Z) : result DNSPacket.t :=
  let reader := SeekableBytesReader.new data in
  rbind
    ((header <- parseHeader ;;
      questions <-
        times (Z.to_nat (DNSHeader.numQuestions header)) (parseQuestion fuel) ;;
      answers <-
        times (Z.to_nat (DNSHeader.numAnswers header)) (parseRecord fuel) ;;
      authorities <-
        times (Z.to_nat (DNSHeader.numAuthorities header)) (parseRecord fuel) ;;
      additionals <-
        times (Z.to_nat (DNSHeader.numAdditionals header)) (parseRecord fuel) ;;
      ret (DNSPacket.mk header questions answers authorities additionals))
       reader)
    (fun '(packet, _) => Ok packet).

(** ** Part 3: the iterative resolver *)

(** Truthiness of a value of type [Data]: a string unless empty, and every
    [Uint8Array]. *)
Definition truthy (v : Data) : bool :=
  match v with
  | Text s => nonempty s
  | Bytes _ => true
  end.

(** [decoder.decode(input)]: a [TypeError] unless [input] is a buffer. *)
Definition TextDecoder_decode (input : Data) : result string :=
  match input with
  | Bytes bytes => Ok (utf8_text bytes)
  | Text _ => Throw TypeError
  end.

(** The three getters return on the first record of the type they look
    for; [answer.data as string] is the value itself, whatever it holds. *)
Fixpoint getAnswer_loop (answers : list DNSRecord.t) : Data :=
  match answers with
  | [] => Text ""
  | answer :: rest =>
      if DNSRecord.type_ answer =? TYPE_A then DNSRecord.data answer
      else getAnswer_loop rest
  end.

Definition getAnswer (packet : DNSPacket.t) : Data :=
  getAnswer_loop (DNSPacket.answers packet).

Fixpoint getNameserverIp_loop (additionals : list DNSRecord.t) : Data :=
  match additionals with
  | [] => Text ""
  | additional :: rest =>
      if DNSRecord.type_ additional =? TYPE_A then DNSRecord.data additional
      else getNameserverIp_loop rest
  end.

Definition getNameserverIp (packet : DNSPacket.t) : Data :=
  getNameserverIp_loop (DNSPacket.additionals packet).

Fixpoint getNameserver_loop (authorities : list DNSRecord.t) : result string :=
  match authorities with
  | [] => Ok ""%string
  | answer :: rest =>
      if DNSRecord.type_ answer =? TYPE_NS
      then TextDecoder_decode (DNSRecord.data answer)
      else getNameserver_loop rest
  end.

Definition getNameserver (packet : DNSPacket.t) : result string :=
  getNameserver_loop (DNSPacket.authorities packet).

Definition ROOT_NAMESERVER : Data := Text "198.41.0.4".

Section Resolver.

(** What lies outside the program: the state of the world, the random
    draw of [buildQuery], and one datagram exchange (open a socket, send
    the query to port 53 of [hostname], receive, close), which yields the
    bytes received or throws. *)
Variable World : Type.
Variable random : World -> Z * World.
Variable exchange : Data -> list Z -> World -> result (list Z) * World.

Definition sendQuery (fuel : nat) (ipAddress : Data) (domainName : string)
                     (recordType : Z) (w : World)
  : result DNSPacket.t * World :=
  let (id, w1) := random w in
  let query := buildQuery id domainName recordType in
  let (received, w2) := exchange ipAddress query w1 in
  (rbind received (parseDNSPacket fuel), w2).

(** The [while (true)] loop of [resolve], entered with [nameserver]; the
    nested [resolve(nsDomain, TYPE_A)] is the loop entered again from the
    root server.  Each iteration and each nested call takes one unit of
    fuel. *)
Fixpoint resolve_loop (fuel : nat) (nameserver : Data) (domainName : string)
                      (recortType : Z) (w : World) {struct fuel}
  : result Data * World :=
  match fuel with
  | O => (OutOfFuel, w)
  | S fuel' =>
      match sendQuery fuel' nameserver domainName recortType w with
      | (Ok response, w1) =>
          let ip := getAnswer response in
          let nsIP := getNameserverIp response in
          match getNameserver response with
          | Ok nsDomain =>
              if truthy ip then (Ok ip, w1)
              else if truthy nsIP then
                resolve_loop fuel' nsIP domainName recortType w1
              else if nonempty nsDomain then
                match resolve_loop fuel' ROOT_NAMESERVER nsDomain TYPE_A w1 with
                | (Ok address, w2) =>
                    resolve_loop fuel' address domainName recortType w2
                | (Throw e, w2) => (Throw e, w2)
                | (OutOfFuel, w2) => (OutOfFuel, w2)
                end
              else (Throw (Error "Something went wrong"), w1)
          | Throw e => (Throw e, w1)
          | OutOfFuel => (OutOfFuel, w1)
          end
      | (Throw e, w1) => (Throw e, w1)
      | (OutOfFuel, w1) => (OutOfFuel, w1)
      end
  end.

Definition resolve (fuel : nat) (domainName : string) (recortType : Z)
                   (w : World) : result Data * World :=
  resolve_loop fuel ROOT_NAMESERVER domainName recortType w.

End Resolver.

(** ** Sample replies and a scripted transport *)

(** A referral: the authority section names the nameserver "n" for "x" and
    the additional section gives the address 9.9.9.9 of "n". *)
Definition referral_reply : list Z :=
  [0; 0; 0; 0; 0; 0; 0; 0; 0; 1; 0; 1;
   1; 120; 0; 0; 2; 0; 1; 0; 0; 0; 60; 0; 3; 1; 110; 0;
   1; 110; 0; 0; 1; 0; 1; 0; 0; 0; 60; 0; 4; 9; 9; 9; 9].

(** An answer: "x" has the address 1.2.3.4. *)
Definition answer_reply : list Z :=
  [0; 0; 0; 0; 0; 0; 0; 1; 0; 0; 0; 0;
   1; 120; 0; 0; 1; 0; 1; 0; 0; 0; 60; 0; 4; 1; 2; 3; 4].

(** The same answer, cut after the first byte of the address. *)
Definition cut_reply : list Z :=
  [0; 0; 0; 0; 0; 0; 0; 1; 0; 0; 0; 0;
   1; 120; 0; 0; 1; 0; 1; 0; 0; 0; 60; 0; 4; 1].

(** A referral without glue whose nameserver name is the single label
    EF BB BF, the UTF-8 form of U+FEFF. *)
Definition bom_reply : list Z :=
  [0; 0; 0; 0; 0; 0; 0; 0; 0; 1; 0; 0;
   1; 120; 0; 0; 2; 0; 1; 0; 0; 0; 60; 0; 5; 3; 0xEF; 0xBB; 0xBF; 0].

(** The referral, decoded. *)
Definition referral_packet : DNSPacket.t :=
  Eval vm_compute in
    match parseDNSPacket 4 referral_reply with
    | Ok packet => packet
    | _ => DNSPacket.mk (DNSHeader.mk None None 0 0 0 0) [] [] [] []
    end.

(** A world that is the number of datagrams received so far, a draw that
    is always 0, and a transport that answers the n-th query with the n-th
    reply of a script. *)
Definition fixed_draw (w : nat) : Z * nat := (0, w).

Definition scripted (script : list (list Z)) (hostname : Data)
                    (query : list Z) (w : nat) : result (list Z) * nat :=
  (Ok (nth w script []), S w).

(** ** Notions used by the statements *)

Abbreviation Reader := SeekableBytesReader.mk.
Abbreviation data_of := SeekableBytesReader.data.
Abbreviation pos_of := SeekableBytesReader.position.

(** The two errors of the cursor. *)
Definition BEYOND : exn :=
  Error "Read position is beyond the length of the data".
Definition OUT_OF_RANGE : exn := Error "Offset is out of range".

(** A [Uint8Array] holds bytes. *)
Definition is_byte (b : Z) : Prop := 0 <= b < 256.
Definition bytes_ok (data : list Z) : Prop := Forall is_byte data.

(** The cursor lies inside its buffer or at its end. *)
Definition in_bounds (r : SeekableBytesReader.t) : Prop :=
  0 <= SeekableBytesReader.position r <= len (SeekableBytesReader.data r).

(** The labels joined by single dots, none after the last. *)
Fixpoint dot_join (parts : list (list Z)) : list Z :=
  match parts with
  | [] => []
  | [part] => part
  | part :: rest => part ++ 46 :: dot_join rest
  end.

(** The cells [joinUint8ArrayWithDot] writes: each part and its dot. *)
Fixpoint cells (parts : list (list Z)) : Z :=
  match parts with
  | [] => 0
  | part :: rest => len part + 1 + cells rest
  end.

(** The walk of [decodeName] from the offset [p] up to its first pointer:
    the offset that pointer leads to, when the labels at [p] end in a
    pointer that [seek] accepts; [None] when they end otherwise (terminator,
    end of the buffer, offset refused).  [n] bounds the labels walked. *)
Fixpoint pointer_target (n : nat) (data : list Z) (p : Z) : option Z :=
  match n with
  | O => None
  | S n' =>
      match nth_error data (Z.to_nat p) with
      | None => None
      | Some b =>
          if b =? 0 then None
          else if negb (Z.land b 0xC0 =? 0) then
            match nth_error data (Z.to_nat (p + 1)) with
            | None => None
            | Some c =>
                let offset := Z.land b 0x3F * 256 + c in
                if (offset <? 0) || (len data <? offset) then None
                else Some offset
            end
          else pointer_target n' data (Z.min (p + 1 + b) (len data))
      end
  end.

(** The chain of pointers that starts at [p] ends within [jumps] jumps. *)
Fixpoint chain_ends (jumps : nat) (data : list Z) (p : Z) : bool :=
  match pointer_target (S (length data)) data p with
  | None => true
  | Some offset =>
      match jumps with
      | O => false
      | S jumps' => chain_ends jumps' data offset
      end
  end.


(** Records by type. *)
Definition isA (record : DNSRecord.t) : bool :=
  DNSRecord.type_ record =? TYPE_A.
Definition isNS (record : DNSRecord.t) : bool :=
  DNSRecord.type_ record =? TYPE_NS.

(** The bytes of a [Uint8Array] payload. *)
Definition bytes_of (payload : Data) : list Z :=
  match payload with
  | Bytes bytes => bytes
  | Text _ => []
  end.

(** What [parseRecord] puts in [data]: for type A the rendering of the 1 to
    4 bytes it read, for type NS the bytes of a name. *)
Definition record_ok (record : DNSRecord.t) : Prop :=
  (DNSRecord.type_ record = TYPE_A ->
   exists ip, 1 <= len ip <= 4 /\ DNSRecord.data record = Text (ipToString ip))
  /\ (DNSRecord.type_ record = TYPE_NS ->
      exists name, DNSRecord.data record = Bytes name).

Definition packet_ok (packet : DNSPacket.t) : Prop :=
  Forall record_ok (DNSPacket.answers packet)
  /\ Forall record_ok (DNSPacket.authorities packet)
  /\ Forall record_ok (DNSPacket.additionals packet).

(** A cursor inside the buffer [data], which holds bytes. *)
Definition reading (data : list Z) (r : SeekableBytesReader.t) : Prop :=
  data_of r = data /\ in_bounds r.

(** A value that fits a 16-bit field. *)
Definition field16 (v : Z) : Prop := 0 <= v < 65536.

(** The labels of a name on the wire: each behind its length byte. *)
Definition wire (labels : list (list Z)) : list Z :=
  concat (map (fun label => len label mod 256 :: label) labels).

(** A domain name whose labels are 1 to 63 bytes long. *)
Definition labels_ok (domainName : string) : Prop :=
  Forall (fun part => 1 <= len (TextEncoder_encode part) <= 63)
         (split_dot domainName).

(** A question as [buildQuery] builds it for a domain name, and as
    [parseQuestion] returns it: the name field holds the encoded name in the
    first, the dotted text in the second. *)
Definition built_question (entry : string * Z * Z) : DNSQuestion.t :=
  let '(domainName, type_, class_) := entry in
  DNSQuestion.mk (encodeDnsName domainName) type_ class_.

Definition decoded_question (entry : string * Z * Z) : DNSQuestion.t :=
  let '(domainName, type_, class_) := entry in
  DNSQuestion.mk (TextEncoder_encode domainName) type_ class_.

Definition entry_ok (entry : string * Z * Z) : Prop :=
  let '(domainName, type_, class_) := entry in
  labels_ok domainName /\ field16 type_ /\ field16 class_.

(** The bytes of a message, laid out as [buildQuery] does: the header, then
    each question.  (The sources have no encoder for resource records.) *)
Definition messageToBytes (message : DNSPacket.t) : list Z :=
  concatUint8Arrays
    (headerToBytes (DNSPacket.header message)
     :: map questionToBytes (DNSPacket.questions message)).

(** The big-endian 16-bit and 32-bit fields of a buffer at an offset. *)
Definition u16_at (data : list Z) (q : Z) : Z :=
  nth (Z.to_nat q) data 0 * 256 + nth (Z.to_nat (q + 1)) data 0.

Definition u32_at (data : list Z) (q : Z) : Z :=
  u16_at data q * 65536 + u16_at data (q + 2).

(** A run that has finished: it returned or threw. *)
Definition finished {A} (outcome : result A) : Prop :=
  match outcome with
  | OutOfFuel => False
  | _ => True
  end.

(** A run that never finishes, whatever the fuel. *)
Definition never_returns {A} (run : nat -> result A) : Prop :=
  forall fuel, run fuel = OutOfFuel.

(** ** Notions used by the further properties *)

(** A header as [parseHeader] reads it back from [headerToBytes]: every
    field modulo 2^16, [undefined] stored as 0. *)
Definition wrapped_header (header : DNSHeader.t) : DNSHeader.t :=
  DNSHeader.mk
    (Some (number (DNSHeader.id header) mod 65536))
    (Some (number (DNSHeader.flags header) mod 65536))
    (DNSHeader.numQuestions header mod 65536)
    (DNSHeader.numAnswers header mod 65536)
    (DNSHeader.numAuthorities header mod 65536)
    (DNSHeader.numAdditionals header mod 65536).

(** The number of dots of a string. *)
Fixpoint count_dots (s : string) : nat :=
  match s with
  | EmptyString => O
  | String c rest =>
      if Ascii.eqb c "." then S (count_dots rest) else count_dots rest
  end.

(** A transport that answers every query with the same datagram. *)
Definition always (reply : list Z) (hostname : Data) (query : list Z)
                  (w : nat) : result (list Z) * nat :=
  (Ok reply, S w).

(** The byte order mark in UTF-8. *)
Definition BOM : list Z := [0xEF; 0xBB; 0xBF].

(** A reply that gives no address for the name asked, and the address of a
    server to ask next: no record of type A among its answers, one among
    its additionals. *)
Definition refers_on (packet : DNSPacket.t) : Prop :=
  find isA (DNSPacket.answers packet) = None
  /\ find isA (DNSPacket.additionals packet) <> None.

(** [more] behaves as [run] wherever [run] finishes. *)
Definition extends {A} (run more : M A) : Prop :=
  forall r, finished (run r) -> more r = run r.

(** * Properties *)

(** ** Lists as arrays *)

Lemma len_nonneg {A} (l : list A) : 0 <= len l.
Proof. unfold len. lia. Qed.

Lemma len_app {A} (l1 l2 : list A) : len (l1 ++ l2) = len l1 + len l2.
Proof. unfold len. rewrite length_app. lia. Qed.

Lemma len_cons {A} (a : A) (l : list A) : len (a :: l) = 1 + len l.
Proof. unfold len. simpl length. lia. Qed.

Lemma len_nil {A} : len (@nil A) = 0.
Proof. reflexivity. Qed.

Lemma len_repeat (n : nat) (v : Z) : len (repeat v n) = Z.of_nat n.
Proof. unfold len. now rewrite repeat_length. Qed.

Lemma to_nat_len {A} (l : list A) : Z.to_nat (len l) = length l.
Proof. unfold len. apply Nat2Z.id. Qed.

Lemma firstn_len_app {A} (l1 l2 : list A) :
  firstn (Z.to_nat (len l1)) (l1 ++ l2) = l1.
Proof.
  rewrite to_nat_len, firstn_app, Nat.sub_diag, firstn_all. simpl.
  apply app_nil_r.
Qed.

Lemma skipn_len_app {A} (l1 l2 : list A) :
  skipn (Z.to_nat (len l1)) (l1 ++ l2) = l2.
Proof.
  rewrite to_nat_len, skipn_app, Nat.sub_diag, skipn_all. reflexivity.
Qed.

Lemma len_firstn_skipn {A} (l : list A) (p k : Z) :
  0 <= p -> 0 <= k -> p + k <= len l ->
  len (firstn (Z.to_nat k) (skipn (Z.to_nat p) l)) = k.
Proof.
  unfold len. intros Hp Hk Hpk.
  rewrite length_firstn, length_skipn. lia.
Qed.

Ltac len_simpl :=
  repeat (rewrite len_app in * || rewrite len_cons in *
          || rewrite len_nil in * || rewrite len_repeat in *).

Lemma skipn_repeat (v : Z) (k n : nat) :
  skipn k (repeat v (k + n)) = repeat v n.
Proof. induction k as [|k IH]; simpl; auto. Qed.

(** ** [joinUint8ArrayWithDot] *)

Lemma cells_nonneg (parts : list (list Z)) : 0 <= cells parts.
Proof.
  induction parts as [|part rest IH]; simpl; [lia|].
  pose proof (len_nonneg part). lia.
Qed.

Lemma totalLength_cells (parts : list (list Z)) (acc : Z) :
  fold_left (fun acc part => acc + len part + 1) parts acc = acc + cells parts.
Proof.
  revert acc. induction parts as [|part rest IH]; intros acc; simpl; [lia|].
  rewrite IH. lia.
Qed.

Lemma typed_set_zeros (written part : list Z) (n : nat) :
  typed_set (written ++ repeat 0 (length part + n)) part (len written)
  = Ok (written ++ part ++ repeat 0 n).
Proof.
  unfold typed_set.
  replace (len (written ++ repeat 0 (length part + n))
           <? len written + len part) with false.
  - rewrite firstn_len_app. do 3 f_equal.
    replace (Z.to_nat (len written + len part))
      with (length written + length part)%nat by (unfold len; lia).
    rewrite skipn_app, skipn_all2 by lia. simpl.
    replace (length written + length part - length written)%nat
      with (length part) by lia.
    apply skipn_repeat.
  - symmetry. apply Z.ltb_ge. len_simpl. unfold len. lia.
Qed.

Lemma typed_store_at_end (written : list Z) (v : Z) :
  typed_store written (len written) v = written.
Proof.
  unfold typed_store.
  replace (len written <? len written) with false
    by (symmetry; apply Z.ltb_ge; lia).
  now rewrite andb_false_r.
Qed.

Lemma typed_store_zero (written : list Z) (n : nat) (v : Z) :
  typed_store (written ++ repeat 0 (S n)) (len written) v
  = written ++ v :: repeat 0 n.
Proof.
  unfold typed_store.
  pose proof (len_nonneg written) as Hw.
  replace (0 <=? len written) with true by (symmetry; apply Z.leb_le; lia).
  replace (len written <? len (written ++ repeat 0 (S n))) with true
    by (symmetry; apply Z.ltb_lt; len_simpl; lia).
  simpl andb. cbv iota. rewrite firstn_len_app. do 2 f_equal.
  replace (Z.to_nat (len written + 1)) with (length written + 1)%nat
    by (unfold len; lia).
  rewrite skipn_app, skipn_all2 by lia.
  replace (length written + 1 - length written)%nat with 1%nat by lia.
  reflexivity.
Qed.

(** The loop of [joinUint8ArrayWithDot], entered with [written] in place and
    room left for exactly the parts to come and the dots between them. *)
Lemma join_loop_spec (rest : list (list Z)) (part written : list Z) :
  rbind
    (fold_left join_step (part :: rest)
       (Ok (written ++ repeat 0 (Z.to_nat (cells (part :: rest) - 1)),
            len written)))
    (fun '(result_, _) => Ok result_)
  = Ok (written ++ dot_join (part :: rest)).
Proof.
  revert part written.
  induction rest as [|next rest IH]; intros part written.
  - simpl cells. simpl fold_left. unfold join_step, rbind at 2.
    replace (Z.to_nat (len part + 1 + 0 - 1)) with (length part + 0)%nat
      by (unfold len; lia).
    rewrite typed_set_zeros. simpl.
    rewrite app_nil_r.
    replace (len written + len part) with (len (written ++ part))
      by (len_simpl; lia).
    now rewrite typed_store_at_end.
  - change (fold_left join_step (part :: next :: rest) ?a)
      with (fold_left join_step (next :: rest) (join_step a part)).
    pose proof (cells_nonneg rest) as Hc.
    pose proof (len_nonneg next) as Hn.
    set (room := Z.to_nat (cells (next :: rest) - 1)).
    replace (Z.to_nat (cells (part :: next :: rest) - 1))
      with (length part + S room)%nat
      by (unfold room; simpl cells; unfold len; lia).
    unfold join_step at 2, rbind at 2.
    rewrite typed_set_zeros. unfold rbind at 2.
    replace (len written + len part) with (len (written ++ part))
      by (len_simpl; lia).
    rewrite app_assoc, typed_store_zero.
    replace (len (written ++ part) + 1) with (len ((written ++ part) ++ [46]))
      by (len_simpl; lia).
    replace ((written ++ part) ++ 46 :: repeat 0 room)
      with (((written ++ part) ++ [46]) ++ repeat 0 room)
      by (now rewrite <- app_assoc).
    unfold room. rewrite IH.
    f_equal. rewrite <- !app_assoc. reflexivity.
Qed.

(** A non-empty list of parts is joined by dots; the empty list asks for
    an array of length -1. *)
Lemma joinUint8ArrayWithDot_spec (parts : list (list Z)) :
  joinUint8ArrayWithDot parts =
    match parts with
    | [] => Throw RangeError
    | _ :: _ => Ok (dot_join parts)
    end.
Proof.
  destruct parts as [|part rest]; [reflexivity|].
  unfold joinUint8ArrayWithDot. rewrite totalLength_cells.
  unfold newUint8Array.
  pose proof (cells_nonneg rest) as Hc. pose proof (len_nonneg part) as Hp.
  replace (-1 + cells (part :: rest) <? 0) with false
    by (symmetry; apply Z.ltb_ge; simpl cells; lia).
  unfold rbind at 1.
  replace (-1 + cells (part :: rest)) with (cells (part :: rest) - 1) by lia.
  apply (join_loop_spec rest part []).
Qed.

(** ** The cursor *)

Lemma read_at_end (n : Z) (r : SeekableBytesReader.t) :
  len (data_of r) <= pos_of r -> read n r = Throw BEYOND.
Proof.
  intros H. unfold read, SeekableBytesReader.read.
  now replace (len (data_of r) <=? pos_of r) with true
    by (symmetry; apply Z.leb_le; lia).
Qed.

Lemma read_inside (n : Z) (r : SeekableBytesReader.t) :
  pos_of r < len (data_of r) ->
  read n r =
    let endPosition := Z.min (pos_of r + n) (len (data_of r)) in
    Ok (subarray (data_of r) (pos_of r) endPosition,
        Reader (data_of r) endPosition).
Proof.
  intros H. unfold read, SeekableBytesReader.read.
  now replace (len (data_of r) <=? pos_of r) with false
    by (symmetry; apply Z.leb_gt; lia).
Qed.

Lemma len_subarray (array : list Z) (begin end_ : Z) :
  0 <= begin <= end_ -> end_ <= len array ->
  len (subarray array begin end_) = end_ - begin.
Proof.
  intros H1 H2. unfold subarray. apply len_firstn_skipn; lia.
Qed.

Lemma nth_subarray (array : list Z) (begin end_ i : Z) :
  0 <= begin -> 0 <= i < end_ - begin ->
  nth (Z.to_nat i) (subarray array begin end_) 0
  = nth (Z.to_nat (begin + i)) array 0.
Proof.
  intros Hb Hi. unfold subarray.
  rewrite nth_firstn.
  replace (Z.to_nat i <? Z.to_nat (end_ - begin))%nat with true
    by (symmetry; apply Nat.ltb_lt; lia).
  rewrite nth_skipn. f_equal. lia.
Qed.

(** What a successful [read] tells. *)
Lemma read_inv (n : Z) (r r' : SeekableBytesReader.t) (bytes : list Z) :
  in_bounds r -> 0 <= n -> read n r = Ok (bytes, r') ->
  pos_of r < len (data_of r)
  /\ data_of r' = data_of r
  /\ pos_of r' = pos_of r + len bytes
  /\ len bytes = Z.min n (len (data_of r) - pos_of r)
  /\ bytes = subarray (data_of r) (pos_of r) (pos_of r + len bytes)
  /\ in_bounds r'.
Proof.
  intros [Hlo Hhi] Hn H.
  destruct (Z_lt_le_dec (pos_of r) (len (data_of r))) as [Hin|Hout].
  - rewrite read_inside in H by assumption. cbv zeta in H.
    injection H as Hb Hr. subst r'. simpl.
    assert (L : len bytes = Z.min n (len (data_of r) - pos_of r)).
    { subst bytes. rewrite len_subarray; lia. }
    split; [assumption|]. split; [reflexivity|].
    split; [lia|]. split; [assumption|]. split.
    + rewrite L. subst bytes. f_equal. lia.
    + unfold in_bounds. simpl. lia.
  - rewrite read_at_end in H by assumption. discriminate.
Qed.

Lemma seek_inv (offset : Z) (r r' : SeekableBytesReader.t) (u : unit) :
  seek offset r = Ok (u, r') ->
  r' = Reader (data_of r) offset /\ 0 <= offset <= len (data_of r).
Proof.
  unfold seek, SeekableBytesReader.seek.
  destruct (offset <? 0) eqn:E1; [discriminate|].
  destruct (len (data_of r) <? offset) eqn:E2; [discriminate|].
  simpl. intros H. injection H as _ <-.
  apply Z.ltb_ge in E1. apply Z.ltb_ge in E2. split; [reflexivity|lia].
Qed.

Lemma seek_inside (offset : Z) (r : SeekableBytesReader.t) :
  0 <= offset <= len (data_of r) ->
  seek offset r = Ok (tt, Reader (data_of r) offset).
Proof.
  intros H. unfold seek, SeekableBytesReader.seek.
  replace (offset <? 0) with false by (symmetry; apply Z.ltb_ge; lia).
  now replace (len (data_of r) <? offset) with false
    by (symmetry; apply Z.ltb_ge; lia).
Qed.

Lemma seek_outside (offset : Z) (r : SeekableBytesReader.t) :
  offset < 0 \/ len (data_of r) < offset ->
  seek offset r = Throw OUT_OF_RANGE.
Proof.
  intros H. unfold seek, SeekableBytesReader.seek.
  destruct H as [H|H].
  - now replace (offset <? 0) with true by (symmetry; apply Z.ltb_lt; lia).
  - replace (len (data_of r) <? offset) with true
      by (symmetry; apply Z.ltb_lt; lia).
    now rewrite orb_true_r.
Qed.

(** C3, as the code has it.  A [read] fails exactly when the cursor has
    reached the end of the buffer, whatever the request; otherwise it
    returns the [min n (length - position)] bytes under the cursor (fewer
    than requested when the buffer ends first) and advances past them.  A
    [seek] fails exactly for an offset outside [0, length]. *)
Theorem read_clamps_seek_checks :
  forall (data : list Z) (p n offset : Z),
    0 <= p <= len data -> 0 <= n ->
    let this := Reader data p in
    (p = len data -> SeekableBytesReader.read n this = Throw BEYOND)
    /\ (p < len data ->
        exists bytes,
          SeekableBytesReader.read n this = Ok (bytes, Reader data (p + len bytes))
          /\ len bytes = Z.min n (len data - p)
          /\ forall i, 0 <= i < len bytes ->
               nth (Z.to_nat i) bytes 0 = nth (Z.to_nat (p + i)) data 0)
    /\ (offset < 0 \/ len data < offset ->
        SeekableBytesReader.seek offset this = Throw OUT_OF_RANGE)
    /\ (0 <= offset <= len data ->
        SeekableBytesReader.seek offset this = Ok (tt, Reader data offset)).
Proof.
  intros data p n offset Hp Hn this. repeat split.
  - intros E. apply (read_at_end n this). simpl. lia.
  - intros Hin.
    pose proof (read_inside n this Hin) as H. cbv zeta in H. simpl in H.
    set (e := Z.min (p + n) (len data)) in *.
    exists (subarray data p e).
    assert (L : len (subarray data p e) = e - p)
      by (apply len_subarray; unfold e; lia).
    rewrite L. repeat split.
    + replace (p + (e - p)) with e by lia. exact H.
    + unfold e. lia.
    + intros i Hi. apply nth_subarray; lia.
  - intros H. apply (seek_outside offset this H).
  - intros H. apply (seek_inside offset this H).
Qed.

Lemma read_clamps_seek_checks_witness :
  (exists bytes,
     SeekableBytesReader.read 5 (Reader [7; 8; 9] 1)
       = Ok (bytes, Reader [7; 8; 9] (1 + len bytes))
     /\ len bytes = Z.min 5 (len [7; 8; 9] - 1)
     /\ forall i, 0 <= i < len bytes ->
          nth (Z.to_nat i) bytes 0 = nth (Z.to_nat (1 + i)) [7; 8; 9] 0)
  /\ SeekableBytesReader.seek 4 (Reader [7; 8; 9] 1) = Throw OUT_OF_RANGE.
Proof.
  destruct (read_clamps_seek_checks [7; 8; 9] 1 5 4) as (_ & Hread & Hout & _).
  - unfold len. simpl. lia.
  - lia.
  - split.
    + apply Hread. unfold len. simpl. lia.
    + apply Hout. right. unfold len. simpl. lia.
Defined.

(** C3 as stated fails: a request of 4 bytes with 2 left is answered with
    the 2 bytes, not with an error. *)
Lemma read_returns_short_result :
  SeekableBytesReader.read 4 (Reader [1; 2] 0) = Ok ([1; 2], Reader [1; 2] 2).
Proof. reflexivity. Qed.

Lemma read_data (n : Z) (r r' : SeekableBytesReader.t) (bytes : list Z) :
  read n r = Ok (bytes, r') -> data_of r' = data_of r.
Proof.
  unfold read, SeekableBytesReader.read.
  destruct (len (data_of r) <=? pos_of r); [discriminate|].
  intros H. injection H as _ <-. reflexivity.
Qed.

Lemma subarray_one (array : list Z) (p b : Z) :
  0 <= p -> nth_error array (Z.to_nat p) = Some b ->
  subarray array p (p + 1) = [b].
Proof.
  intros Hp H. unfold subarray.
  destruct (nth_error_split _ _ H) as (l1 & l2 & -> & Hl).
  replace (p + 1 - p) with 1 by lia.
  rewrite <- Hl, skipn_app, skipn_all, Nat.sub_diag. reflexivity.
Qed.

Lemma nth_error_inside (array : list Z) (p b : Z) :
  0 <= p -> nth_error array (Z.to_nat p) = Some b -> p < len array.
Proof.
  intros Hp H.
  assert (Z.to_nat p < length array)%nat
    by (apply nth_error_Some; congruence).
  unfold len. lia.
Qed.

(** [reader.read(1)] inside the buffer: the byte under the cursor. *)
Lemma read_one (array : list Z) (p b : Z) :
  0 <= p -> nth_error array (Z.to_nat p) = Some b ->
  read 1 (Reader array p) = Ok ([b], Reader array (p + 1)).
Proof.
  intros Hp H. pose proof (nth_error_inside _ _ _ Hp H) as Hin.
  rewrite read_inside by (simpl; lia). cbv zeta. simpl.
  replace (Z.min (p + 1) (len array)) with (p + 1) by lia.
  now rewrite (subarray_one _ _ _ Hp H).
Qed.

Lemma bytes_ok_nth (array : list Z) (n : nat) (b : Z) :
  bytes_ok array -> nth_error array n = Some b -> is_byte b.
Proof.
  intros Hall H. apply nth_error_In in H.
  unfold bytes_ok in Hall. rewrite Forall_forall in Hall. auto.
Qed.

Lemma Forall_firstn {A} (P : A -> Prop) (n : nat) (l : list A) :
  Forall P l -> Forall P (firstn n l).
Proof.
  intros H. rewrite <- (firstn_skipn n l) in H.
  now apply Forall_app in H.
Qed.

Lemma Forall_skipn {A} (P : A -> Prop) (n : nat) (l : list A) :
  Forall P l -> Forall P (skipn n l).
Proof.
  intros H. rewrite <- (firstn_skipn n l) in H.
  now apply Forall_app in H.
Qed.

Lemma bytes_ok_subarray (array : list Z) (begin end_ : Z) :
  bytes_ok array -> bytes_ok (subarray array begin end_).
Proof.
  intros H. unfold bytes_ok, subarray.
  now apply Forall_firstn, Forall_skipn.
Qed.

Lemma at0_is_byte (bytes : list Z) : bytes_ok bytes -> is_byte (at0 bytes).
Proof.
  intros H. destruct bytes as [|b rest]; simpl.
  - unfold is_byte. lia.
  - now inversion H.
Qed.

(** ** The two tests on a length byte *)

Lemma top_bits_test (b : Z) :
  is_byte b -> (Z.land b 0xC0 =? 0) = (b <? 64).
Proof.
  intros [Hlo Hhi].
  assert (H : forallb (fun n => Bool.eqb (Z.land (Z.of_nat n) 0xC0 =? 0)
                                         (Z.of_nat n <? 64))
                      (seq 0 256) = true) by (vm_compute; reflexivity).
  rewrite forallb_forall in H.
  specialize (H (Z.to_nat b)).
  rewrite Z2Nat.id in H by lia.
  apply Bool.eqb_prop, H, in_seq. lia.
Qed.

Lemma pointer_is_14_bits (b c : Z) :
  is_byte b -> is_byte c -> 0 <= Z.land b 0x3F * 256 + c < 16384.
Proof.
  intros Hb [Hc1 Hc2].
  assert (0 <= Z.land b 0x3F < 64).
  { change 0x3F with (Z.ones 6). rewrite Z.land_ones by lia.
    apply Z.mod_pos_bound. lia. }
  lia.
Qed.

(** ** Unfolding [decodeName] at the byte under the cursor *)

Lemma decodeName_loop_at_end (fuel : nat) (parts : list (list Z))
                             (r : SeekableBytesReader.t) :
  len (data_of r) <= pos_of r ->
  decodeName_loop (S fuel) parts r = Throw BEYOND.
Proof.
  intros H. simpl. unfold bind. now rewrite read_at_end.
Qed.

Lemma decodeName_loop_step (fuel : nat) (parts : list (list Z))
                           (array : list Z) (p b : Z) :
  0 <= p -> nth_error array (Z.to_nat p) = Some b ->
  decodeName_loop (S fuel) parts (Reader array p) =
    (if b =? 0 then lift (joinUint8ArrayWithDot parts)
     else if negb (Z.land b 0xC0 =? 0) then
       name <- decodeCompressedName (decodeName fuel) b ;;
       lift (joinUint8ArrayWithDot (parts ++ [name]))
     else
       part <- read b ;;
       decodeName_loop fuel (parts ++ [part]))
      (Reader array (p + 1)).
Proof.
  intros Hp H. simpl. unfold bind at 1.
  rewrite (read_one _ _ _ Hp H). reflexivity.
Qed.

Lemma decodeCompressedName_step (self : M (list Z)) (array : list Z)
                                (q b c : Z) :
  0 <= q -> nth_error array (Z.to_nat q) = Some c ->
  decodeCompressedName self b (Reader array q) =
    let pointer := Z.land b 0x3F * 256 + c in
    if (pointer <? 0) || (len array <? pointer) then Throw OUT_OF_RANGE
    else match self (Reader array pointer) with
         | Ok (name, r') =>
             rbind (SeekableBytesReader.seek (q + 1) r')
                   (fun '(_, r'') => Ok (name, r''))
         | Throw e => Throw e
         | OutOfFuel => OutOfFuel
         end.
Proof.
  intros Hq H. unfold decodeCompressedName, bind.
  rewrite (read_one _ _ _ Hq H). simpl.
  unfold seek at 1, SeekableBytesReader.seek at 1. simpl.
  destruct ((Z.land b 63 * 256 + c <? 0) || (len array <? Z.land b 63 * 256 + c));
    [reflexivity|].
  destruct (self (Reader array (Z.land b 63 * 256 + c))) as [[name r']| |];
    reflexivity.
Qed.

(** The buffer behind the cursor never changes. *)
Lemma decodeName_loop_data (fuel : nat) :
  forall parts r name r',
    decodeName_loop fuel parts r = Ok (name, r') -> data_of r' = data_of r.
Proof.
  induction fuel as [|fuel IH]; intros parts r name r' H; [discriminate|].
  simpl in H. unfold bind in H.
  destruct (read 1 r) as [[bytes r1]| |] eqn:E1; try discriminate.
  apply read_data in E1.
  destruct (at0 bytes =? 0).
  - unfold lift, rbind in H.
    destruct (joinUint8ArrayWithDot parts); try discriminate.
    injection H as _ <-. assumption.
  - destruct (negb (Z.land (at0 bytes) 192 =? 0)).
    + unfold decodeCompressedName, bind in H.
      destruct (read 1 r1) as [[bytes2 r2]| |] eqn:E2; try discriminate.
      apply read_data in E2.
      unfold lift at 1, rbind at 1 in H.
      destruct (unpackUnsignedShortsBigEndian _) as [shorts| |];
        try discriminate.
      unfold currentPosition, SeekableBytesReader.currentPosition in H.
      destruct (seek (hd 0 shorts) r2) as [[u r3]| |] eqn:E3; try discriminate.
      destruct (decodeName_loop fuel [] r3) as [[nm r4]| |] eqn:E4;
        try discriminate.
      destruct (seek (pos_of r2) r4) as [[u' r5]| |] eqn:E5; try discriminate.
      unfold ret, lift, rbind in H.
      destruct (joinUint8ArrayWithDot _); try discriminate.
      injection H as _ <-.
      apply seek_inv in E3, E5. destruct E3 as [-> _], E5 as [-> _].
      apply IH in E4. simpl in *. congruence.
    + destruct (read (at0 bytes) r1) as [[part r2]| |] eqn:E2;
        try discriminate.
      apply read_data in E2. apply IH in H. congruence.
Qed.

(** ** Compression pointers *)

(** C2.  When the length byte [b] under the cursor is a compression pointer
    (the test [length & 0b1100_0000] succeeds), the low 6 bits of [b] and the
    following byte [c] form a 14-bit absolute offset; the name is decoded
    from that offset by a nested call, the cursor is put back right after
    the two pointer bytes, and no further label is read: the nested name is
    the last part.  Hence a name that is only a pointer decodes to the very
    name found at the offset it points to. *)
Theorem pointer_decodes_target :
  forall (fuel : nat) (data : list Z) (p b c : Z) (parts : list (list Z)),
    bytes_ok data -> 0 <= p ->
    nth_error data (Z.to_nat p) = Some b ->
    nth_error data (Z.to_nat (p + 1)) = Some c ->
    Z.land b 0xC0 <> 0 ->
    let offset := Z.land b 0x3F * 256 + c in
    (0 <= offset < 16384)
    /\ decodeName_loop (S fuel) parts (Reader data p) =
         (if len data <? offset then Throw OUT_OF_RANGE
          else match decodeName fuel (Reader data offset) with
               | Ok (name, _) =>
                   rbind (joinUint8ArrayWithDot (parts ++ [name]))
                         (fun joined => Ok (joined, Reader data (p + 2)))
               | Throw e => Throw e
               | OutOfFuel => OutOfFuel
               end)
    /\ forall name r',
         decodeName fuel (Reader data offset) = Ok (name, r') ->
         decodeName (S fuel) (Reader data p) = Ok (name, Reader data (p + 2)).
Proof.
  intros fuel data p b c parts Hbytes Hp Hb Hc Hptr offset.
  assert (Hrange : 0 <= offset < 16384).
  { apply pointer_is_14_bits; eapply bytes_ok_nth; eassumption. }
  assert (Hnz : (b =? 0) = false).
  { apply Z.eqb_neq. intros ->. now apply Hptr. }
  assert (Htest : negb (Z.land b 0xC0 =? 0) = true).
  { apply negb_true_iff, Z.eqb_neq, Hptr. }
  assert (Hc' : nth_error data (Z.to_nat (p + 1)) = Some c) by assumption.
  assert (Hin : p + 1 < len data) by (apply nth_error_inside in Hc'; lia).
  assert (Hstep : forall parts',
    decodeName_loop (S fuel) parts' (Reader data p) =
      (if len data <? offset then Throw OUT_OF_RANGE
       else match decodeName fuel (Reader data offset) with
            | Ok (name, _) =>
                rbind (joinUint8ArrayWithDot (parts' ++ [name]))
                      (fun joined => Ok (joined, Reader data (p + 2)))
            | Throw e => Throw e
            | OutOfFuel => OutOfFuel
            end)).
  { intros parts'.
    rewrite (decodeName_loop_step fuel parts' data p b Hp Hb), Hnz, Htest.
    unfold bind at 1.
    rewrite (decodeCompressedName_step _ data (p + 1) b c) by (assumption || lia).
    cbv zeta. fold offset.
    replace (offset <? 0) with false by (symmetry; apply Z.ltb_ge; lia).
    simpl orb.
    destruct (len data <? offset); [reflexivity|].
    destruct (decodeName fuel (Reader data offset)) as [[name r']| |] eqn:E;
      try reflexivity.
    apply decodeName_loop_data in E. simpl in E.
    change (SeekableBytesReader.seek (p + 1 + 1) r') with (seek (p + 1 + 1) r').
    rewrite seek_inside by (rewrite E; lia).
    rewrite E. simpl rbind at 1.
    replace (p + 1 + 1) with (p + 2) by lia.
    unfold lift. reflexivity. }
  split; [exact Hrange|]. split; [apply Hstep|].
  intros name r' Hname. unfold decodeName at 1. rewrite Hstep, Hname.
  assert (Hoff : (len data <? offset) = false).
  { apply Z.ltb_ge.
    destruct (Z_lt_le_dec (len data) offset) as [Hgt|]; [|assumption].
    destruct fuel as [|fuel']; [discriminate|].
    unfold decodeName in Hname.
    rewrite decodeName_loop_at_end in Hname by (simpl; lia). discriminate. }
  rewrite Hoff. simpl app. now rewrite joinUint8ArrayWithDot_spec.
Qed.

Lemma pointer_decodes_target_witness :
  decodeName 3 (Reader [1; 97; 0; 0xC0; 0] 3) = Ok ([97], Reader [1; 97; 0; 0xC0; 0] 5).
Proof.
  refine (proj2 (proj2 (pointer_decodes_target 2 [1; 97; 0; 0xC0; 0] 3 0xC0 0 []
                          _ _ _ _ _)) [97] (Reader [1; 97; 0; 0xC0; 0] 3) _).
  - repeat constructor; unfold is_byte; lia.
  - lia.
  - reflexivity.
  - reflexivity.
  - discriminate.
  - reflexivity.
Defined.

(** ** The empty name *)

(** C8, at the failing input: a name that is only its zero terminator makes
    [joinUint8ArrayWithDot] ask for an array of length -1, and [decodeName]
    throws a [RangeError] instead of returning the empty byte string. *)
Theorem decodeName_empty_name_throws :
  forall (fuel : nat) (before after : list Z),
    decodeName (S fuel) (Reader (before ++ 0 :: after) (len before))
    = Throw RangeError.
Proof.
  intros fuel before after. unfold decodeName.
  rewrite (decodeName_loop_step fuel [] _ (len before) 0).
  - reflexivity.
  - apply len_nonneg.
  - rewrite to_nat_len, nth_error_app2, Nat.sub_diag by lia. reflexivity.
Qed.

(** Labels, when there is at least one, are joined by single dots with
    none trailing. *)
Lemma joinUint8ArrayWithDot_labels (part : list Z) (rest : list (list Z)) :
  joinUint8ArrayWithDot (part :: rest) = Ok (dot_join (part :: rest)).
Proof. apply joinUint8ArrayWithDot_spec. Qed.

(** ** Literal labels and pointers *)

(** C7, as the code has it.  A nonzero length byte is taken for a
    compression pointer as soon as one of its top two bits is set, that is
    from 0x40 on (not only from 0xC0 on); a length byte from 1 to 63 is a
    literal label length, and exactly that many following bytes are the
    label when the buffer holds them, after which the next length byte is
    read; when the buffer ends inside the label the decoding throws. *)
Theorem length_byte_dispatch :
  forall (fuel : nat) (data : list Z) (p b : Z) (parts : list (list Z)),
    bytes_ok data -> 0 <= p ->
    nth_error data (Z.to_nat p) = Some b -> b <> 0 ->
    (64 <= b ->
       Z.land b 0xC0 <> 0
       /\ decodeName_loop (S fuel) parts (Reader data p) =
            (name <- decodeCompressedName (decodeName fuel) b ;;
             lift (joinUint8ArrayWithDot (parts ++ [name])))
              (Reader data (p + 1)))
    /\ (b < 64 ->
          Z.land b 0xC0 = 0
          /\ (1 <= b <= 63)
          /\ (p + 1 + b <= len data ->
                decodeName_loop (S fuel) parts (Reader data p) =
                  decodeName_loop fuel
                    (parts ++ [subarray data (p + 1) (p + 1 + b)])
                    (Reader data (p + 1 + b)))
          /\ (len data < p + 1 + b ->
                decodeName_loop (S (S fuel)) parts (Reader data p)
                = Throw BEYOND)).
Proof.
  intros fuel data p b parts Hbytes Hp Hb Hnz.
  assert (Hbyte : is_byte b) by (eapply bytes_ok_nth; eassumption).
  pose proof (top_bits_test b Hbyte) as Htest.
  assert (Hz : (b =? 0) = false) by (now apply Z.eqb_neq).
  assert (Hin : p < len data) by (now apply nth_error_inside in Hb).
  split.
  - intros Hge.
    assert (Hland : (Z.land b 0xC0 =? 0) = false).
    { rewrite Htest. apply Z.ltb_ge. lia. }
    split; [now apply Z.eqb_neq|].
    now rewrite (decodeName_loop_step fuel parts data p b Hp Hb), Hz, Hland.
  - intros Hlt.
    assert (Hland : (Z.land b 0xC0 =? 0) = true).
    { rewrite Htest. apply Z.ltb_lt. lia. }
    destruct Hbyte as [Hb0 _].
    split; [now apply Z.eqb_eq|]. split; [lia|]. split.
    + intros Hfits.
      rewrite (decodeName_loop_step fuel parts data p b Hp Hb), Hz, Hland.
      cbn [negb]. cbv iota. unfold bind.
      rewrite read_inside by (simpl; lia). cbv zeta. simpl.
      now replace (Z.min (p + 1 + b) (len data)) with (p + 1 + b) by lia.
    + intros Hshort.
      rewrite (decodeName_loop_step (S fuel) parts data p b Hp Hb), Hz, Hland.
      cbn [negb]. cbv iota. unfold bind.
      destruct (Z_lt_le_dec (p + 1) (len data)) as [Hmore|Hend].
      * rewrite read_inside by (simpl; lia). cbv zeta.
        apply decodeName_loop_at_end. simpl. lia.
      * now rewrite read_at_end by (simpl; lia).
Qed.

Lemma length_byte_dispatch_witness :
  decodeName_loop 2 [] (Reader [1; 97; 0] 0) =
    decodeName_loop 1 ([] ++ [subarray [1; 97; 0] (0 + 1) (0 + 1 + 1)])
      (Reader [1; 97; 0] (0 + 1 + 1)).
Proof.
  refine (proj1 (proj2 (proj2 (proj2
            (length_byte_dispatch 1 [1; 97; 0] 0 1 [] _ _ _ _) _))) _).
  - repeat constructor; unfold is_byte; lia.
  - lia.
  - reflexivity.
  - discriminate.
  - lia.
  - unfold len. simpl. lia.
Defined.

(** C7 as stated fails: the length byte 0x40, below 0xC0, is followed as a
    pointer (to offset 3, where the name "a" stands) and not read as the
    length of a label. *)
Lemma byte_0x40_is_followed_as_pointer :
  decodeName 3 (Reader [0x40; 3; 0; 1; 97; 0] 0)
  = Ok ([97], Reader [0x40; 3; 0; 1; 97; 0] 2).
Proof. reflexivity. Qed.

(** ** Termination *)

Lemma decodeName_loop_mono (fuel : nat) :
  forall (fuel' : nat) (parts : list (list Z)) (r : SeekableBytesReader.t),
    (fuel <= fuel')%nat ->
    finished (decodeName_loop fuel parts r) ->
    decodeName_loop fuel' parts r = decodeName_loop fuel parts r.
Proof.
  induction fuel as [|fuel IH]; intros fuel' parts r Hle Hfin;
    [contradiction|].
  destruct fuel' as [|fuel']; [lia|]. apply le_S_n in Hle.
  simpl in *. unfold bind in *.
  destruct (read 1 r) as [[bytes r1]| |]; try reflexivity.
  destruct (at0 bytes =? 0); [reflexivity|].
  destruct (negb (Z.land (at0 bytes) 192 =? 0)).
  - unfold decodeCompressedName, bind in *.
    destruct (read 1 r1) as [[bytes2 r2]| |]; try reflexivity.
    destruct (lift (unpackUnsignedShortsBigEndian _) r2) as [[shorts r2']| |];
      try reflexivity.
    destruct (currentPosition r2') as [[original r3]| |]; try reflexivity.
    destruct (seek (hd 0 shorts) r3) as [[u r4]| |]; try reflexivity.
    destruct (decodeName_loop fuel [] r4) as [[name r5]| |] eqn:E;
      try contradiction.
    + rewrite IH by (assumption || now rewrite E). now rewrite E.
    + rewrite IH by (assumption || now rewrite E). now rewrite E.
  - destruct (read (at0 bytes) r1) as [[part r2]| |]; try reflexivity.
    now apply IH.
Qed.

(** From the cursor, [decodeName] either finishes without a nested call, or
    reaches the pointer whose target [pointer_target] names and finishes as
    soon as the nested call does. *)
Lemma decodeName_loop_to_pointer (n : nat) :
  forall (nested : nat) (data : list Z) (p : Z) (parts : list (list Z)),
    bytes_ok data -> 0 <= p -> (Z.to_nat (len data - p) < n)%nat ->
    match pointer_target n data p with
    | None => finished (decodeName_loop (n + nested) parts (Reader data p))
    | Some offset =>
        finished (decodeName nested (Reader data offset)) ->
        finished (decodeName_loop (n + nested) parts (Reader data p))
    end.
Proof.
  induction n as [|n IH]; intros nested data p parts Hbytes Hp Hn; [lia|].
  change (S n + nested)%nat with (S (n + nested)).
  simpl pointer_target.
  destruct (nth_error data (Z.to_nat p)) as [b|] eqn:Hb.
  - assert (Hbyte : is_byte b) by (eapply bytes_ok_nth; eassumption).
    assert (Hin : p < len data) by (now apply nth_error_inside in Hb).
    rewrite (decodeName_loop_step _ parts data p b Hp Hb).
    destruct (b =? 0).
    { unfold lift, rbind. rewrite joinUint8ArrayWithDot_spec.
      now destruct parts. }
    destruct (negb (Z.land b 192 =? 0)).
    + unfold bind.
      destruct (nth_error data (Z.to_nat (p + 1))) as [c|] eqn:Hc.
      * rewrite (decodeCompressedName_step _ data (p + 1) b c)
          by (assumption || lia).
        cbv zeta.
        destruct ((Z.land b 63 * 256 + c <? 0)
                  || (len data <? Z.land b 63 * 256 + c)); [exact I|].
        intros Hnested. unfold decodeName in *.
        rewrite (decodeName_loop_mono nested (n + nested) [] _)
          by (assumption || lia).
        destruct (decodeName_loop nested [] (Reader data (Z.land b 63 * 256 + c)))
          as [[name r']| |] eqn:E; try exact I; try contradiction.
        apply decodeName_loop_data in E. simpl in E.
        change (SeekableBytesReader.seek (p + 1 + 1) r')
          with (seek (p + 1 + 1) r').
        assert (p + 1 < len data) by (apply nth_error_inside in Hc; lia).
        rewrite seek_inside by (rewrite E; lia).
        unfold rbind, lift. rewrite joinUint8ArrayWithDot_spec.
        now destruct (parts ++ [name]).
      * apply nth_error_None in Hc.
        unfold decodeCompressedName, bind.
        rewrite read_at_end by (simpl; unfold len; lia). exact I.
    + unfold bind.
      destruct (Z_lt_le_dec (p + 1) (len data)) as [Hmore|Hlast].
      * rewrite read_inside by (simpl; lia). cbv zeta. simpl data_of. simpl pos_of.
        destruct Hbyte as [Hb0 _].
        apply IH; [assumption|lia|lia].
      * rewrite read_at_end by (simpl; lia).
        now destruct (pointer_target n data (Z.min (p + 1 + b) (len data))).
  - apply nth_error_None in Hb.
    rewrite decodeName_loop_at_end by (simpl; unfold len; lia). exact I.
Qed.

Lemma pointer_target_nonneg (n : nat) :
  forall (data : list Z) (p offset : Z),
    pointer_target n data p = Some offset -> 0 <= offset.
Proof.
  induction n as [|n IH]; intros data p offset H; [discriminate|].
  simpl in H.
  destruct (nth_error data (Z.to_nat p)) as [b|]; [|discriminate].
  destruct (b =? 0); [discriminate|].
  destruct (negb (Z.land b 192 =? 0)).
  - destruct (nth_error data (Z.to_nat (p + 1))) as [c|]; [|discriminate].
    destruct (Z.land b 63 * 256 + c <? 0) eqn:E; [discriminate|].
    destruct (len data <? Z.land b 63 * 256 + c); [discriminate|].
    injection H as <-. now apply Z.ltb_ge in E.
  - now apply IH in H.
Qed.

Lemma chain_ends_unfold (jumps : nat) (data : list Z) (p : Z) :
  chain_ends jumps data p =
    match pointer_target (S (length data)) data p with
    | None => true
    | Some offset =>
        match jumps with
        | O => false
        | S jumps' => chain_ends jumps' data offset
        end
    end.
Proof. destruct jumps; reflexivity. Qed.

(** Within the stack: the loop of [decodeName] over literal labels always
    comes to an end (every turn moves the cursor forward, and a read at the
    end of the buffer throws), so the decoding of a name finishes whenever
    the chain of compression pointers that starts at it ends after some
    number [jumps] of pointers. *)
Lemma decodeName_finishes_when_pointer_chain_ends :
  forall (jumps : nat) (data : list Z) (p : Z),
    bytes_ok data -> 0 <= p ->
    chain_ends jumps data p = true ->
    finished (decodeName (S jumps * S (length data)) (Reader data p)).
Proof.
  induction jumps as [|jumps IH]; intros data p Hbytes Hp Hchain;
    rewrite chain_ends_unfold in Hchain.
  - pose proof (decodeName_loop_to_pointer (S (length data)) 0 data p []
                  Hbytes Hp) as H.
    destruct (pointer_target (S (length data)) data p); [discriminate|].
    replace (1 * S (length data))%nat with (S (length data) + 0)%nat by lia.
    apply H. unfold len. lia.
  - pose proof (decodeName_loop_to_pointer (S (length data))
                  (S jumps * S (length data)) data p [] Hbytes Hp) as H.
    replace (S (S jumps) * S (length data))%nat
      with (S (length data) + S jumps * S (length data))%nat by lia.
    destruct (pointer_target (S (length data)) data p) as [offset|] eqn:E.
    + apply H; [unfold len; lia|].
      apply IH; [assumption| |assumption].
      eapply pointer_target_nonneg; eassumption.
    + apply H. unfold len. lia.
Qed.

(** *** On the call stack *)

Lemma decodeName_turns_step (nested : M (list Z)) (fuel : nat)
                            (parts : list (list Z)) (array : list Z)
                            (p b : Z) :
  0 <= p -> nth_error array (Z.to_nat p) = Some b ->
  decodeName_turns nested (S fuel) parts (Reader array p) =
    (if b =? 0 then lift (joinUint8ArrayWithDot parts)
     else if negb (Z.land b 0xC0 =? 0) then
       name <- decodeCompressedName nested b ;;
       lift (joinUint8ArrayWithDot (parts ++ [name]))
     else
       part <- read b ;;
       decodeName_turns nested fuel (parts ++ [part]))
      (Reader array (p + 1)).
Proof.
  intros Hp H. simpl. unfold bind at 1.
  rewrite (read_one _ _ _ Hp H). reflexivity.
Qed.









(** With room enough on the stack, the stack changes nothing: a run of
    [decodeName] that finishes is the run on the stack. *)
Lemma decodeName_turns_within_stack (fuel : nat) :
  forall (stack turns calls : nat) (parts : list (list Z))
         (r : SeekableBytesReader.t),
    (fuel <= stack)%nat -> (fuel <= turns)%nat -> (fuel <= calls)%nat ->
    finished (decodeName_loop fuel parts r) ->
    decodeName_turns (decodeName_on stack calls) turns parts r
    = decodeName_loop fuel parts r.
Proof.
  induction fuel as [|fuel IH];
    intros stack turns calls parts r Hstack Hturns Hcalls Hfin;
    [contradiction|].
  destruct stack as [|stack]; [lia|]. apply le_S_n in Hstack.
  destruct turns as [|turns]; [lia|]. apply le_S_n in Hturns.
  cbn [decodeName_turns decodeName_loop] in *. unfold bind in *.
  destruct (read 1 r) as [[bytes r1]| |]; try reflexivity.
  destruct (at0 bytes =? 0); [reflexivity|].
  destruct (negb (Z.land (at0 bytes) 192 =? 0)).
  - unfold decodeCompressedName, bind in *.
    destruct (read 1 r1) as [[bytes2 r2]| |]; try reflexivity.
    destruct (lift (unpackUnsignedShortsBigEndian _) r2) as [[shorts r2']| |];
      try reflexivity.
    destruct (currentPosition r2') as [[original r3]| |]; try reflexivity.
    destruct (seek (hd 0 shorts) r3) as [[u r4]| |]; try reflexivity.
    cbn [decodeName_on].
    destruct (decodeName_loop fuel [] r4) as [[name r5]| |] eqn:E;
      try contradiction.
    + rewrite (IH stack calls calls [] r4) by (lia || now rewrite E).
      now rewrite E.
    + rewrite (IH stack calls calls [] r4) by (lia || now rewrite E).
      now rewrite E.
  - destruct (read (at0 bytes) r1) as [[part r2]| |]; try reflexivity.
    apply IH; (lia || assumption).
Qed.

Lemma decodeName_on_within_stack (fuel stack turns : nat)
                                 (r : SeekableBytesReader.t) :
  (fuel <= stack)%nat -> (fuel <= turns)%nat ->
  finished (decodeName fuel r) ->
  decodeName_on (S stack) turns r = decodeName fuel r.
Proof.
  intros Hstack Hturns Hfin. cbn [decodeName_on].
  now apply decodeName_turns_within_stack.
Qed.




(** ** The query *)

Lemma encodeDnsName_hex_google :
  uint8ArrayToHex (encodeDnsName "google.com") = "06676f6f676c6503636f6d00"%string.
Proof. reflexivity. Qed.

(** C5.  [buildQuery] lays out a 12-byte big-endian header holding the
    drawn 16-bit id, flags 0 (recursion is not asked for), one question and
    no other entry, then the question: the encoded name, the 16-bit record
    type and the class IN (1).  Without its id and flags, the query for
    "example.com" of type A reads
    0001000000000000076578616d706c6503636f6d0000010001 in hex. *)
Theorem buildQuery_layout :
  forall (id : Z) (domainName : string) (recordType : Z),
    buildQuery id domainName recordType =
      [(id mod 65536) / 256; (id mod 65536) mod 256; 0; 0;
       0; 1; 0; 0; 0; 0; 0; 0]
      ++ encodeDnsName domainName
      ++ [(recordType mod 65536) / 256; (recordType mod 65536) mod 256;
          0; CLASS_IN]
    /\ firstn 12 (buildQuery id domainName recordType)
       = headerToBytes (DNSHeader.mk (Some id) (Some 0) 1 0 0 0)
    /\ uint8ArrayToHex (skipn 4 (buildQuery id "example.com" TYPE_A))
       = "0001000000000000076578616d706c6503636f6d0000010001"%string.
Proof.
  intros id domainName recordType.
  assert (Hlayout : forall name type_,
    buildQuery id name type_ =
      [(id mod 65536) / 256; (id mod 65536) mod 256; 0; 0;
       0; 1; 0; 0; 0; 0; 0; 0]
      ++ encodeDnsName name
      ++ [(type_ mod 65536) / 256; (type_ mod 65536) mod 256; 0; CLASS_IN]).
  { intros name type_.
    unfold buildQuery, headerToBytes, questionToBytes, concatUint8Arrays,
      packUnsignedShortsBigEndian.
    simpl. rewrite !app_nil_r. reflexivity. }
  split; [apply Hlayout|]. split.
  - rewrite Hlayout. reflexivity.
  - rewrite Hlayout. reflexivity.
Qed.

(** ** Resource records *)

Lemma getUint16_subarray (data : list Z) (q n k : Z) :
  0 <= q -> q + n <= len data -> 0 <= k -> k + 2 <= n ->
  getUint16 (subarray data q (q + n)) k = Ok (u16_at data (q + k)).
Proof.
  intros Hq Hn Hk Hk2. unfold getUint16, u16_at.
  rewrite len_subarray by lia.
  replace (q + n - q <? k + 2) with false by (symmetry; apply Z.ltb_ge; lia).
  replace (Z.to_nat k + 1)%nat with (Z.to_nat (k + 1)) by lia.
  rewrite !nth_subarray by lia.
  do 3 f_equal. lia.
Qed.

Lemma getUint32_subarray (data : list Z) (q n k : Z) :
  0 <= q -> q + n <= len data -> 0 <= k -> k + 4 <= n ->
  getUint32 (subarray data q (q + n)) k = Ok (u32_at data (q + k)).
Proof.
  intros Hq Hn Hk Hk4. unfold getUint32, u32_at, u16_at.
  rewrite len_subarray by lia.
  replace (q + n - q <? k + 4) with false by (symmetry; apply Z.ltb_ge; lia).
  replace (Z.to_nat k + 1)%nat with (Z.to_nat (k + 1)) by lia.
  replace (Z.to_nat k + 2)%nat with (Z.to_nat (k + 2)) by lia.
  replace (Z.to_nat k + 3)%nat with (Z.to_nat (k + 3)) by lia.
  rewrite !nth_subarray by lia.
  replace (q + k + 2 + 1) with (q + (k + 3)) by lia.
  replace (q + k + 2) with (q + (k + 2)) by lia.
  replace (q + k + 1) with (q + (k + 1)) by lia.
  f_equal. lia.
Qed.

(** The ten fixed bytes of a record, read at [q]. *)
Lemma read_fixed_fields (data : list Z) (q : Z) :
  0 <= q -> q + 10 <= len data ->
  read 10 (Reader data q)
  = Ok (subarray data q (q + 10), Reader data (q + 10)).
Proof.
  intros Hq Hlen. rewrite read_inside by (simpl; lia). cbv zeta. simpl.
  now replace (Z.min (q + 10) (len data)) with (q + 10) by lia.
Qed.

(** C9, as the code has it.  After the name and the ten fixed bytes (type,
    class, ttl, data length, big-endian), [parseRecord] reads the payload by
    type.  For type A it asks for 4 bytes, whatever the declared data
    length, and renders in dotted decimal the bytes it gets: the 4 bytes
    when the buffer holds them, the 1 to 3 left when it ends first, and it
    throws when none is left.  For type NS it decodes a name, compressed or
    not, ended by its own terminator, whatever the declared data length.
    For every other type it asks for data-length bytes and keeps the bytes
    it gets: all of them when the buffer holds them, those left when it
    ends first, and it throws when the cursor is at the end of the buffer
    (also for a data length of 0). *)
Theorem parseRecord_payload_by_type :
  forall (fuel : nat) (r : SeekableBytesReader.t) (name data : list Z) (q : Z),
    decodeName fuel r = Ok (name, Reader data q) ->
    0 <= q -> q + 10 <= len data ->
    let type_ := u16_at data q in
    let class_ := u16_at data (q + 2) in
    let ttl := u32_at data (q + 4) in
    let dataLen := u16_at data (q + 8) in
    let record := DNSRecord.mk name type_ class_ ttl in
    let payload (n : Z) (render : list Z -> Data) :=
      if len data <=? q + 10 then Throw BEYOND
      else
        let end_ := Z.min (q + 10 + n) (len data) in
        Ok (record (render (subarray data (q + 10) end_)), Reader data end_) in
    parseRecord fuel r =
      (if type_ =? TYPE_NS then
         match decodeName fuel (Reader data (q + 10)) with
         | Ok (nsName, r3) => Ok (record (Bytes nsName), r3)
         | Throw e => Throw e
         | OutOfFuel => OutOfFuel
         end
       else if type_ =? TYPE_A then
         payload 4 (fun ip => Text (ipToString ip))
       else payload dataLen Bytes)
    /\ ipToString [93; 184; 216; 34] = "93.184.216.34"%string.
Proof.
  intros fuel r name data q Hname Hq Hlen type_ class_ ttl dataLen
    record payload.
  split; [|reflexivity].
  unfold parseRecord, bind. rewrite Hname.
  rewrite (read_fixed_fields data q Hq Hlen).
  unfold lift.
  rewrite (getUint16_subarray data q 10 0), (getUint16_subarray data q 10 2),
    (getUint32_subarray data q 10 4), (getUint16_subarray data q 10 8)
    by (assumption || lia).
  unfold rbind. rewrite Z.add_0_r.
  fold type_ class_ ttl dataLen.
  destruct (type_ =? TYPE_NS).
  - destruct (decodeName fuel (Reader data (q + 10))) as [[nsName r3]| |];
      reflexivity.
  - unfold payload.
    destruct (type_ =? TYPE_A).
    + unfold read, SeekableBytesReader.read. simpl.
      now destruct (len data <=? q + 10).
    + unfold read, SeekableBytesReader.read. simpl.
      now destruct (len data <=? q + 10).
Qed.

Lemma parseRecord_payload_by_type_witness :
  parseRecord 2
    (Reader [1; 97; 0; 0; 1; 0; 1; 0; 0; 0; 60; 0; 4; 93; 184; 216; 34] 0)
  = Ok (DNSRecord.mk [97] 1 1 60 (Text "93.184.216.34"),
        Reader [1; 97; 0; 0; 1; 0; 1; 0; 0; 0; 60; 0; 4; 93; 184; 216; 34] 17).
Proof.
  exact (proj1 (parseRecord_payload_by_type 2
                  (Reader [1; 97; 0; 0; 1; 0; 1; 0; 0; 0; 60; 0; 4;
                           93; 184; 216; 34] 0)
                  [97]
                  [1; 97; 0; 0; 1; 0; 1; 0; 0; 0; 60; 0; 4; 93; 184; 216; 34]
                  3 eq_refl
                  ltac:(lia) ltac:(unfold len; simpl; lia))).
Defined.

(** C9 as stated fails: when the reply ends two bytes into the address of a
    type-A record, [parseRecord] does not read 4 bytes; it returns the
    record with the two bytes rendered. *)
Lemma parseRecord_renders_cut_address :
  parseRecord 2 (Reader [1; 97; 0; 0; 1; 0; 1; 0; 0; 0; 60; 0; 4; 93; 184] 0)
  = Ok (DNSRecord.mk [97] 1 1 60 (Text "93.184"),
        Reader [1; 97; 0; 0; 1; 0; 1; 0; 0; 0; 60; 0; 4; 93; 184] 15).
Proof. reflexivity. Qed.

(** ** Encoding, then decoding *)

Lemma read_exact (before bytes after : list Z) :
  bytes <> [] ->
  read (len bytes) (Reader (before ++ bytes ++ after) (len before))
  = Ok (bytes, Reader (before ++ bytes ++ after) (len before + len bytes)).
Proof.
  intros Hne.
  assert (0 < len bytes).
  { destruct bytes; [contradiction|]. len_simpl. pose proof (len_nonneg bytes). lia. }
  pose proof (len_nonneg after). pose proof (len_nonneg before).
  rewrite read_inside by (simpl; len_simpl; lia). cbv zeta. simpl.
  replace (Z.min (len before + len bytes) (len (before ++ bytes ++ after)))
    with (len before + len bytes) by (len_simpl; lia).
  do 2 f_equal. unfold subarray.
  rewrite skipn_len_app.
  replace (len before + len bytes - len before) with (len bytes) by lia.
  apply firstn_len_app.
Qed.

Lemma nth_error_middle (before after : list Z) (b : Z) :
  nth_error (before ++ b :: after) (Z.to_nat (len before)) = Some b.
Proof.
  rewrite to_nat_len, nth_error_app2, Nat.sub_diag by lia. reflexivity.
Qed.

Lemma pack_unpack (values : list Z) :
  Forall field16 values ->
  unpackUnsignedShortsBigEndian (packUnsignedShortsBigEndian values)
  = Ok values.
Proof.
  induction 1 as [|v values Hv _ IH]; [reflexivity|].
  simpl. rewrite IH. simpl.
  unfold field16 in Hv. rewrite Z.mod_small by lia.
  do 2 f_equal. rewrite Z.mul_comm. symmetry. apply Z.div_mod. lia.
Qed.

Lemma encode_loop_wire (parts : list string) (encoded : list Z) :
  fold_left
    (fun encoded part =>
       let partBytes := TextEncoder_encode part in
       let lengthByte := [len partBytes mod 256] in
       concatUint8Arrays [encoded; lengthByte; partBytes])
    parts encoded
  = encoded ++ wire (map TextEncoder_encode parts).
Proof.
  revert encoded. induction parts as [|part parts IH]; intros encoded.
  - simpl. now rewrite app_nil_r.
  - simpl fold_left. rewrite IH. unfold concatUint8Arrays, wire. simpl.
    rewrite app_nil_r, <- app_assoc. reflexivity.
Qed.

Lemma encodeDnsName_wire (domainName : string) :
  encodeDnsName domainName
  = wire (map TextEncoder_encode (split_dot domainName)) ++ [0].
Proof.
  unfold encodeDnsName. rewrite encode_loop_wire.
  unfold concatUint8Arrays. simpl. rewrite ?app_nil_r. reflexivity.
Qed.

Lemma split_dot_cons (s : string) :
  exists part parts, split_dot s = part :: parts.
Proof.
  destruct s as [|c s]; simpl; [now eexists; eexists|].
  destruct (Ascii.eqb c "."); [now eexists; eexists|].
  destruct (split_dot s); now eexists; eexists.
Qed.

(** The parts of a name, joined again by dots, spell the name. *)
Lemma dot_join_split (s : string) :
  dot_join (map TextEncoder_encode (split_dot s)) = TextEncoder_encode s.
Proof.
  induction s as [|c s IH]; [reflexivity|].
  simpl split_dot.
  destruct (split_dot_cons s) as (part & parts & E).
  rewrite E in *. cbn [map] in IH.
  assert (Hcons : TextEncoder_encode (String c s)
                  = Z.of_N (N_of_ascii c) :: TextEncoder_encode s)
    by reflexivity.
  rewrite Hcons, <- IH.
  destruct (Ascii.eqb c ".") eqn:Hc.
  - apply Ascii.eqb_eq in Hc. subst c. reflexivity.
  - cbn [map].
    assert (Hpart : TextEncoder_encode (String c part)
                    = Z.of_N (N_of_ascii c) :: TextEncoder_encode part)
      by reflexivity.
    rewrite Hpart. destruct (map TextEncoder_encode parts); reflexivity.
Qed.

Lemma len_wire_cons (label : list Z) (labels : list (list Z)) :
  len (wire (label :: labels)) = 1 + len label + len (wire labels).
Proof.
  change (wire (label :: labels))
    with ((len label mod 256 :: label) ++ wire labels).
  len_simpl. lia.
Qed.

Lemma length_labels_wire (labels : list (list Z)) :
  (length labels <= length (wire labels))%nat.
Proof.
  induction labels as [|label labels IH]; [apply Nat.le_refl|].
  unfold wire in *. simpl. rewrite length_app. lia.
Qed.

(** [decodeNameSimple] on the wire form of labels of 1 to 255 bytes. *)
Lemma decodeNameSimple_loop_wire (labels : list (list Z)) :
  forall (fuel : nat) (parts : list (list Z)) (before after : list Z),
    Forall (fun label => 1 <= len label <= 255) labels ->
    (length labels < fuel)%nat ->
    decodeNameSimple_loop fuel parts
      (Reader (before ++ (wire labels ++ [0]) ++ after) (len before))
    = lift (joinUint8ArrayWithDot (parts ++ labels))
        (Reader (before ++ (wire labels ++ [0]) ++ after)
                (len before + len (wire labels) + 1)).
Proof.
  induction labels as [|label labels IH];
    intros fuel parts before after Hlabels Hfuel;
    (destruct fuel as [|fuel]; [simpl in Hfuel; lia|]).
  - simpl decodeNameSimple_loop. unfold bind.
    pose proof (len_nonneg before).
    rewrite (read_one _ (len before) 0) by (lia || apply nth_error_middle).
    simpl. rewrite app_nil_r. do 2 f_equal.
    change (len (wire [])) with 0. lia.
  - inversion Hlabels as [|? ? Hlabel Hrest]; subst.
    pose proof (len_nonneg before).
    assert (Hdata : before ++ (wire (label :: labels) ++ [0]) ++ after
                    = before ++ len label :: label ++ (wire labels ++ [0]) ++ after).
    { unfold wire. simpl. rewrite Z.mod_small by lia.
      now rewrite <- !app_assoc. }
    rewrite Hdata.
    change (decodeNameSimple_loop (S fuel) parts ?r)
      with ((bytes <- read 1 ;;
             let length := at0 bytes in
             if length =? 0 then lift (joinUint8ArrayWithDot parts)
             else part <- read length ;;
                  decodeNameSimple_loop fuel (parts ++ [part])) r).
    unfold bind.
    rewrite (read_one _ (len before) (len label))
      by (lia || apply nth_error_middle).
    cbv zeta. change (at0 [len label]) with (len label).
    replace (len label =? 0) with false by (symmetry; apply Z.eqb_neq; lia).
    assert (Hne : label <> []) by (intros ->; unfold len in Hlabel; simpl in Hlabel; lia).
    replace (before ++ len label :: label ++ (wire labels ++ [0]) ++ after)
      with ((before ++ [len label]) ++ label ++ ((wire labels ++ [0]) ++ after))
      by (now rewrite <- app_assoc).
    replace (len before + 1) with (len (before ++ [len label]))
      by (len_simpl; lia).
    rewrite (read_exact _ label _ Hne).
    replace ((before ++ [len label]) ++ label ++ ((wire labels ++ [0]) ++ after))
      with ((before ++ [len label] ++ label) ++ (wire labels ++ [0]) ++ after)
      by (now rewrite <- !app_assoc).
    replace (len (before ++ [len label]) + len label)
      with (len (before ++ [len label] ++ label)) by (len_simpl; lia).
    rewrite IH by (assumption || (simpl in Hfuel; lia)).
    rewrite <- app_assoc. simpl app at 1.
    do 2 f_equal. rewrite len_wire_cons. len_simpl. lia.
Qed.

Lemma field16_bytes (v : Z) :
  field16 v -> v / 256 * 256 + v mod 256 = v.
Proof.
  intros _. rewrite Z.mul_comm. symmetry. apply Z.div_mod. lia.
Qed.

Lemma questionToBytes_built (domainName : string) (type_ class_ : Z) :
  field16 type_ -> field16 class_ ->
  questionToBytes (built_question (domainName, type_, class_))
  = (wire (map TextEncoder_encode (split_dot domainName)) ++ [0])
    ++ [type_ / 256; type_ mod 256; class_ / 256; class_ mod 256].
Proof.
  intros Ht Hc. unfold questionToBytes, built_question, concatUint8Arrays.
  cbn [DNSQuestion.name DNSQuestion.type_ DNSQuestion.class_ concat].
  rewrite encodeDnsName_wire, app_nil_r. f_equal.
  unfold packUnsignedShortsBigEndian. cbn [flat_map app].
  unfold field16 in *.
  now rewrite (Z.mod_small type_ 65536), (Z.mod_small class_ 65536) by lia.
Qed.

Lemma getUint16_first (a b c d : Z) :
  getUint16 [a; b; c; d] 0 = Ok (a * 256 + b).
Proof. reflexivity. Qed.

Lemma getUint16_second (a b c d : Z) :
  getUint16 [a; b; c; d] 2 = Ok (c * 256 + d).
Proof. reflexivity. Qed.

(** A question the codec built, found in a buffer, is parsed back with its
    name in dotted form. *)
Lemma parseQuestion_built (entry : string * Z * Z) (fuel : nat)
                          (before after : list Z) :
  entry_ok entry ->
  (length (questionToBytes (built_question entry)) < fuel)%nat ->
  parseQuestion fuel
    (Reader (before ++ questionToBytes (built_question entry) ++ after)
            (len before))
  = Ok (decoded_question entry,
        Reader (before ++ questionToBytes (built_question entry) ++ after)
               (len before + len (questionToBytes (built_question entry)))).
Proof.
  destruct entry as [[domainName type_] class_].
  intros (Hlabels & Ht & Hc) Hfuel.
  rewrite (questionToBytes_built domainName type_ class_ Ht Hc) in *.
  set (labels := map TextEncoder_encode (split_dot domainName)) in *.
  set (fixed := [type_ / 256; type_ mod 256; class_ / 256; class_ mod 256]) in *.
  assert (Hall : Forall (fun label => 1 <= len label <= 255) labels).
  { unfold labels, labels_ok in *. rewrite Forall_map.
    eapply Forall_impl; [|exact Hlabels]. intros part Hpart. simpl in Hpart. lia. }
  assert (Hjoin : joinUint8ArrayWithDot labels = Ok (TextEncoder_encode domainName)).
  { rewrite joinUint8ArrayWithDot_spec. unfold labels.
    destruct (split_dot_cons domainName) as (part & parts & E).
    rewrite <- dot_join_split, E. reflexivity. }
  unfold parseQuestion, decodeNameSimple, bind.
  replace (before ++ ((wire labels ++ [0]) ++ fixed) ++ after)
    with (before ++ (wire labels ++ [0]) ++ (fixed ++ after))
    by (now rewrite <- !app_assoc).
  rewrite decodeNameSimple_loop_wire.
  - simpl app at 1. unfold lift at 1. rewrite Hjoin. unfold rbind at 1.
    replace (before ++ (wire labels ++ [0]) ++ fixed ++ after)
      with ((before ++ wire labels ++ [0]) ++ fixed ++ after)
      by (now rewrite <- !app_assoc).
    replace (len before + len (wire labels) + 1)
      with (len (before ++ wire labels ++ [0])) by (len_simpl; lia).
    change 4 with (len fixed).
    rewrite read_exact by discriminate.
    replace (getUint16 fixed 0) with (Ok (type_ / 256 * 256 + type_ mod 256))
      by (symmetry; apply getUint16_first).
    replace (getUint16 fixed 2) with (Ok (class_ / 256 * 256 + class_ mod 256))
      by (symmetry; apply getUint16_second).
    unfold lift, rbind, ret, decoded_question.
    rewrite !field16_bytes by assumption.
    do 3 f_equal. len_simpl. lia.
  - assumption.
  - pose proof (length_labels_wire labels).
    rewrite !length_app in Hfuel. lia.
Qed.

Lemma times_parseQuestion_built (entries : list (string * Z * Z)) :
  forall (fuel : nat) (before after : list Z),
    Forall entry_ok entries ->
    (length (concat (map questionToBytes (map built_question entries))) < fuel)%nat ->
    times (length entries) (parseQuestion fuel)
      (Reader (before
               ++ concat (map questionToBytes (map built_question entries))
               ++ after)
              (len before))
    = Ok (map decoded_question entries,
          Reader (before
                  ++ concat (map questionToBytes (map built_question entries))
                  ++ after)
                 (len before
                  + len (concat (map questionToBytes
                                     (map built_question entries))))).
Proof.
  induction entries as [|entry entries IH]; intros fuel before after Hok Hfuel.
  - simpl. unfold ret. do 3 f_equal. change (len (@nil Z)) with 0. lia.
  - inversion Hok as [|? ? Hentry Hrest]; subst.
    cbn [map concat length times] in *. unfold bind.
    set (first := questionToBytes (built_question entry)) in *.
    set (others := concat (map questionToBytes (map built_question entries))) in *.
    rewrite length_app in Hfuel.
    replace (before ++ (first ++ others) ++ after)
      with (before ++ first ++ (others ++ after))
      by (now rewrite <- !app_assoc).
    unfold first at 1 2.
    rewrite parseQuestion_built by (assumption || (fold first; lia)).
    fold first.
    replace (before ++ first ++ others ++ after)
      with ((before ++ first) ++ others ++ after)
      by (now rewrite <- !app_assoc).
    replace (len before + len first) with (len (before ++ first))
      by (len_simpl; lia).
    unfold others at 1 2.
    rewrite IH by (assumption || (fold others; lia)).
    fold others. unfold ret. do 3 f_equal. len_simpl. lia.
Qed.

Lemma len_headerToBytes (header : DNSHeader.t) : len (headerToBytes header) = 12.
Proof. reflexivity. Qed.

Lemma parseHeader_built (id flags nq na ns nr : Z) (rest : list Z) :
  Forall field16 [id; flags; nq; na; ns; nr] ->
  let header := DNSHeader.mk (Some id) (Some flags) nq na ns nr in
  parseHeader (Reader (headerToBytes header ++ rest) 0)
  = Ok (header, Reader (headerToBytes header ++ rest) 12).
Proof.
  intros Hfields header. unfold parseHeader, bind.
  rewrite <- (len_headerToBytes header) at 1.
  change (Reader (headerToBytes header ++ rest) 0)
    with (Reader ([] ++ headerToBytes header ++ rest) (len (@nil Z))).
  rewrite read_exact by discriminate.
  unfold lift, headerToBytes. cbn [DNSHeader.id DNSHeader.flags number
    DNSHeader.numQuestions DNSHeader.numAnswers DNSHeader.numAuthorities
    DNSHeader.numAdditionals header].
  rewrite (pack_unpack _ Hfields). reflexivity.
Qed.

(** C4, as the code has it.  A message the codec can build holds a header
    whose question count is the number of its questions, with no record,
    and questions whose name field is the encoded (length-prefixed,
    uncompressed) form of a domain name with labels of 1 to 63 bytes.
    Decoding its bytes returns the same header and the same questions in the
    same order, each with its type and class, and with the name field
    holding the dotted text of the domain name, not its encoded form. *)
Theorem decode_of_built_message :
  forall (fuel : nat) (id flags : Z) (entries : list (string * Z * Z)),
    field16 id -> field16 flags -> field16 (len entries) ->
    Forall entry_ok entries ->
    let header := DNSHeader.mk (Some id) (Some flags) (len entries) 0 0 0 in
    let message := DNSPacket.mk header (map built_question entries) [] [] [] in
    (length (messageToBytes message) < fuel)%nat ->
    parseDNSPacket fuel (messageToBytes message)
    = Ok (DNSPacket.mk header (map decoded_question entries) [] [] []).
Proof.
  intros fuel id flags entries Hid Hflags Hcount Hentries header message Hfuel.
  unfold messageToBytes, concatUint8Arrays in *.
  cbn [DNSPacket.header DNSPacket.questions message concat] in *.
  set (body := concat (map questionToBytes (map built_question entries))) in *.
  unfold parseDNSPacket, SeekableBytesReader.new.
  unfold bind at 1.
  assert (Hfields : Forall field16 [id; flags; len entries; 0; 0; 0]).
  { repeat (apply Forall_cons; [assumption || (unfold field16; lia)|]).
    apply Forall_nil. }
  unfold header at 1 2.
  rewrite (parseHeader_built id flags (len entries) 0 0 0 body Hfields).
  fold header.
  cbn [DNSHeader.numQuestions DNSHeader.numAnswers DNSHeader.numAuthorities
       DNSHeader.numAdditionals header].
  rewrite to_nat_len. unfold bind at 1.
  replace (Reader (headerToBytes header ++ body) 12)
    with (Reader (headerToBytes header ++ body ++ [])
                 (len (headerToBytes header)))
    by (now rewrite app_nil_r, len_headerToBytes).
  rewrite length_app in Hfuel.
  unfold body at 1.
  rewrite times_parseQuestion_built by (assumption || (fold body; lia)).
  reflexivity.
Qed.

Lemma decode_of_built_message_witness :
  parseDNSPacket 40
    (messageToBytes
       (DNSPacket.mk (DNSHeader.mk (Some 7) (Some 0) 1 0 0 0)
          [DNSQuestion.mk (encodeDnsName "example.com") TYPE_A CLASS_IN]
          [] [] []))
  = Ok (DNSPacket.mk (DNSHeader.mk (Some 7) (Some 0) 1 0 0 0)
          [DNSQuestion.mk (TextEncoder_encode "example.com") TYPE_A CLASS_IN]
          [] [] []).
Proof.
  refine (decode_of_built_message 40 7 0 [("example.com"%string, TYPE_A, CLASS_IN)]
            _ _ _ _ _).
  - unfold field16. lia.
  - unfold field16. lia.
  - unfold field16, len. simpl. lia.
  - apply Forall_cons; [|apply Forall_nil].
    split; [|split; unfold field16, TYPE_A, CLASS_IN; lia].
    unfold labels_ok. simpl split_dot.
    repeat (apply Forall_cons; [unfold len; simpl; lia|]). apply Forall_nil.
  - vm_compute. lia.
Defined.

(** C4 as stated fails: the question built for the name "a" carries the
    encoded name [1; 97; 0]; decoding the bytes of the message returns a
    question that carries the text [97] instead, so the decoded message is
    not the message that was encoded. *)
Lemma decoded_question_name_differs :
  let built := DNSPacket.mk (DNSHeader.mk (Some 7) (Some 0) 1 0 0 0)
                 [DNSQuestion.mk (encodeDnsName "a") TYPE_A CLASS_IN] [] [] [] in
  exists decoded,
    parseDNSPacket 5 (messageToBytes built) = Ok decoded
    /\ DNSPacket.questions built = [DNSQuestion.mk [1; 97; 0] 1 1]
    /\ DNSPacket.questions decoded = [DNSQuestion.mk [97] 1 1]
    /\ decoded <> built.
Proof.
  eexists. split; [reflexivity|]. split; [reflexivity|]. split; [reflexivity|].
  discriminate.
Qed.

(** ** What a decoded packet holds *)

Lemma read_reading (data : list Z) (n : Z) (r r' : SeekableBytesReader.t)
                   (bytes : list Z) :
  bytes_ok data -> reading data r -> 0 <= n ->
  read n r = Ok (bytes, r') ->
  reading data r' /\ bytes_ok bytes /\ len bytes = Z.min n (len data - pos_of r)
  /\ pos_of r < len data.
Proof.
  intros Hbytes [Hdata Hin] Hn H.
  destruct (read_inv n r r' bytes Hin Hn H) as (Hlt & Hd & _ & Hlen & Hsub & Hin').
  rewrite Hdata in *.
  split; [split; [assumption|exact Hin']|].
  split; [rewrite Hsub; now apply bytes_ok_subarray|].
  split; lia.
Qed.

Lemma at0_nonneg (data : list Z) (r r' : SeekableBytesReader.t) (bytes : list Z) :
  bytes_ok data -> reading data r -> read 1 r = Ok (bytes, r') ->
  0 <= at0 bytes.
Proof.
  intros Hbytes Hr H.
  destruct (read_reading data 1 r r' bytes Hbytes Hr ltac:(lia) H)
    as (_ & Hb & _).
  apply at0_is_byte in Hb. unfold is_byte in Hb. lia.
Qed.

Lemma decodeName_loop_reading (data : list Z) (fuel : nat) :
  bytes_ok data ->
  forall parts r name r',
    reading data r ->
    decodeName_loop fuel parts r = Ok (name, r') -> reading data r'.
Proof.
  intros Hbytes.
  induction fuel as [|fuel IH]; intros parts r name r' Hr H; [discriminate|].
  simpl in H. unfold bind in H.
  destruct (read 1 r) as [[bytes r1]| |] eqn:E1; try discriminate.
  pose proof (at0_nonneg data r r1 bytes Hbytes Hr E1) as Hlength.
  apply (read_reading data 1 r r1 bytes Hbytes Hr ltac:(lia)) in E1.
  destruct E1 as (Hr1 & _).
  destruct (at0 bytes =? 0).
  - unfold lift, rbind in H.
    destruct (joinUint8ArrayWithDot parts); try discriminate.
    now injection H as _ <-.
  - destruct (negb (Z.land (at0 bytes) 192 =? 0)).
    + unfold decodeCompressedName, bind in H.
      destruct (read 1 r1) as [[bytes2 r2]| |] eqn:E2; try discriminate.
      apply (read_reading data 1 r1 r2 bytes2 Hbytes Hr1 ltac:(lia)) in E2.
      destruct E2 as ((Hd2 & Hin2) & _).
      unfold lift at 1, rbind at 1 in H.
      destruct (unpackUnsignedShortsBigEndian _) as [shorts| |];
        try discriminate.
      unfold currentPosition, SeekableBytesReader.currentPosition in H.
      destruct (seek (hd 0 shorts) r2) as [[u r3]| |] eqn:E3; try discriminate.
      destruct (decodeName_loop fuel [] r3) as [[nm r4]| |] eqn:E4;
        try discriminate.
      destruct (seek (pos_of r2) r4) as [[u' r5]| |] eqn:E5; try discriminate.
      unfold ret, lift, rbind in H.
      destruct (joinUint8ArrayWithDot _); try discriminate.
      injection H as _ <-.
      apply decodeName_loop_data in E4.
      apply seek_inv in E3, E5. destruct E3 as [-> _], E5 as [-> Hrange].
      simpl in E4. split; simpl; [congruence|].
      unfold in_bounds. simpl. exact Hrange.
    + destruct (read (at0 bytes) r1) as [[part r2]| |] eqn:E2;
        try discriminate.
      apply (read_reading data _ r1 r2 part Hbytes Hr1 Hlength) in E2.
      destruct E2 as (Hr2 & _). eapply IH; eassumption.
Qed.

Lemma decodeNameSimple_loop_reading (data : list Z) (fuel : nat) :
  bytes_ok data ->
  forall parts r name r',
    reading data r ->
    decodeNameSimple_loop fuel parts r = Ok (name, r') -> reading data r'.
Proof.
  intros Hbytes.
  induction fuel as [|fuel IH]; intros parts r name r' Hr H; [discriminate|].
  simpl in H. unfold bind in H.
  destruct (read 1 r) as [[bytes r1]| |] eqn:E1; try discriminate.
  pose proof (at0_nonneg data r r1 bytes Hbytes Hr E1) as Hlength.
  apply (read_reading data 1 r r1 bytes Hbytes Hr ltac:(lia)) in E1.
  destruct E1 as (Hr1 & _).
  destruct (at0 bytes =? 0).
  - unfold lift, rbind in H.
    destruct (joinUint8ArrayWithDot parts); try discriminate.
    now injection H as _ <-.
  - destruct (read (at0 bytes) r1) as [[part r2]| |] eqn:E2; try discriminate.
    apply (read_reading data _ r1 r2 part Hbytes Hr1 Hlength) in E2.
    destruct E2 as (Hr2 & _). eapply IH; eassumption.
Qed.

Lemma lift_inv {A} (c : result A) (r r' : SeekableBytesReader.t) (a : A) :
  lift c r = Ok (a, r') -> c = Ok a /\ r' = r.
Proof.
  unfold lift, rbind. destruct c; try discriminate.
  intros H. injection H as <- <-. now split.
Qed.

Lemma getUint16_nonneg (view : list Z) (k v : Z) :
  bytes_ok view -> getUint16 view k = Ok v -> 0 <= v.
Proof.
  unfold getUint16. destruct (len view <? k + 2); [discriminate|].
  intros Hbytes H. injection H as <-.
  assert (Hnth : forall n, 0 <= nth n view 0).
  { intros n. destruct (nth_in_or_default n view 0) as [Hin|Hdefault].
    - unfold bytes_ok in Hbytes. rewrite Forall_forall in Hbytes.
      apply Hbytes in Hin. unfold is_byte in Hin. lia.
    - rewrite Hdefault. lia. }
  pose proof (Hnth (Z.to_nat k)). pose proof (Hnth (Z.to_nat k + 1)%nat). lia.
Qed.

Lemma parseQuestion_reading (data : list Z) (fuel : nat) :
  bytes_ok data ->
  forall r question r',
    reading data r ->
    parseQuestion fuel r = Ok (question, r') -> reading data r'.
Proof.
  intros Hbytes r question r' Hr H.
  unfold parseQuestion, decodeNameSimple, bind in H.
  destruct (decodeNameSimple_loop fuel [] r) as [[name r1]| |] eqn:E1;
    try discriminate.
  apply (decodeNameSimple_loop_reading data fuel Hbytes) in E1; [|assumption].
  destruct (read 4 r1) as [[buffer r2]| |] eqn:E2; try discriminate.
  apply (read_reading data 4 r1 r2 buffer Hbytes E1 ltac:(lia)) in E2.
  destruct E2 as (Hr2 & _).
  destruct (lift (getUint16 buffer 0) r2) as [[type_ r3]| |] eqn:E3;
    try discriminate.
  apply lift_inv in E3. destruct E3 as [_ ->].
  destruct (lift (getUint16 buffer 2) r2) as [[class_ r4]| |] eqn:E4;
    try discriminate.
  apply lift_inv in E4. destruct E4 as [_ ->].
  unfold ret in H. now injection H as _ <-.
Qed.

Lemma parseRecord_reading (data : list Z) (fuel : nat) :
  bytes_ok data ->
  forall r record r',
    reading data r ->
    parseRecord fuel r = Ok (record, r') ->
    record_ok record /\ reading data r'.
Proof.
  intros Hbytes r record r' Hr H.
  unfold parseRecord, decodeName, bind in H.
  destruct (decodeName_loop fuel [] r) as [[name r1]| |] eqn:E1;
    try discriminate.
  apply (decodeName_loop_reading data fuel Hbytes) in E1; [|assumption].
  destruct (read 10 r1) as [[buffer r2]| |] eqn:E2; try discriminate.
  apply (read_reading data 10 r1 r2 buffer Hbytes E1 ltac:(lia)) in E2.
  destruct E2 as (Hr2 & Hbuffer & _).
  destruct (lift (getUint16 buffer 0) r2) as [[type_ r3]| |] eqn:E3;
    try discriminate.
  apply lift_inv in E3. destruct E3 as [_ ->].
  destruct (lift (getUint16 buffer 2) r2) as [[class_ r4]| |] eqn:E4;
    try discriminate.
  apply lift_inv in E4. destruct E4 as [_ ->].
  destruct (lift (getUint32 buffer 4) r2) as [[ttl r5]| |] eqn:E5;
    try discriminate.
  apply lift_inv in E5. destruct E5 as [_ ->].
  destruct (lift (getUint16 buffer 8) r2) as [[dataLen r6]| |] eqn:E6;
    try discriminate.
  apply lift_inv in E6. destruct E6 as [HdataLen ->].
  apply (getUint16_nonneg buffer 8 dataLen Hbuffer) in HdataLen.
  destruct (type_ =? TYPE_NS) eqn:Hns.
  - destruct (decodeName_loop fuel [] r2) as [[nsName r7]| |] eqn:E7;
      try discriminate.
    apply (decodeName_loop_reading data fuel Hbytes) in E7; [|assumption].
    unfold ret in H. injection H as <- <-. split; [|assumption].
    split; simpl; intros Htype.
    + apply Z.eqb_eq in Hns. unfold TYPE_A, TYPE_NS in *. lia.
    + now exists nsName.
  - destruct (type_ =? TYPE_A) eqn:Ha.
    + destruct (read 4 r2) as [[ip r7]| |] eqn:E7; try discriminate.
      apply (read_reading data 4 r2 r7 ip Hbytes Hr2 ltac:(lia)) in E7.
      destruct E7 as (Hr7 & _ & Hlen & Hlt).
      unfold ret in H. injection H as <- <-. split; [|assumption].
      split; simpl; intros Htype.
      * exists ip. split; [lia|reflexivity].
      * apply Z.eqb_neq in Hns. contradiction.
    + destruct (read dataLen r2) as [[raw r7]| |] eqn:E7; try discriminate.
      apply (read_reading data dataLen r2 r7 raw Hbytes Hr2 HdataLen) in E7.
      destruct E7 as (Hr7 & _).
      unfold ret in H. injection H as <- <-. split; [|assumption].
      split; simpl; intros Htype.
      * apply Z.eqb_neq in Ha. contradiction.
      * apply Z.eqb_neq in Hns. contradiction.
Qed.

Lemma times_reading {A} (data : list Z) (Q : A -> Prop) (parse : M A) :
  (forall r entry r',
     reading data r -> parse r = Ok (entry, r') -> Q entry /\ reading data r') ->
  forall (count : nat) r entries r',
    reading data r ->
    times count parse r = Ok (entries, r') ->
    Forall Q entries /\ reading data r'.
Proof.
  intros Hparse.
  induction count as [|count IH]; intros r entries r' Hr H; simpl in H.
  - unfold ret in H. injection H as <- <-. now split.
  - unfold bind in H.
    destruct (parse r) as [[entry r1]| |] eqn:E1; try discriminate.
    destruct (Hparse _ _ _ Hr E1) as [Hentry Hr1].
    destruct (times count parse r1) as [[rest r2]| |] eqn:E2; try discriminate.
    destruct (IH _ _ _ Hr1 E2) as [Hrest Hr2].
    unfold ret in H. injection H as <- <-. split; [|assumption].
    now constructor.
Qed.

Lemma parseHeader_reading (data : list Z) :
  bytes_ok data ->
  forall r header r',
    reading data r -> parseHeader r = Ok (header, r') -> reading data r'.
Proof.
  intros Hbytes r header r' Hr H. unfold parseHeader, bind in H.
  destruct (read 12 r) as [[buffer r1]| |] eqn:E1; try discriminate.
  apply (read_reading data 12 r r1 buffer Hbytes Hr ltac:(lia)) in E1.
  destruct E1 as (Hr1 & _).
  destruct (lift (unpackUnsignedShortsBigEndian buffer) r1)
    as [[items r2]| |] eqn:E2; try discriminate.
  apply lift_inv in E2. destruct E2 as [_ ->].
  unfold ret in H. now injection H as _ <-.
Qed.

(** Every record of a decoded packet holds what [parseRecord] puts there. *)
Lemma parseDNSPacket_ok (fuel : nat) (data : list Z) (packet : DNSPacket.t) :
  bytes_ok data -> parseDNSPacket fuel data = Ok packet -> packet_ok packet.
Proof.
  intros Hbytes H. unfold parseDNSPacket, rbind in H.
  match type of H with
  | match ?run with _ => _ end = _ => destruct run as [[packet' r']| |] eqn:E
  end; try discriminate.
  injection H as ->. unfold bind in E.
  assert (Hr0 : reading data (SeekableBytesReader.new data)).
  { split; [reflexivity|]. unfold in_bounds. simpl.
    pose proof (len_nonneg data). lia. }
  destruct (parseHeader _) as [[header r1]| |] eqn:E1; try discriminate.
  apply (parseHeader_reading data Hbytes) in E1; [|assumption].
  destruct (times _ (parseQuestion fuel) r1) as [[questions r2]| |] eqn:E2;
    try discriminate.
  apply (times_reading data (fun _ => True)) in E2;
    [|intros r q r'' Hr Hq; split; [exact I|];
      eapply parseQuestion_reading; eassumption
     |assumption].
  destruct E2 as [_ Hr2].
  destruct (times _ (parseRecord fuel) r2) as [[answers r3]| |] eqn:E3;
    try discriminate.
  apply (times_reading data record_ok) in E3;
    [|intros r q r'' Hr Hq; eapply parseRecord_reading; eassumption
     |assumption].
  destruct E3 as [Hanswers Hr3].
  destruct (times _ (parseRecord fuel) r3) as [[authorities r4]| |] eqn:E4;
    try discriminate.
  apply (times_reading data record_ok) in E4;
    [|intros r q r'' Hr Hq; eapply parseRecord_reading; eassumption
     |assumption].
  destruct E4 as [Hauthorities Hr4].
  destruct (times _ (parseRecord fuel) r4) as [[additionals r5]| |] eqn:E5;
    try discriminate.
  apply (times_reading data record_ok) in E5;
    [|intros r q r'' Hr Hq; eapply parseRecord_reading; eassumption
     |assumption].
  destruct E5 as [Hadditionals Hr5].
  unfold ret in E. injection E as <- _.
  repeat split; assumption.
Qed.

(** ** The getters and the empty string *)

Lemma toString10_nonempty (n : Z) : nonempty (toString10 n) = true.
Proof.
  unfold toString10, DecimalString.NilZero.string_of_uint.
  now destruct (N.to_uint (Z.to_N n)).
Qed.

Lemma nonempty_append (s t : string) :
  nonempty s = true -> nonempty (s ++ t) = true.
Proof. now destruct s. Qed.

Lemma ipToString_nonempty (ip : list Z) :
  1 <= len ip -> nonempty (ipToString ip) = true.
Proof.
  destruct ip as [|b rest]; [unfold len; simpl; lia|]. intros _.
  unfold ipToString. cbn [map String.concat].
  pose proof (toString10_nonempty b) as Hb.
  destruct (map toString10 rest); [assumption|].
  now apply nonempty_append.
Qed.

Lemma getAnswer_loop_find (records : list DNSRecord.t) :
  getAnswer_loop records =
    match find isA records with
    | Some answer => DNSRecord.data answer
    | None => Text ""
    end.
Proof.
  induction records as [|record records IH]; [reflexivity|].
  simpl. unfold isA at 1. now destruct (DNSRecord.type_ record =? TYPE_A).
Qed.

Lemma getNameserverIp_loop_find (records : list DNSRecord.t) :
  getNameserverIp_loop records =
    match find isA records with
    | Some additional => DNSRecord.data additional
    | None => Text ""
    end.
Proof.
  induction records as [|record records IH]; [reflexivity|].
  simpl. unfold isA at 1. now destruct (DNSRecord.type_ record =? TYPE_A).
Qed.

Lemma getNameserver_loop_find (records : list DNSRecord.t) :
  getNameserver_loop records =
    match find isNS records with
    | Some authority => TextDecoder_decode (DNSRecord.data authority)
    | None => Ok ""%string
    end.
Proof.
  induction records as [|record records IH]; [reflexivity|].
  simpl. unfold isNS at 1. now destruct (DNSRecord.type_ record =? TYPE_NS).
Qed.

Lemma find_record_ok (test : DNSRecord.t -> bool) (records : list DNSRecord.t)
                     (record : DNSRecord.t) :
  Forall record_ok records -> find test records = Some record ->
  record_ok record /\ test record = true.
Proof.
  intros Hall Hfind. apply find_some in Hfind. destruct Hfind as [Hin Htest].
  rewrite Forall_forall in Hall. auto.
Qed.

(** In a decoded packet the record of type A found first holds a non-empty
    string. *)
Lemma found_address (records : list DNSRecord.t) (record : DNSRecord.t) :
  Forall record_ok records -> find isA records = Some record ->
  exists address,
    DNSRecord.data record = Text address /\ nonempty address = true.
Proof.
  intros Hall Hfind.
  destruct (find_record_ok isA records record Hall Hfind) as [[Ha _] Htest].
  apply Z.eqb_eq in Htest. destruct (Ha Htest) as (ip & Hlen & Hdata).
  exists (ipToString ip). split; [assumption|].
  apply ipToString_nonempty. lia.
Qed.

Lemma found_nameserver (records : list DNSRecord.t) (record : DNSRecord.t) :
  Forall record_ok records -> find isNS records = Some record ->
  exists name, DNSRecord.data record = Bytes name.
Proof.
  intros Hall Hfind.
  destruct (find_record_ok isNS records record Hall Hfind) as [[_ Hns] Htest].
  apply Z.eqb_eq in Htest. exact (Hns Htest).
Qed.

(** ** The resolver *)

Lemma scripted_bytes (script : list (list Z)) :
  Forall bytes_ok script ->
  forall hostname query w received w',
    scripted script hostname query w = (Ok received, w') -> bytes_ok received.
Proof.
  intros Hscript hostname query w received w' H.
  unfold scripted in H. injection H as <- _.
  destruct (nth_in_or_default w script []) as [Hin|Hdefault].
  - rewrite Forall_forall in Hscript. auto.
  - rewrite Hdefault. constructor.
Qed.

Section ResolverProperties.

Variable World : Type.
Variable random : World -> Z * World.
Variable exchange : Data -> list Z -> World -> result (list Z) * World.

(** What is received is a [Uint8Array]. *)
Hypothesis exchange_bytes :
  forall hostname query w received w',
    exchange hostname query w = (Ok received, w') -> bytes_ok received.

Lemma sendQuery_ok (fuel : nat) (ipAddress : Data) (domainName : string)
                   (recordType : Z) (w w1 : World) (response : DNSPacket.t) :
  sendQuery World random exchange fuel ipAddress domainName recordType w
  = (Ok response, w1) ->
  packet_ok response.
Proof.
  unfold sendQuery. destruct (random w) as [id w0].
  destruct (exchange ipAddress _ w0) as [received w2] eqn:E.
  intros H. injection H as H _.
  destruct received as [bytes| |]; try discriminate.
  apply exchange_bytes in E. simpl in H.
  eapply parseDNSPacket_ok; eassumption.
Qed.

(** C1, as the code has it.  On a decoded reply, [resolve] takes the first
    that applies: the address of the first answer record of type A is
    returned; else the address of the first additional record of type A
    becomes the nameserver and the loop goes on, with no resolution of a
    nameserver name for that hop; else the name of the first authority
    record of type NS, decoded as text, is resolved for type A from the
    root and the result becomes the nameserver, provided that text is not
    the empty string; else, also when that text is empty, it throws. *)
Theorem resolve_decision_order :
  forall (fuel : nat) (nameserver : Data) (domainName : string)
         (recortType : Z) (w w1 : World) (response : DNSPacket.t),
    sendQuery World random exchange fuel nameserver domainName recortType w
    = (Ok response, w1) ->
    resolve_loop World random exchange (S fuel) nameserver domainName
                 recortType w =
      match find isA (DNSPacket.answers response) with
      | Some answer => (Ok (DNSRecord.data answer), w1)
      | None =>
          match find isA (DNSPacket.additionals response) with
          | Some glue =>
              resolve_loop World random exchange fuel (DNSRecord.data glue)
                           domainName recortType w1
          | None =>
              match find isNS (DNSPacket.authorities response) with
              | Some delegation =>
                  let nsDomain :=
                    utf8_text (bytes_of (DNSRecord.data delegation)) in
                  if nonempty nsDomain then
                    match resolve World random exchange fuel nsDomain
                                  TYPE_A w1 with
                    | (Ok address, w2) =>
                        resolve_loop World random exchange fuel address
                                     domainName recortType w2
                    | (Throw e, w2) => (Throw e, w2)
                    | (OutOfFuel, w2) => (OutOfFuel, w2)
                    end
                  else (Throw (Error "Something went wrong"), w1)
              | None => (Throw (Error "Something went wrong"), w1)
              end
          end
      end.
Proof.
  intros fuel nameserver domainName recortType w w1 response Hsend.
  destruct (sendQuery_ok _ _ _ _ _ _ _ Hsend)
    as (Hanswers & Hauthorities & Hadditionals).
  cbn [resolve_loop]. rewrite Hsend.
  unfold getAnswer, getNameserverIp, getNameserver.
  rewrite getAnswer_loop_find, getNameserverIp_loop_find,
    getNameserver_loop_find.
  assert (Hns : exists nsDomain,
    match find isNS (DNSPacket.authorities response) with
    | Some authority => TextDecoder_decode (DNSRecord.data authority)
    | None => Ok ""%string
    end = Ok nsDomain
    /\ nsDomain =
       match find isNS (DNSPacket.authorities response) with
       | Some delegation => utf8_text (bytes_of (DNSRecord.data delegation))
       | None => ""%string
       end).
  { destruct (find isNS (DNSPacket.authorities response)) as [ns|] eqn:E.
    - destruct (found_nameserver _ _ Hauthorities E) as [name ->].
      eexists. split; reflexivity.
    - eexists. split; reflexivity. }
  destruct Hns as (nsDomain & -> & HnsDomain).
  destruct (find isA (DNSPacket.answers response)) as [answer|] eqn:Ea.
  - destruct (found_address _ _ Hanswers Ea) as (address & -> & Hne).
    simpl truthy. now rewrite Hne.
  - simpl truthy. cbv iota.
    destruct (find isA (DNSPacket.additionals response)) as [glue|] eqn:Eg.
    + destruct (found_address _ _ Hadditionals Eg) as (address & Hdata & Hne).
      rewrite Hdata. simpl truthy. now rewrite Hne.
    + simpl truthy. cbv iota.
      destruct (find isNS (DNSPacket.authorities response)) as [ns|];
        subst nsDomain; reflexivity.
Qed.

Lemma resolve_loop_returns_address (fuel : nat) :
  forall (nameserver : Data) (domainName : string) (recortType : Z)
         (w w' : World) (value : Data),
    resolve_loop World random exchange fuel nameserver domainName
                 recortType w = (Ok value, w') ->
    exists address, value = Text address /\ nonempty address = true.
Proof.
  induction fuel as [|fuel IH];
    intros nameserver domainName recortType w w' value H; [discriminate|].
  cbn [resolve_loop] in H.
  destruct (sendQuery World random exchange fuel nameserver domainName
              recortType w) as [[response| |] w1] eqn:Hsend;
    try discriminate.
  destruct (sendQuery_ok _ _ _ _ _ _ _ Hsend) as (Hanswers & _ & _).
  destruct (getNameserver response) as [nsDomain| |]; try discriminate.
  destruct (truthy (getAnswer response)) eqn:Hip.
  - injection H as <- _. unfold getAnswer in *.
    rewrite getAnswer_loop_find in *.
    destruct (find isA (DNSPacket.answers response)) as [answer|] eqn:Ea;
      [|discriminate].
    exact (found_address _ _ Hanswers Ea).
  - destruct (truthy (getNameserverIp response)).
    + eapply IH; eassumption.
    + destruct (nonempty nsDomain); [|discriminate].
      destruct (resolve_loop World random exchange fuel ROOT_NAMESERVER
                  nsDomain TYPE_A w1) as [[address| |] w2];
        try discriminate.
      eapply IH; eassumption.
Qed.

(** C10, as the code has it.  The three getters return the data of the
    first record of the type they look for (the nameserver name decoded as
    text), and the empty string when there is none; the address of a
    decoded record of type A is the rendering of the 1 to 4 bytes that
    were left to read, which is never the empty string; and what [resolve]
    returns is a string that is not empty. *)
Theorem empty_string_is_no_address :
  (forall packet : DNSPacket.t,
     getAnswer packet =
       match find isA (DNSPacket.answers packet) with
       | Some answer => DNSRecord.data answer
       | None => Text ""
       end
     /\ getNameserverIp packet =
          match find isA (DNSPacket.additionals packet) with
          | Some additional => DNSRecord.data additional
          | None => Text ""
          end
     /\ getNameserver packet =
          match find isNS (DNSPacket.authorities packet) with
          | Some authority => TextDecoder_decode (DNSRecord.data authority)
          | None => Ok ""%string
          end)
  /\ (forall (fuel : nat) (r r' : SeekableBytesReader.t) (record : DNSRecord.t),
        bytes_ok (data_of r) -> in_bounds r ->
        parseRecord fuel r = Ok (record, r') ->
        DNSRecord.type_ record = TYPE_A ->
        exists ip,
          1 <= len ip <= 4
          /\ DNSRecord.data record = Text (ipToString ip)
          /\ truthy (DNSRecord.data record) = true)
  /\ (forall (fuel : nat) (domainName : string) (recortType : Z)
             (w w' : World) (value : Data),
        resolve World random exchange fuel domainName recortType w
        = (Ok value, w') ->
        exists address, value = Text address /\ nonempty address = true).
Proof.
  split; [|split].
  - intros packet. unfold getAnswer, getNameserverIp, getNameserver.
    now rewrite getAnswer_loop_find, getNameserverIp_loop_find,
      getNameserver_loop_find.
  - intros fuel r r' record Hbytes Hin Hparse Htype.
    destruct (parseRecord_reading (data_of r) fuel Hbytes r record r')
      as [[Ha _] _]; [now split|assumption|].
    destruct (Ha Htype) as (ip & Hlen & Hdata).
    exists ip. split; [assumption|]. split; [assumption|].
    rewrite Hdata. simpl. apply ipToString_nonempty. lia.
  - intros fuel domainName recortType w w' value H.
    eapply resolve_loop_returns_address. exact H.
Qed.

End ResolverProperties.

Lemma bytes_ok_check (data : list Z) :
  forallb (fun b => (0 <=? b) && (b <? 256)) data = true -> bytes_ok data.
Proof.
  intros H. rewrite forallb_forall in H.
  apply Forall_forall. intros b Hb. apply H in Hb.
  apply andb_true_iff in Hb. destruct Hb as [Hlo Hhi].
  apply Z.leb_le in Hlo. apply Z.ltb_lt in Hhi. now split.
Qed.

Lemma referral_then_answer_bytes :
  Forall bytes_ok [referral_reply; answer_reply].
Proof.
  repeat (apply Forall_cons; [apply bytes_ok_check; reflexivity|]).
  apply Forall_nil.
Qed.

(** The reply holds both a nameserver name and its glue address: the glue
    is taken, and the loop goes on from 9.9.9.9. *)
Lemma resolve_decision_order_witness :
  resolve_loop nat fixed_draw (scripted [referral_reply; answer_reply])
               5 ROOT_NAMESERVER "x" TYPE_A 0%nat
  = resolve_loop nat fixed_draw (scripted [referral_reply; answer_reply])
                 4 (Text "9.9.9.9") "x" TYPE_A 1%nat.
Proof.
  assert (Hsend :
    sendQuery nat fixed_draw (scripted [referral_reply; answer_reply])
              4 ROOT_NAMESERVER "x" TYPE_A 0%nat
    = (Ok referral_packet, 1%nat)) by (vm_compute; reflexivity).
  exact (resolve_decision_order nat fixed_draw
           (scripted [referral_reply; answer_reply])
           (scripted_bytes _ referral_then_answer_bytes)
           4 ROOT_NAMESERVER "x"%string TYPE_A 0%nat 1%nat
           referral_packet Hsend).
Defined.

(** C1 as stated fails: the reply holds no answer, no glue, and an authority
    record of type NS whose name is the label EF BB BF; the decoder drops
    the byte order mark, the name is the empty string, and [resolve] throws
    instead of resolving the nameserver. *)
Lemma nameserver_named_by_bom_is_not_resolved :
  exists response delegation,
    parseDNSPacket 4 bom_reply = Ok response
    /\ find isA (DNSPacket.answers response) = None
    /\ find isA (DNSPacket.additionals response) = None
    /\ find isNS (DNSPacket.authorities response) = Some delegation
    /\ DNSRecord.data delegation = Bytes [0xEF; 0xBB; 0xBF]
    /\ resolve nat fixed_draw (scripted [bom_reply]) 5 "x" TYPE_A 0%nat
       = (Throw (Error "Something went wrong"), 1%nat).
Proof.
  do 2 eexists. repeat split; vm_compute; reflexivity.
Qed.

Lemma empty_string_is_no_address_witness :
  exists address, Text "1.2.3.4" = Text address /\ nonempty address = true.
Proof.
  assert (Hresolve :
    resolve nat fixed_draw (scripted [referral_reply; answer_reply])
            5 "x" TYPE_A 0%nat
    = (Ok (Text "1.2.3.4"), 2%nat)) by (vm_compute; reflexivity).
  exact (proj2 (proj2 (empty_string_is_no_address nat fixed_draw
                         (scripted [referral_reply; answer_reply])
                         (scripted_bytes _ referral_then_answer_bytes)))
           5%nat "x"%string TYPE_A 0%nat 2%nat (Text "1.2.3.4") Hresolve).
Defined.

(** C10 as stated fails: the address of a decoded record of type A need not
    be the rendering of 4 bytes with three dots; in a reply cut after the
    first byte of the address it is the string "1". *)
Lemma cut_address_has_no_dot :
  exists response,
    parseDNSPacket 4 cut_reply = Ok response
    /\ getAnswer response = Text "1".
Proof.
  eexists. split; vm_compute; reflexivity.
Qed.

(** * Further properties of the code *)

(** ** utils.ts *)

Lemma dot_join_flat (part : list Z) (rest : list (list Z)) :
  dot_join (part :: rest) = part ++ flat_map (cons 46) rest.
Proof.
  revert part. induction rest as [|next rest IH]; intros part.
  - simpl. now rewrite app_nil_r.
  - change (dot_join (part :: next :: rest))
      with (part ++ 46 :: dot_join (next :: rest)).
    rewrite IH. reflexivity.
Qed.

(** [joinUint8ArrayWithDot] puts one byte 46 between consecutive parts and
    none at either end, whatever the parts hold (empty parts included); for
    the empty list it throws a [RangeError]. *)
Theorem join_puts_dots_between_parts :
  forall parts : list (list Z),
    joinUint8ArrayWithDot parts =
      match parts with
      | [] => Throw RangeError
      | part :: rest => Ok (part ++ flat_map (cons 46) rest)
      end.
Proof.
  intros parts. rewrite joinUint8ArrayWithDot_spec.
  destruct parts as [|part rest]; [reflexivity|].
  now rewrite dot_join_flat.
Qed.

Lemma short_bytes (v : Z) :
  (v mod 65536) / 256 * 256 + (v mod 65536) mod 256 = v mod 65536.
Proof. rewrite Z.mul_comm. symmetry. apply Z.div_mod. lia. Qed.

Lemma pack_unpack_mod (values : list Z) :
  unpackUnsignedShortsBigEndian (packUnsignedShortsBigEndian values)
  = Ok (map (fun v => v mod 65536) values).
Proof.
  induction values as [|v values IH]; [reflexivity|].
  simpl. rewrite IH. simpl. now rewrite short_bytes.
Qed.

Lemma pack_bytes_ok (values : list Z) :
  bytes_ok (packUnsignedShortsBigEndian values).
Proof.
  induction values as [|v values IH]; [constructor|].
  simpl. pose proof (Z.mod_pos_bound v 65536 ltac:(lia)) as Hv.
  constructor; [|constructor; [|exact IH]]; unfold is_byte.
  - split; [apply Z.div_pos; lia|apply Z.div_lt_upper_bound; lia].
  - apply Z.mod_pos_bound. lia.
Qed.

Lemma len_pack (values : list Z) :
  len (packUnsignedShortsBigEndian values) = 2 * len values.
Proof.
  induction values as [|v values IH]; [reflexivity|].
  change (packUnsignedShortsBigEndian (v :: values))
    with ([(v mod 65536) / 256; (v mod 65536) mod 256]
          ++ packUnsignedShortsBigEndian values).
  rewrite len_app, IH, (len_cons v values).
  change (len [v mod 65536 / 256; (v mod 65536) mod 256]) with 2. lia.
Qed.

(** Packing writes two bytes per value, and unpacking them gives back each
    value modulo 2^16: values that fit 16 bits come back unchanged, the
    others wrap around without an error. *)
Theorem unpack_of_pack_wraps_16_bits :
  forall values : list Z,
    unpackUnsignedShortsBigEndian (packUnsignedShortsBigEndian values)
    = Ok (map (fun v => v mod 65536) values)
    /\ bytes_ok (packUnsignedShortsBigEndian values)
    /\ len (packUnsignedShortsBigEndian values) = 2 * len values.
Proof.
  intros values. split; [apply pack_unpack_mod|].
  split; [apply pack_bytes_ok|apply len_pack].
Qed.

Lemma unpack_pairs (n : nat) :
  forall buffer : list Z,
    (length buffer <= n)%nat -> bytes_ok buffer ->
    if Nat.even (length buffer) then
      exists values,
        unpackUnsignedShortsBigEndian buffer = Ok values
        /\ packUnsignedShortsBigEndian values = buffer
        /\ Forall field16 values
        /\ 2 * len values = len buffer
    else unpackUnsignedShortsBigEndian buffer = Throw RangeError.
Proof.
  induction n as [|n IH]; intros buffer Hn Hbytes.
  - destruct buffer; [|simpl in Hn; lia].
    exists []. repeat split. constructor.
  - destruct buffer as [|hi [|lo rest]].
    + exists []. repeat split. constructor.
    + reflexivity.
    + inversion Hbytes as [|? ? Hhi Hrest]; subst.
      inversion Hrest as [|? ? Hlo Hrest']; subst.
      specialize (IH rest ltac:(simpl in Hn; lia) Hrest').
      change (Nat.even (length (hi :: lo :: rest)))
        with (Nat.even (length rest)).
      destruct (Nat.even (length rest)).
      * destruct IH as (values & Hunpack & Hpack & Hfields & Hlen).
        exists (hi * 256 + lo :: values).
        unfold is_byte in Hhi, Hlo.
        assert (Hsmall : 0 <= hi * 256 + lo < 65536) by lia.
        split; [simpl; now rewrite Hunpack|]. split; [|split].
        -- simpl. rewrite Hpack, Z.mod_small by lia.
           f_equal; [|f_equal].
           ++ rewrite Z.div_add_l by lia. rewrite Z.div_small by lia. lia.
           ++ rewrite Z.add_comm, Z.mod_add by lia. apply Z.mod_small. lia.
        -- now constructor.
        -- rewrite !len_cons in *. lia.
      * simpl. now rewrite IH.
Qed.

(** On a buffer of bytes of even length, unpacking succeeds with half as
    many 16-bit values and packing them restores the buffer; on a buffer of
    odd length unpacking throws a [RangeError] (the last [getUint16] reaches
    past the end). *)
Theorem pack_of_unpack_restores_buffer :
  forall buffer : list Z,
    bytes_ok buffer ->
    if Nat.even (length buffer) then
      exists values,
        unpackUnsignedShortsBigEndian buffer = Ok values
        /\ packUnsignedShortsBigEndian values = buffer
        /\ Forall field16 values
        /\ 2 * len values = len buffer
    else unpackUnsignedShortsBigEndian buffer = Throw RangeError.
Proof.
  intros buffer. apply (unpack_pairs (length buffer)). apply Nat.le_refl.
Qed.

Lemma pack_of_unpack_restores_buffer_witness :
  unpackUnsignedShortsBigEndian [1; 2; 3] = Throw RangeError.
Proof.
  exact (pack_of_unpack_restores_buffer [1; 2; 3]
           ltac:(apply bytes_ok_check; reflexivity)).
Defined.

Lemma string_length_append (s t : string) :
  String.length (s ++ t) = (String.length s + String.length t)%nat.
Proof. induction s as [|c s IH]; simpl; auto. Qed.

Lemma hex_byte_two_digits (b : Z) :
  is_byte b -> String.length (padStart 2 "0" (toString16 b)) = 2%nat.
Proof.
  intros [Hlo Hhi].
  assert (H : forallb
                (fun n => Nat.eqb (String.length
                                     (padStart 2 "0" (toString16 (Z.of_nat n)))) 2)
                (seq 0 256) = true) by (vm_compute; reflexivity).
  rewrite forallb_forall in H. specialize (H (Z.to_nat b)).
  rewrite Z2Nat.id in H by lia.
  apply Nat.eqb_eq, H, in_seq. lia.
Qed.

Lemma concat_empty_cons (piece : string) (pieces : list string) :
  String.concat "" (piece :: pieces)
  = (piece ++ String.concat "" pieces)%string.
Proof.
  destruct pieces as [|next pieces]; simpl.
  - induction piece as [|c piece IH]; simpl; congruence.
  - reflexivity.
Qed.

Lemma uint8ArrayToHex_cons (b : Z) (array : list Z) :
  uint8ArrayToHex (b :: array)
  = (padStart 2 "0" (toString16 b) ++ uint8ArrayToHex array)%string.
Proof. unfold uint8ArrayToHex. cbn [map]. apply concat_empty_cons. Qed.

Lemma string_append_assoc (s t u : string) :
  ((s ++ t) ++ u = s ++ (t ++ u))%string.
Proof. induction s as [|c s IH]; simpl; congruence. Qed.

(** The hexadecimal rendering has exactly two digits per byte and the
    rendering of a concatenation is the concatenation of the renderings, so
    that dropping 2k characters from it drops k bytes. *)
Theorem hex_has_two_digits_per_byte :
  forall first second : list Z,
    bytes_ok first ->
    String.length (uint8ArrayToHex first) = (2 * length first)%nat
    /\ uint8ArrayToHex (first ++ second)
       = (uint8ArrayToHex first ++ uint8ArrayToHex second)%string.
Proof.
  intros first second Hbytes. split.
  - induction Hbytes as [|b array Hb _ IH]; [reflexivity|].
    rewrite uint8ArrayToHex_cons, string_length_append,
      (hex_byte_two_digits b Hb), IH.
    simpl length. lia.
  - clear Hbytes. induction first as [|b first IH]; [reflexivity|].
    simpl app. rewrite !uint8ArrayToHex_cons, IH.
    now rewrite string_append_assoc.
Qed.

Lemma hex_has_two_digits_per_byte_witness :
  String.length (uint8ArrayToHex [5; 23; 255]) = (2 * 3)%nat.
Proof.
  exact (proj1 (hex_has_two_digits_per_byte [5; 23; 255] []
                  ltac:(apply bytes_ok_check; reflexivity))).
Defined.

(** ** Names *)

Lemma len_wire_dot_join (label : list Z) (labels : list (list Z)) :
  len (wire (label :: labels)) = len (dot_join (label :: labels)) + 1.
Proof.
  revert label. induction labels as [|next labels IH]; intros label.
  - rewrite len_wire_cons. change (len (wire [])) with 0. simpl dot_join. lia.
  - rewrite len_wire_cons, IH.
    change (dot_join (label :: next :: labels))
      with (label ++ 46 :: dot_join (next :: labels)).
    rewrite len_app, len_cons. lia.
Qed.

(** [encodeDnsName] rejects no name: whatever the name, its encoding ends
    with the zero byte and is exactly two bytes longer than the UTF-8 text
    of the name (one length byte per label instead of each dot, one more
    for the first label, and the terminator). *)
Theorem encodeDnsName_length_and_terminator :
  forall domainName : string,
    (exists body, encodeDnsName domainName = body ++ [0])
    /\ len (encodeDnsName domainName) = len (TextEncoder_encode domainName) + 2.
Proof.
  intros domainName. rewrite encodeDnsName_wire. split; [now eexists|].
  destruct (split_dot_cons domainName) as (part & parts & E).
  rewrite len_app, <- dot_join_split, E. cbn [map].
  rewrite len_wire_dot_join. change (len [0]) with 1. lia.
Qed.

(** [decodeName] on the wire form of labels of 1 to 63 bytes. *)
Lemma decodeName_loop_wire (labels : list (list Z)) :
  forall (fuel : nat) (parts : list (list Z)) (before after : list Z),
    Forall (fun label => 1 <= len label <= 63) labels ->
    (length labels < fuel)%nat ->
    decodeName_loop fuel parts
      (Reader (before ++ (wire labels ++ [0]) ++ after) (len before))
    = lift (joinUint8ArrayWithDot (parts ++ labels))
        (Reader (before ++ (wire labels ++ [0]) ++ after)
                (len before + len (wire labels) + 1)).
Proof.
  induction labels as [|label labels IH];
    intros fuel parts before after Hlabels Hfuel;
    (destruct fuel as [|fuel]; [simpl in Hfuel; lia|]);
    pose proof (len_nonneg before) as Hbefore.
  - rewrite (decodeName_loop_step fuel parts _ (len before) 0)
      by (lia || apply nth_error_middle).
    simpl. rewrite app_nil_r. do 2 f_equal.
    change (len (wire [])) with 0. lia.
  - inversion Hlabels as [|? ? Hlabel Hrest]; subst.
    assert (Hdata : before ++ (wire (label :: labels) ++ [0]) ++ after
                    = before ++ len label :: label ++ (wire labels ++ [0]) ++ after).
    { unfold wire. simpl. rewrite Z.mod_small by lia.
      now rewrite <- !app_assoc. }
    rewrite Hdata.
    rewrite (decodeName_loop_step fuel parts _ (len before) (len label))
      by (lia || apply nth_error_middle).
    replace (len label =? 0) with false by (symmetry; apply Z.eqb_neq; lia).
    rewrite (top_bits_test (len label)) by (unfold is_byte; lia).
    replace (len label <? 64) with true by (symmetry; apply Z.ltb_lt; lia).
    cbn [negb]. cbv iota. unfold bind.
    assert (Hne : label <> [])
      by (intros ->; unfold len in Hlabel; simpl in Hlabel; lia).
    replace (before ++ len label :: label ++ (wire labels ++ [0]) ++ after)
      with ((before ++ [len label]) ++ label ++ ((wire labels ++ [0]) ++ after))
      by (now rewrite <- app_assoc).
    replace (len before + 1) with (len (before ++ [len label]))
      by (len_simpl; lia).
    rewrite (read_exact _ label _ Hne).
    replace ((before ++ [len label]) ++ label ++ ((wire labels ++ [0]) ++ after))
      with ((before ++ [len label] ++ label) ++ (wire labels ++ [0]) ++ after)
      by (now rewrite <- !app_assoc).
    replace (len (before ++ [len label]) + len label)
      with (len (before ++ [len label] ++ label)) by (len_simpl; lia).
    rewrite IH by (assumption || (simpl in Hfuel; lia)).
    rewrite <- app_assoc. simpl app at 1.
    do 2 f_equal. rewrite len_wire_cons. len_simpl. lia.
Qed.

(** The compression-aware decoder reads back what [encodeDnsName] wrote:
    wherever the encoding of a name with labels of 1 to 63 bytes stands in
    a buffer, [decodeName] returns the text of the name and leaves the
    cursor right after the terminator. *)
Theorem decodeName_of_encoded_name :
  forall (fuel : nat) (domainName : string) (before after : list Z),
    labels_ok domainName ->
    (length (split_dot domainName) < fuel)%nat ->
    decodeName fuel
      (Reader (before ++ encodeDnsName domainName ++ after) (len before))
    = Ok (TextEncoder_encode domainName,
          Reader (before ++ encodeDnsName domainName ++ after)
                 (len before + len (encodeDnsName domainName))).
Proof.
  intros fuel domainName before after Hlabels Hfuel.
  rewrite encodeDnsName_wire. unfold decodeName.
  rewrite decodeName_loop_wire.
  - simpl app at 1. unfold lift.
    destruct (split_dot_cons domainName) as (part & parts & E).
    rewrite joinUint8ArrayWithDot_spec, <- dot_join_split, E. cbn [map rbind].
    do 3 f_equal. rewrite len_app. change (len [0]) with 1. lia.
  - unfold labels_ok in Hlabels. rewrite Forall_map. exact Hlabels.
  - now rewrite length_map.
Qed.

Lemma decodeName_of_encoded_name_witness :
  decodeName 3 (Reader ([7] ++ encodeDnsName "example.com" ++ [9]) (len [7]))
  = Ok (TextEncoder_encode "example.com",
        Reader ([7] ++ encodeDnsName "example.com" ++ [9])
               (len [7] + len (encodeDnsName "example.com"))).
Proof.
  apply decodeName_of_encoded_name.
  - unfold labels_ok. simpl split_dot.
    repeat (apply Forall_cons; [unfold len; simpl; lia|]). apply Forall_nil.
  - simpl. lia.
Defined.

Lemma decodeNameSimple_loop_step (fuel : nat) (parts : list (list Z))
                                 (array : list Z) (p b : Z) :
  0 <= p -> nth_error array (Z.to_nat p) = Some b ->
  decodeNameSimple_loop (S fuel) parts (Reader array p) =
    (if b =? 0 then lift (joinUint8ArrayWithDot parts)
     else part <- read b ;; decodeNameSimple_loop fuel (parts ++ [part]))
      (Reader array (p + 1)).
Proof.
  intros Hp H. simpl. unfold bind at 1.
  rewrite (read_one _ _ _ Hp H). reflexivity.
Qed.

Lemma decodeNameSimple_loop_finishes (fuel : nat) :
  forall (data : list Z) (p : Z) (parts : list (list Z)),
    bytes_ok data -> 0 <= p ->
    (Z.to_nat (len data - p) < fuel)%nat ->
    finished (decodeNameSimple_loop fuel parts (Reader data p)).
Proof.
  induction fuel as [|fuel IH]; intros data p parts Hbytes Hp Hfuel; [lia|].
  destruct (nth_error data (Z.to_nat p)) as [b|] eqn:Hb.
  - assert (Hbyte : is_byte b) by (eapply bytes_ok_nth; eassumption).
    assert (Hin : p < len data) by (now apply nth_error_inside in Hb).
    rewrite (decodeNameSimple_loop_step fuel parts data p b Hp Hb).
    destruct (b =? 0) eqn:Hz.
    + unfold lift, rbind. rewrite joinUint8ArrayWithDot_spec.
      now destruct parts.
    + apply Z.eqb_neq in Hz. destruct Hbyte as [Hb0 _]. unfold bind.
      destruct (Z_lt_le_dec (p + 1) (len data)) as [Hmore|Hlast].
      * rewrite read_inside by (simpl; lia). cbv zeta. simpl.
        apply IH; [assumption|lia|lia].
      * rewrite read_at_end by (simpl; lia). exact I.
  - apply nth_error_None in Hb. simpl. unfold bind.
    rewrite read_at_end by (simpl; unfold len; lia). exact I.
Qed.

(** [decodeNameSimple] comes to an end on every buffer of bytes, from every
    offset: within [length + 1] turns of its loop it has returned or thrown
    (each turn moves the cursor forward and a read at the end throws). *)
Theorem decodeNameSimple_always_finishes :
  forall (data : list Z) (p : Z) (fuel : nat),
    bytes_ok data -> 0 <= p -> (length data < fuel)%nat ->
    finished (decodeNameSimple fuel (Reader data p)).
Proof.
  intros data p fuel Hbytes Hp Hfuel.
  apply decodeNameSimple_loop_finishes; try assumption.
  unfold len. lia.
Qed.

Lemma decodeNameSimple_always_finishes_witness :
  finished (decodeNameSimple 3 (Reader [0xC0; 0x00] 0)).
Proof.
  apply decodeNameSimple_always_finishes.
  - apply bytes_ok_check. reflexivity.
  - lia.
  - simpl. lia.
Defined.

Lemma dot_join_nonempty (parts : list (list Z)) :
  parts <> [] -> Forall (fun part => part <> []) parts -> dot_join parts <> [].
Proof.
  intros Hne Hall. destruct parts as [|part rest]; [contradiction|].
  inversion Hall as [|? ? Hpart _]; subst.
  rewrite dot_join_flat. destruct part; [contradiction|discriminate].
Qed.

Lemma joined_nonempty (parts : list (list Z)) (name : list Z) :
  Forall (fun part => part <> []) parts ->
  joinUint8ArrayWithDot parts = Ok name -> name <> [].
Proof.
  intros Hall H. rewrite joinUint8ArrayWithDot_spec in H.
  destruct parts as [|part rest]; [discriminate|].
  injection H as <-.
  apply (dot_join_nonempty (part :: rest)); [discriminate|assumption].
Qed.

Lemma read_progress (data : list Z) (n : Z) (r r' : SeekableBytesReader.t)
                    (bytes : list Z) :
  bytes_ok data -> reading data r -> 1 <= n ->
  read n r = Ok (bytes, r') ->
  reading data r' /\ bytes_ok bytes /\ bytes <> []
  /\ pos_of r < pos_of r' /\ pos_of r' <= pos_of r + n.
Proof.
  intros Hbytes Hr Hn H.
  destruct (read_reading data n r r' bytes Hbytes Hr ltac:(lia) H)
    as (Hr' & Hb & Hlen & Hlt).
  destruct Hr as [Hdata Hin].
  destruct (read_inv n r r' bytes Hin ltac:(lia) H) as (_ & _ & Hpos & _).
  split; [assumption|]. split; [assumption|].
  split; [|lia].
  intros ->. change (len (@nil Z)) with 0 in Hlen. lia.
Qed.

Lemma decodeName_loop_progress (data : list Z) (fuel : nat) :
  bytes_ok data ->
  forall parts r name r',
    reading data r ->
    Forall (fun part => part <> []) parts ->
    decodeName_loop fuel parts r = Ok (name, r') ->
    name <> [] /\ pos_of r < pos_of r'.
Proof.
  intros Hbytes.
  induction fuel as [|fuel IH]; intros parts r name r' Hr Hparts H;
    [discriminate|].
  simpl in H. unfold bind in H.
  destruct (read 1 r) as [[bytes r1]| |] eqn:E1; try discriminate.
  pose proof (at0_nonneg data r r1 bytes Hbytes Hr E1) as Hlength.
  apply (read_progress data 1 r r1 bytes Hbytes Hr ltac:(lia)) in E1.
  destruct E1 as (Hr1 & _ & _ & Hpos1 & _).
  destruct (at0 bytes =? 0) eqn:Hz.
  - apply lift_inv in H. destruct H as [Hjoin ->].
    split; [eapply joined_nonempty; eassumption|assumption].
  - apply Z.eqb_neq in Hz.
    destruct (negb (Z.land (at0 bytes) 192 =? 0)).
    + unfold decodeCompressedName, bind in H.
      destruct (read 1 r1) as [[bytes2 r2]| |] eqn:E2; try discriminate.
      apply (read_progress data 1 r1 r2 bytes2 Hbytes Hr1 ltac:(lia)) in E2.
      destruct E2 as ((Hd2 & Hin2) & _ & _ & Hpos2 & _).
      unfold lift at 1, rbind at 1 in H.
      destruct (unpackUnsignedShortsBigEndian _) as [shorts| |];
        try discriminate.
      unfold currentPosition, SeekableBytesReader.currentPosition in H.
      destruct (seek (hd 0 shorts) r2) as [[u r3]| |] eqn:E3; try discriminate.
      destruct (decodeName_loop fuel [] r3) as [[nm r4]| |] eqn:E4;
        try discriminate.
      destruct (seek (pos_of r2) r4) as [[u' r5]| |] eqn:E5; try discriminate.
      unfold ret in H. apply lift_inv in H. destruct H as [Hjoin ->].
      apply seek_inv in E3, E5. destruct E3 as [-> Hrange3], E5 as [-> _].
      assert (Hr3 : reading data (Reader (data_of r2) (hd 0 shorts))).
      { split; simpl; [assumption|]. unfold in_bounds. simpl. exact Hrange3. }
      destruct (IH [] _ nm r4 Hr3 ltac:(constructor) E4) as [Hnm _].
      split; [|simpl; lia].
      eapply joined_nonempty; [|exact Hjoin].
      apply Forall_app. split; [assumption|]. now repeat constructor.
    + destruct (read (at0 bytes) r1) as [[part r2]| |] eqn:E2;
        try discriminate.
      assert (Hone : 1 <= at0 bytes) by lia.
      apply (read_progress data (at0 bytes) r1 r2 part Hbytes Hr1 Hone) in E2.
      destruct E2 as (Hr2 & _ & Hpart & Hpos2 & _).
      destruct (IH (parts ++ [part]) r2 name r' Hr2) as [Hname Hpos];
        [apply Forall_app; split; [assumption|now repeat constructor]
        |assumption|].
      split; [assumption|lia].
Qed.

(** A name that [decodeName] returns is never empty, the cursor it leaves
    is inside the same buffer and strictly after the one it found: every
    successful decoding consumes at least one byte of a buffer it does not
    change. *)
Theorem decodeName_returns_nonempty_name :
  forall (fuel : nat) (r r' : SeekableBytesReader.t) (name : list Z),
    bytes_ok (data_of r) -> in_bounds r ->
    decodeName fuel r = Ok (name, r') ->
    name <> []
    /\ data_of r' = data_of r
    /\ pos_of r < pos_of r' <= len (data_of r).
Proof.
  intros fuel r r' name Hbytes Hin H.
  assert (Hr : reading (data_of r) r) by now split.
  destruct (decodeName_loop_progress (data_of r) fuel Hbytes [] r name r' Hr
              ltac:(constructor) H) as [Hname Hpos].
  destruct (decodeName_loop_reading (data_of r) fuel Hbytes [] r name r' Hr H)
    as [Hdata [_ Hhi]].
  split; [assumption|]. split; [assumption|].
  rewrite <- Hdata. lia.
Qed.

Lemma decodeName_returns_nonempty_name_witness :
  [97] <> []
  /\ [1; 97; 0; 0xC0; 0] = [1; 97; 0; 0xC0; 0]
  /\ 3 < 5 <= len [1; 97; 0; 0xC0; 0].
Proof.
  apply (decodeName_returns_nonempty_name 3
           (Reader [1; 97; 0; 0xC0; 0] 3) (Reader [1; 97; 0; 0xC0; 0] 5) [97]).
  - apply bytes_ok_check. reflexivity.
  - unfold in_bounds, len. simpl. lia.
  - reflexivity.
Defined.

(** A pointer that leads to its own offset, wherever it stands in a
    buffer, is followed until the call stack has no room left: whatever
    that room, [decodeName] started on it throws the [RangeError] of the
    stack and returns no name. *)
Theorem decodeName_self_pointer_exhausts_stack :
  forall (stack fuel : nat) (data : list Z) (p b c : Z),
    0 <= p ->
    nth_error data (Z.to_nat p) = Some b ->
    nth_error data (Z.to_nat (p + 1)) = Some c ->
    Z.land b 0xC0 <> 0 ->
    Z.land b 0x3F * 256 + c = p ->
    decodeName_on stack (S fuel) (Reader data p) = Throw RangeError.
Proof.
  intros stack fuel data p b c Hp Hb Hc Htop Hself.
  assert (Hin : p < len data) by (now apply nth_error_inside in Hb).
  assert (Hb0 : (b =? 0) = false).
  { apply Z.eqb_neq. intros ->. now apply Htop. }
  induction stack as [|stack IH]; [reflexivity|].
  cbn [decodeName_on].
  rewrite (decodeName_turns_step _ fuel [] data p b Hp Hb), Hb0.
  replace (negb (Z.land b 0xC0 =? 0)) with true
    by (symmetry; apply negb_true_iff, Z.eqb_neq; assumption).
  unfold bind at 1.
  rewrite (decodeCompressedName_step _ data (p + 1) b c) by (assumption || lia).
  rewrite Hself. cbv zeta.
  replace ((p <? 0) || (len data <? p)) with false
    by (symmetry; apply orb_false_iff; split; apply Z.ltb_ge; lia).
  now rewrite IH.
Qed.

Lemma decodeName_self_pointer_exhausts_stack_witness :
  decodeName_on 1000 (S 0) (Reader [1; 97; 0xC0; 2] 2) = Throw RangeError.
Proof.
  apply (decodeName_self_pointer_exhausts_stack 1000 0 [1; 97; 0xC0; 2] 2
           0xC0 2).
  - lia.
  - reflexivity.
  - reflexivity.
  - discriminate.
  - reflexivity.
Defined.

(** ** Headers and entries *)

Lemma unpack_fields (buffer values : list Z) :
  bytes_ok buffer -> unpackUnsignedShortsBigEndian buffer = Ok values ->
  Forall field16 values /\ 2 * len values = len buffer.
Proof.
  intros Hbytes H.
  pose proof (unpack_pairs (length buffer) buffer (Nat.le_refl _) Hbytes) as P.
  destruct (Nat.even (length buffer)).
  - destruct P as (values' & Hunpack & _ & Hfields & Hlen).
    rewrite H in Hunpack. injection Hunpack as <-. now split.
  - rewrite H in P. discriminate.
Qed.

Lemma parseHeader_wrapped (header : DNSHeader.t) (rest : list Z) :
  parseHeader (Reader (headerToBytes header ++ rest) 0)
  = Ok (wrapped_header header, Reader (headerToBytes header ++ rest) 12).
Proof.
  unfold parseHeader, bind.
  rewrite <- (len_headerToBytes header) at 1.
  change (Reader (headerToBytes header ++ rest) 0)
    with (Reader ([] ++ headerToBytes header ++ rest) (len (@nil Z))).
  rewrite read_exact by discriminate.
  unfold lift, headerToBytes. rewrite pack_unpack_mod. reflexivity.
Qed.

(** [parseHeader] reads back what [headerToBytes] wrote, each field modulo
    2^16 (an [undefined] id or flags as 0), and leaves the cursor after the
    12 bytes of the header. *)
Theorem parseHeader_of_headerToBytes :
  forall (header : DNSHeader.t) (rest : list Z),
    parseHeader (Reader (headerToBytes header ++ rest) 0)
    = Ok (wrapped_header header, Reader (headerToBytes header ++ rest) 12).
Proof. exact parseHeader_wrapped. Qed.

Lemma nth_error_field (values : list Z) (k : nat) :
  Forall field16 values -> field16 (number (nth_error values k)).
Proof.
  intros Hall. destruct (nth_error values k) as [v|] eqn:E; simpl.
  - apply nth_error_In in E. rewrite Forall_forall in Hall. auto.
  - unfold field16. lia.
Qed.

(** [parseHeader] on a buffer shorter than a header: nothing to read is an
    error of the cursor, an odd number of bytes is a [RangeError], and an
    even number of bytes is accepted: the fields that are there are read,
    the counts that are not are 0 and an id or flags that is not is
    [undefined]; the last count is always 0. *)
Theorem parseHeader_on_short_buffer :
  forall data : list Z,
    bytes_ok data -> len data < 12 ->
    match data with
    | [] => parseHeader (SeekableBytesReader.new data) = Throw BEYOND
    | _ :: _ =>
        if Nat.even (length data) then
          exists values,
            unpackUnsignedShortsBigEndian data = Ok values
            /\ 2 * len values = len data
            /\ parseHeader (SeekableBytesReader.new data)
               = Ok (DNSHeader.mk (nth_error values 0) (nth_error values 1)
                       (number (nth_error values 2))
                       (number (nth_error values 3))
                       (number (nth_error values 4)) 0,
                     Reader data (len data))
        else parseHeader (SeekableBytesReader.new data) = Throw RangeError
    end.
Proof.
  intros data Hbytes Hshort.
  destruct data as [|b rest] eqn:Edata; [reflexivity|]. rewrite <- Edata in *.
  assert (Hpos : 0 < len data).
  { rewrite Edata, len_cons. pose proof (len_nonneg rest). lia. }
  assert (Hread : read 12 (SeekableBytesReader.new data)
                  = Ok (data, Reader data (len data))).
  { unfold SeekableBytesReader.new.
    rewrite read_inside by (simpl; lia). cbv zeta.
    cbn [SeekableBytesReader.data SeekableBytesReader.position].
    replace (Z.min (0 + 12) (len data)) with (len data) by lia.
    unfold subarray. change (Z.to_nat 0) with 0%nat. cbn [skipn].
    now rewrite Z.sub_0_r, to_nat_len, firstn_all. }
  pose proof (unpack_pairs (length data) data (Nat.le_refl _) Hbytes) as P.
  destruct (Nat.even (length data)).
  - destruct P as (values & Hunpack & _ & _ & Hlen).
    exists values. split; [assumption|]. split; [assumption|].
    unfold parseHeader, bind. rewrite Hread. unfold lift. rewrite Hunpack.
    simpl rbind. unfold ret. do 3 f_equal.
    assert (Hnone : nth_error values 5 = None).
    { apply nth_error_None. unfold len in *. lia. }
    now rewrite Hnone.
  - unfold parseHeader, bind. rewrite Hread. unfold lift. now rewrite P.
Qed.

Lemma parseHeader_on_short_buffer_witness :
  exists values,
    unpackUnsignedShortsBigEndian [1; 2] = Ok values
    /\ 2 * len values = len [1; 2]
    /\ parseHeader (SeekableBytesReader.new [1; 2])
       = Ok (DNSHeader.mk (nth_error values 0) (nth_error values 1)
               (number (nth_error values 2)) (number (nth_error values 3))
               (number (nth_error values 4)) 0,
             Reader [1; 2] (len [1; 2])).
Proof.
  exact (parseHeader_on_short_buffer [1; 2]
           ltac:(apply bytes_ok_check; reflexivity)
           ltac:(unfold len; simpl; lia)).
Defined.

Lemma times_length {A} (parse : M A) :
  forall (count : nat) r entries r',
    times count parse r = Ok (entries, r') -> length entries = count.
Proof.
  induction count as [|count IH]; intros r entries r' H; simpl in H.
  - unfold ret in H. now injection H as <- _.
  - unfold bind in H.
    destruct (parse r) as [[entry r1]| |]; try discriminate.
    destruct (times count parse r1) as [[rest r2]| |] eqn:E; try discriminate.
    unfold ret in H. injection H as <- _. simpl. f_equal. eapply IH, E.
Qed.

Lemma parseHeader_counts (data : list Z) (r r' : SeekableBytesReader.t)
                         (header : DNSHeader.t) :
  bytes_ok data -> reading data r -> parseHeader r = Ok (header, r') ->
  field16 (DNSHeader.numQuestions header)
  /\ field16 (DNSHeader.numAnswers header)
  /\ field16 (DNSHeader.numAuthorities header)
  /\ field16 (DNSHeader.numAdditionals header).
Proof.
  intros Hbytes Hr H. unfold parseHeader, bind in H.
  destruct (read 12 r) as [[buffer r1]| |] eqn:E1; try discriminate.
  apply (read_reading data 12 r r1 buffer Hbytes Hr ltac:(lia)) in E1.
  destruct E1 as (_ & Hbuffer & _).
  destruct (lift (unpackUnsignedShortsBigEndian buffer) r1)
    as [[items r2]| |] eqn:E2; try discriminate.
  apply lift_inv in E2. destruct E2 as [Hunpack _].
  destruct (unpack_fields buffer items Hbuffer Hunpack) as [Hfields _].
  unfold ret in H. injection H as <- _.
  cbn [DNSHeader.numQuestions DNSHeader.numAnswers DNSHeader.numAuthorities
       DNSHeader.numAdditionals].
  split; [|split; [|split]].
  - exact (nth_error_field items 2 Hfields).
  - exact (nth_error_field items 3 Hfields).
  - exact (nth_error_field items 4 Hfields).
  - exact (nth_error_field items 5 Hfields).
Qed.

(** A decoded packet holds, in each of its four sections, exactly as many
    entries as the header read from the buffer announces: when the buffer
    holds fewer, the decoding has thrown. *)
Theorem decoded_sections_match_counts :
  forall (fuel : nat) (data : list Z) (packet : DNSPacket.t),
    bytes_ok data ->
    parseDNSPacket fuel data = Ok packet ->
    let header := DNSPacket.header packet in
    len (DNSPacket.questions packet) = DNSHeader.numQuestions header
    /\ len (DNSPacket.answers packet) = DNSHeader.numAnswers header
    /\ len (DNSPacket.authorities packet) = DNSHeader.numAuthorities header
    /\ len (DNSPacket.additionals packet) = DNSHeader.numAdditionals header.
Proof.
  intros fuel data packet Hbytes H. unfold parseDNSPacket, rbind in H.
  match type of H with
  | match ?run with _ => _ end = _ => destruct run as [[packet' r']| |] eqn:E
  end; try discriminate.
  injection H as ->. unfold bind in E.
  assert (Hr0 : reading data (SeekableBytesReader.new data)).
  { split; [reflexivity|]. unfold in_bounds. simpl.
    pose proof (len_nonneg data). lia. }
  destruct (parseHeader _) as [[header r1]| |] eqn:E1; try discriminate.
  destruct (parseHeader_counts data _ _ _ Hbytes Hr0 E1)
    as (Hq & Ha & Hn & Hr).
  destruct (times _ (parseQuestion fuel) r1) as [[questions r2]| |] eqn:E2;
    try discriminate.
  destruct (times _ (parseRecord fuel) r2) as [[answers r3]| |] eqn:E3;
    try discriminate.
  destruct (times _ (parseRecord fuel) r3) as [[authorities r4]| |] eqn:E4;
    try discriminate.
  destruct (times _ (parseRecord fuel) r4) as [[additionals r5]| |] eqn:E5;
    try discriminate.
  apply times_length in E2, E3, E4, E5.
  unfold ret in E. injection E as <- _. simpl.
  unfold field16, len in *. repeat split; lia.
Qed.

Lemma decoded_sections_match_counts_witness :
  len (DNSPacket.questions referral_packet) = 0
  /\ len (DNSPacket.answers referral_packet) = 0
  /\ len (DNSPacket.authorities referral_packet) = 1
  /\ len (DNSPacket.additionals referral_packet) = 1.
Proof.
  exact (decoded_sections_match_counts 4 referral_reply referral_packet
           ltac:(apply bytes_ok_check; reflexivity)
           ltac:(vm_compute; reflexivity)).
Defined.

(** When fewer than 10 bytes follow the name of a record, or fewer than 4
    the name of a question, no entry is returned: the parser throws (an
    error of the cursor when nothing follows, a [RangeError] of the view
    otherwise). *)
Theorem cut_fixed_fields_throw :
  forall (fuel : nat) (r : SeekableBytesReader.t) (name data : list Z) (q : Z),
    0 <= q ->
    (decodeName fuel r = Ok (name, Reader data q) ->
     len data < q + 10 ->
     exists e, parseRecord fuel r = Throw e)
    /\ (decodeNameSimple fuel r = Ok (name, Reader data q) ->
        len data < q + 4 ->
        exists e, parseQuestion fuel r = Throw e).
Proof.
  intros fuel r name data q Hq. split; intros Hname Hcut.
  - unfold parseRecord, bind. rewrite Hname.
    destruct (Z_lt_le_dec q (len data)) as [Hin|Hend].
    + rewrite read_inside by (simpl; lia). cbv zeta. simpl.
      replace (Z.min (q + 10) (len data)) with (len data) by lia.
      assert (L : len (subarray data q (len data)) = len data - q)
        by (apply len_subarray; lia).
      unfold lift, getUint16, getUint32. rewrite L.
      destruct (len data - q <? 0 + 2); [now eexists|].
      destruct (len data - q <? 2 + 2); [now eexists|].
      destruct (len data - q <? 4 + 4); [now eexists|].
      destruct (len data - q <? 8 + 2) eqn:E; [now eexists|].
      apply Z.ltb_ge in E. lia.
    + rewrite read_at_end by (simpl; lia). now eexists.
  - unfold parseQuestion, bind. rewrite Hname.
    destruct (Z_lt_le_dec q (len data)) as [Hin|Hend].
    + rewrite read_inside by (simpl; lia). cbv zeta. simpl.
      replace (Z.min (q + 4) (len data)) with (len data) by lia.
      assert (L : len (subarray data q (len data)) = len data - q)
        by (apply len_subarray; lia).
      unfold lift, getUint16. rewrite L.
      destruct (len data - q <? 0 + 2); [now eexists|].
      destruct (len data - q <? 2 + 2) eqn:E; [now eexists|].
      apply Z.ltb_ge in E. lia.
    + rewrite read_at_end by (simpl; lia). now eexists.
Qed.

Lemma cut_fixed_fields_throw_witness :
  exists e,
    parseRecord 3 (Reader [1; 97; 0; 0; 1; 0; 1; 0; 0] 0) = Throw e.
Proof.
  exact (proj1 (cut_fixed_fields_throw 3 (Reader [1; 97; 0; 0; 1; 0; 1; 0; 0] 0)
                  [97] [1; 97; 0; 0; 1; 0; 1; 0; 0] 3 ltac:(lia))
           eq_refl ltac:(unfold len; simpl; lia)).
Defined.

(** ** The query, decoded *)

Lemma questionToBytes_wraps (name : list Z) (type_ class_ : Z) :
  questionToBytes (DNSQuestion.mk name type_ class_)
  = questionToBytes (DNSQuestion.mk name (type_ mod 65536) (class_ mod 65536)).
Proof.
  unfold questionToBytes, packUnsignedShortsBigEndian.
  cbn [DNSQuestion.name DNSQuestion.type_ DNSQuestion.class_ flat_map].
  now rewrite !Z.mod_mod by lia.
Qed.

(** A message of one question, whatever parses the question. *)
Lemma parseDNSPacket_one_question (fuel : nat) (id flags : option Z)
        (body : list Z) (question : DNSQuestion.t)
        (r' : SeekableBytesReader.t) :
  let header := DNSHeader.mk id flags 1 0 0 0 in
  (parseQuestion fuel (Reader (headerToBytes header ++ body) 12)
   = Ok (question, r') ->
   parseDNSPacket fuel (headerToBytes header ++ body)
   = Ok (DNSPacket.mk (wrapped_header header) [question] [] [] []))
  /\ (forall e,
        parseQuestion fuel (Reader (headerToBytes header ++ body) 12) = Throw e ->
        parseDNSPacket fuel (headerToBytes header ++ body) = Throw e).
Proof.
  intros header.
  assert (Hstart : forall outcome,
    parseQuestion fuel (Reader (headerToBytes header ++ body) 12) = outcome ->
    parseDNSPacket fuel (headerToBytes header ++ body) =
      match outcome with
      | Ok (question, _) =>
          Ok (DNSPacket.mk (wrapped_header header) [question] [] [] [])
      | Throw e => Throw e
      | OutOfFuel => OutOfFuel
      end).
  { intros outcome H. unfold parseDNSPacket, SeekableBytesReader.new.
    unfold bind at 1. rewrite parseHeader_wrapped.
    change (Z.to_nat (DNSHeader.numQuestions (wrapped_header header)))
      with 1%nat.
    change (Z.to_nat (DNSHeader.numAnswers (wrapped_header header)))
      with 0%nat.
    change (Z.to_nat (DNSHeader.numAuthorities (wrapped_header header)))
      with 0%nat.
    change (Z.to_nat (DNSHeader.numAdditionals (wrapped_header header)))
      with 0%nat.
    cbn [times]. unfold bind. rewrite H.
    destruct outcome as [[q r1]| |]; reflexivity. }
  split.
  - intros H. now rewrite (Hstart _ H).
  - intros e H. now rewrite (Hstart _ H).
Qed.

(** What [buildQuery] emits is decoded as the query that was meant: the id
    drawn and the record type, both modulo 2^16, flags 0, one question of
    class IN for the name (labels of 1 to 63 bytes), and no record. *)
Theorem parse_of_buildQuery :
  forall (fuel : nat) (id : Z) (domainName : string) (recordType : Z),
    labels_ok domainName ->
    (length (buildQuery id domainName recordType) < fuel)%nat ->
    parseDNSPacket fuel (buildQuery id domainName recordType)
    = Ok (DNSPacket.mk
            (DNSHeader.mk (Some (id mod 65536)) (Some 0) 1 0 0 0)
            [DNSQuestion.mk (TextEncoder_encode domainName)
                            (recordType mod 65536) CLASS_IN]
            [] [] []).
Proof.
  intros fuel id domainName recordType Hlabels Hfuel.
  unfold buildQuery, concatUint8Arrays in *. cbn [concat] in *.
  rewrite questionToBytes_wraps in *.
  change (CLASS_IN mod 65536) with CLASS_IN in *.
  set (header := DNSHeader.mk (Some id) (Some 0) 1 0 0 0) in *.
  set (entry := (domainName, recordType mod 65536, CLASS_IN)).
  change (DNSQuestion.mk (encodeDnsName domainName) (recordType mod 65536)
            CLASS_IN) with (built_question entry) in *.
  assert (Hentry : entry_ok entry).
  { split; [assumption|]. unfold field16, CLASS_IN.
    pose proof (Z.mod_pos_bound recordType 65536 ltac:(lia)). lia. }
  rewrite !length_app in Hfuel.
  pose proof (parseQuestion_built entry fuel (headerToBytes header) []
                Hentry ltac:(lia)) as Hq.
  rewrite len_headerToBytes in Hq.
  exact (proj1 (parseDNSPacket_one_question fuel (Some id) (Some 0) _ _ _) Hq).
Qed.

Lemma parse_of_buildQuery_witness :
  parseDNSPacket 40 (buildQuery 70000 "example.com" TYPE_A)
  = Ok (DNSPacket.mk
          (DNSHeader.mk (Some (70000 mod 65536)) (Some 0) 1 0 0 0)
          [DNSQuestion.mk (TextEncoder_encode "example.com")
                          (TYPE_A mod 65536) CLASS_IN]
          [] [] []).
Proof.
  apply parse_of_buildQuery.
  - unfold labels_ok. simpl split_dot.
    repeat (apply Forall_cons; [unfold len; simpl; lia|]). apply Forall_nil.
  - vm_compute. lia.
Defined.

Lemma split_dot_trailing (s : string) :
  split_dot (s ++ ".") = split_dot s ++ [""%string].
Proof.
  induction s as [|c s IH]; [reflexivity|].
  simpl. rewrite IH. destruct (Ascii.eqb c "."); [reflexivity|].
  destruct (split_dot_cons s) as (part & parts & E). now rewrite E.
Qed.

Lemma wire_app (first second : list (list Z)) :
  wire (first ++ second) = wire first ++ wire second.
Proof. unfold wire. now rewrite map_app, concat_app. Qed.

(** A name written with a final dot (a fully qualified name) is encoded
    with two zero bytes; the decoder stops at the first, returns the name
    without the dot, and reads the type and the class one byte too early:
    the type decoded is the high byte of the type asked, the class 256 times
    its low byte.  No error is raised. *)
Theorem trailing_dot_shifts_the_question :
  forall (fuel : nat) (id : Z) (domainName : string) (recordType : Z),
    labels_ok domainName ->
    (length (buildQuery id domainName recordType) < fuel)%nat ->
    parseDNSPacket fuel (buildQuery id (domainName ++ ".") recordType)
    = Ok (DNSPacket.mk
            (DNSHeader.mk (Some (id mod 65536)) (Some 0) 1 0 0 0)
            [DNSQuestion.mk (TextEncoder_encode domainName)
                            ((recordType mod 65536) / 256)
                            ((recordType mod 65536) mod 256 * 256)]
            [] [] []).
Proof.
  intros fuel id domainName recordType Hlabels Hfuel.
  unfold buildQuery, concatUint8Arrays in *. cbn [concat] in *.
  set (header := DNSHeader.mk (Some id) (Some 0) 1 0 0 0) in *.
  set (labels := map TextEncoder_encode (split_dot domainName)).
  set (th := (recordType mod 65536) / 256).
  set (tl := (recordType mod 65536) mod 256).
  assert (Hbody :
    questionToBytes (DNSQuestion.mk (encodeDnsName (domainName ++ "."))
                                    recordType CLASS_IN) ++ []
    = (wire labels ++ [0]) ++ [0; th; tl; 0] ++ [1]).
  { unfold questionToBytes, concatUint8Arrays.
    cbn [DNSQuestion.name DNSQuestion.type_ DNSQuestion.class_ concat].
    rewrite encodeDnsName_wire, split_dot_trailing, map_app, wire_app.
    fold labels. rewrite !app_nil_r, <- !app_assoc. reflexivity. }
  rewrite Hbody.
  assert (Hall : Forall (fun label => 1 <= len label <= 255) labels).
  { unfold labels, labels_ok in *. rewrite Forall_map.
    eapply Forall_impl; [|exact Hlabels]. intros part Hpart. simpl in Hpart. lia. }
  assert (Hcount : (length labels < fuel)%nat).
  { rewrite !length_app in Hfuel. unfold questionToBytes in Hfuel.
    cbn [DNSQuestion.name concatUint8Arrays concat] in Hfuel.
    rewrite encodeDnsName_wire, !length_app in Hfuel. fold labels in Hfuel.
    pose proof (length_labels_wire labels). lia. }
  assert (Hjoin : joinUint8ArrayWithDot labels = Ok (TextEncoder_encode domainName)).
  { rewrite joinUint8ArrayWithDot_spec. unfold labels.
    destruct (split_dot_cons domainName) as (part & parts & E).
    rewrite <- dot_join_split, E. reflexivity. }
  refine (proj1 (parseDNSPacket_one_question fuel (Some id) (Some 0) _ _
                   (Reader (headerToBytes header ++ (wire labels ++ [0])
                              ++ [0; th; tl; 0] ++ [1])
                           (len (headerToBytes header ++ wire labels ++ [0])
                            + len [0; th; tl; 0]))) _).
  fold header. rewrite <- (len_headerToBytes header).
  unfold parseQuestion, decodeNameSimple, bind.
  rewrite decodeNameSimple_loop_wire by assumption.
  simpl app at 1. unfold lift at 1. rewrite Hjoin. unfold rbind at 1.
  replace (headerToBytes header ++ (wire labels ++ [0]) ++ [0; th; tl; 0] ++ [1])
    with ((headerToBytes header ++ wire labels ++ [0]) ++ [0; th; tl; 0] ++ [1])
    by (now rewrite <- !app_assoc).
  replace (len (headerToBytes header) + len (wire labels) + 1)
    with (len (headerToBytes header ++ wire labels ++ [0]))
    by (len_simpl; lia).
  change 4 with (len [0; th; tl; 0]).
  rewrite read_exact by discriminate.
  rewrite getUint16_first, getUint16_second.
  unfold lift, rbind, ret. do 3 f_equal; lia.
Qed.

Lemma trailing_dot_shifts_the_question_witness :
  parseDNSPacket 40 (buildQuery 7 ("example.com" ++ ".") TYPE_A)
  = Ok (DNSPacket.mk
          (DNSHeader.mk (Some (7 mod 65536)) (Some 0) 1 0 0 0)
          [DNSQuestion.mk (TextEncoder_encode "example.com")
                          ((TYPE_A mod 65536) / 256)
                          ((TYPE_A mod 65536) mod 256 * 256)]
          [] [] []).
Proof.
  apply trailing_dot_shifts_the_question.
  - unfold labels_ok. simpl split_dot.
    repeat (apply Forall_cons; [unfold len; simpl; lia|]). apply Forall_nil.
  - vm_compute. lia.
Defined.

(** The query built for the empty name, or for a name that starts with a
    dot, cannot be decoded: its question starts with the zero byte, and the
    decoder throws a [RangeError]. *)
Theorem leading_dot_query_is_not_decodable :
  forall (fuel : nat) (id : Z) (domainName : string) (recordType : Z),
    domainName = ""%string
    \/ (exists rest, domainName = String "." rest) ->
    parseDNSPacket (S fuel) (buildQuery id domainName recordType)
    = Throw RangeError.
Proof.
  intros fuel id domainName recordType Hname.
  assert (Hsplit : exists parts, split_dot domainName = ""%string :: parts).
  { destruct Hname as [->|[rest ->]]; simpl; now eexists. }
  destruct Hsplit as [parts Hsplit].
  unfold buildQuery, concatUint8Arrays. cbn [concat].
  refine (proj2 (parseDNSPacket_one_question (S fuel) (Some id) (Some 0) _
                   (DNSQuestion.mk [] 0 0) (Reader [] 0)) RangeError _).
  unfold questionToBytes, concatUint8Arrays.
  cbn [DNSQuestion.name concat]. rewrite encodeDnsName_wire, Hsplit.
  cbn [map]. change (TextEncoder_encode "") with (@nil Z).
  change (wire ([] :: map TextEncoder_encode parts))
    with (0 :: wire (map TextEncoder_encode parts)).
  set (header := DNSHeader.mk (Some id) (Some 0) 1 0 0 0).
  rewrite <- (len_headerToBytes header).
  unfold parseQuestion, decodeNameSimple, bind.
  rewrite (decodeNameSimple_loop_step fuel [] _ (len (headerToBytes header)) 0).
  - reflexivity.
  - apply len_nonneg.
  - rewrite to_nat_len, nth_error_app2, Nat.sub_diag by lia. reflexivity.
Qed.

Lemma leading_dot_query_is_not_decodable_witness :
  parseDNSPacket 1 (buildQuery 7 ".com" TYPE_A) = Throw RangeError.
Proof.
  apply leading_dot_query_is_not_decodable. right. now eexists.
Defined.

(** ** Text *)

Lemma utf8_lead_needs (b : Z) (n : nat) (lo hi : Z) :
  utf8_lead b = Some (n, lo, hi) -> n <> 0%nat.
Proof.
  unfold utf8_lead.
  destruct ((0xC2 <=? b) && (b <=? 0xDF)); [intros H; now injection H as <-|].
  destruct ((0xE0 <=? b) && (b <=? 0xEF)); [intros H; now injection H as <-|].
  destruct ((0xF0 <=? b) && (b <=? 0xF4)); [intros H; now injection H as <-|].
  discriminate.
Qed.

Lemma app_cons_nonempty {A} (l1 l2 : list A) (a : A) : l1 ++ a :: l2 <> [].
Proof. destruct l1; discriminate. Qed.

(** The decoder emits something for every byte it is given. *)
Lemma utf8_decode_nonempty (input : list Z) :
  forall (seen : list Z) (needed : nat) (lower upper : Z),
    input <> [] \/ needed <> 0%nat ->
    utf8_decode seen needed lower upper input <> [].
Proof.
  induction input as [|b rest IH]; intros seen needed lower upper H.
  - destruct H as [H|H]; [contradiction|].
    destruct needed; [contradiction|discriminate].
  - assert (Hstart : forall prefix,
      (if b <=? 0x7F then prefix ++ b :: utf8_decode [] 0 0x80 0xBF rest
       else match utf8_lead b with
            | Some (n, lo, hi) => prefix ++ utf8_decode [b] n lo hi rest
            | None => prefix ++ REPLACEMENT ++ utf8_decode [] 0 0x80 0xBF rest
            end) <> []).
    { intros prefix. destruct (b <=? 0x7F); [apply app_cons_nonempty|].
      destruct (utf8_lead b) as [[[n lo] hi]|] eqn:E.
      - apply utf8_lead_needs in E.
        specialize (IH [b] n lo hi (or_intror E)).
        destruct prefix; [assumption|discriminate].
      - apply app_cons_nonempty. }
    destruct needed as [|k]; [exact (Hstart [])|].
    cbn [utf8_decode].
    destruct ((lower <=? b) && (b <=? upper)); [|exact (Hstart REPLACEMENT)].
    destruct k; [apply app_cons_nonempty|].
    apply IH. now right.
Qed.

Lemma string_of_bytes_empty (bytes : list Z) :
  string_of_bytes bytes = ""%string -> bytes = [].
Proof. destruct bytes; [reflexivity|discriminate]. Qed.

Lemma match_byte_239 {X} (a : Z) (yes no : X) :
  match a with 239 => yes | _ => no end = if a =? 239 then yes else no.
Proof.
  destruct a as [|p|p]; try reflexivity.
  do 8 (destruct p as [p|p|]; try reflexivity).
Qed.

Lemma match_byte_187 {X} (a : Z) (yes no : X) :
  match a with 187 => yes | _ => no end = if a =? 187 then yes else no.
Proof.
  destruct a as [|p|p]; try reflexivity.
  do 8 (destruct p as [p|p|]; try reflexivity).
Qed.

Lemma match_byte_191 {X} (a : Z) (yes no : X) :
  match a with 191 => yes | _ => no end = if a =? 191 then yes else no.
Proof.
  destruct a as [|p|p]; try reflexivity.
  do 8 (destruct p as [p|p|]; try reflexivity).
Qed.

Lemma strip_bom_empty (bytes : list Z) :
  strip_bom bytes = [] -> bytes = [] \/ bytes = BOM.
Proof.
  destruct bytes as [|a [|b [|c rest]]].
  - now left.
  - unfold strip_bom. rewrite match_byte_239.
    destruct (a =? 239); discriminate.
  - unfold strip_bom. rewrite match_byte_239.
    destruct (a =? 239); [|discriminate].
    rewrite match_byte_187. destruct (b =? 187); discriminate.
  - unfold strip_bom. rewrite match_byte_239.
    destruct (Z.eqb_spec a 239) as [->|]; [|discriminate].
    rewrite match_byte_187.
    destruct (Z.eqb_spec b 187) as [->|]; [|discriminate].
    rewrite match_byte_191.
    destruct (Z.eqb_spec c 191) as [->|]; [|discriminate].
    intros ->. now right.
Qed.

Lemma utf8_text_empty (bytes : list Z) :
  utf8_text bytes = ""%string <-> bytes = [] \/ bytes = BOM.
Proof.
  unfold utf8_text. split.
  - intros H. apply string_of_bytes_empty in H.
    apply strip_bom_empty.
    destruct (strip_bom bytes) as [|x l] eqn:E; [reflexivity|].
    exfalso. apply (utf8_decode_nonempty (x :: l) [] 0 0x80 0xBF);
      [left; discriminate|assumption].
  - intros [->| ->]; reflexivity.
Qed.

Lemma parseRecord_nameserver_name (fuel : nat) (r r' : SeekableBytesReader.t)
                                  (record : DNSRecord.t) :
  bytes_ok (data_of r) -> in_bounds r ->
  parseRecord fuel r = Ok (record, r') ->
  DNSRecord.type_ record = TYPE_NS ->
  exists name, DNSRecord.data record = Bytes name /\ name <> [].
Proof.
  intros Hbytes Hin H Htype.
  assert (Hr : reading (data_of r) r) by now split.
  set (data := data_of r) in *.
  unfold parseRecord, decodeName, bind in H.
  destruct (decodeName_loop fuel [] r) as [[name r1]| |] eqn:E1;
    try discriminate.
  apply (decodeName_loop_reading data fuel Hbytes) in E1; [|assumption].
  destruct (read 10 r1) as [[buffer r2]| |] eqn:E2; try discriminate.
  apply (read_reading data 10 r1 r2 buffer Hbytes E1 ltac:(lia)) in E2.
  destruct E2 as (Hr2 & _).
  destruct (lift (getUint16 buffer 0) r2) as [[type_ r3]| |] eqn:E3;
    try discriminate.
  apply lift_inv in E3. destruct E3 as [_ ->].
  destruct (lift (getUint16 buffer 2) r2) as [[class_ r4]| |] eqn:E4;
    try discriminate.
  apply lift_inv in E4. destruct E4 as [_ ->].
  destruct (lift (getUint32 buffer 4) r2) as [[ttl r5]| |] eqn:E5;
    try discriminate.
  apply lift_inv in E5. destruct E5 as [_ ->].
  destruct (lift (getUint16 buffer 8) r2) as [[dataLen r6]| |] eqn:E6;
    try discriminate.
  apply lift_inv in E6. destruct E6 as [_ ->].
  destruct (type_ =? TYPE_NS) eqn:Hns.
  - destruct (decodeName_loop fuel [] r2) as [[nsName r7]| |] eqn:E7;
      try discriminate.
    destruct (decodeName_loop_progress data fuel Hbytes [] r2 nsName r7 Hr2
                ltac:(constructor) E7) as [Hne _].
    unfold ret in H. injection H as <- _. now exists nsName.
  - apply Z.eqb_neq in Hns.
    destruct (type_ =? TYPE_A).
    + destruct (read 4 r2) as [[ip r7]| |]; try discriminate.
      unfold ret in H. injection H as <- _. simpl in Htype. contradiction.
    + destruct (read dataLen r2) as [[raw r7]| |]; try discriminate.
      unfold ret in H. injection H as <- _. simpl in Htype. contradiction.
Qed.

(** The name of a decoded record of type NS is never empty, and the text
    [getNameserver] makes of it is the empty string, the mark of "no
    nameserver", for one name only: the three bytes EF BB BF. *)
Theorem nameserver_text_is_empty_only_for_bom :
  forall (fuel : nat) (r r' : SeekableBytesReader.t) (record : DNSRecord.t),
    bytes_ok (data_of r) -> in_bounds r ->
    parseRecord fuel r = Ok (record, r') ->
    DNSRecord.type_ record = TYPE_NS ->
    exists name,
      DNSRecord.data record = Bytes name
      /\ name <> []
      /\ getNameserver_loop [record] = Ok (utf8_text name)
      /\ (utf8_text name = ""%string <-> name = BOM).
Proof.
  intros fuel r r' record Hbytes Hin H Htype.
  destruct (parseRecord_nameserver_name fuel r r' record Hbytes Hin H Htype)
    as (name & Hdata & Hne).
  exists name. split; [assumption|]. split; [assumption|]. split.
  - simpl. rewrite Htype, Hdata. reflexivity.
  - rewrite utf8_text_empty. split; [intros [->|]; [contradiction|assumption]
                                    |now right].
Qed.

Lemma nameserver_text_is_empty_only_for_bom_witness :
  exists name,
    Bytes [110] = Bytes name
    /\ name <> []
    /\ getNameserver_loop [DNSRecord.mk [97] 2 1 60 (Bytes [110])]
       = Ok (utf8_text name)
    /\ (utf8_text name = ""%string <-> name = BOM).
Proof.
  assert (Hbytes : bytes_ok
            [1; 97; 0; 0; 2; 0; 1; 0; 0; 0; 60; 0; 3; 1; 110; 0])
    by (apply bytes_ok_check; reflexivity).
  assert (Hin : in_bounds
            (Reader [1; 97; 0; 0; 2; 0; 1; 0; 0; 0; 60; 0; 3; 1; 110; 0] 0))
    by (unfold in_bounds, len; simpl; lia).
  assert (Hparse :
    parseRecord 3
      (Reader [1; 97; 0; 0; 2; 0; 1; 0; 0; 0; 60; 0; 3; 1; 110; 0] 0)
    = Ok (DNSRecord.mk [97] 2 1 60 (Bytes [110]),
          Reader [1; 97; 0; 0; 2; 0; 1; 0; 0; 0; 60; 0; 3; 1; 110; 0] 16))
    by (vm_compute; reflexivity).
  exact (nameserver_text_is_empty_only_for_bom 3
           (Reader [1; 97; 0; 0; 2; 0; 1; 0; 0; 0; 60; 0; 3; 1; 110; 0] 0)
           (Reader [1; 97; 0; 0; 2; 0; 1; 0; 0; 0; 60; 0; 3; 1; 110; 0] 16)
           (DNSRecord.mk [97] 2 1 60 (Bytes [110]))
           Hbytes Hin Hparse eq_refl).
Defined.

Lemma count_dots_append (s t : string) :
  count_dots (s ++ t) = (count_dots s + count_dots t)%nat.
Proof.
  induction s as [|c s IH]; [reflexivity|].
  simpl. destruct (Ascii.eqb c "."); simpl; now rewrite IH.
Qed.

Lemma digits_have_no_dot (d : Decimal.uint) :
  count_dots (DecimalString.NilEmpty.string_of_uint d) = 0%nat.
Proof. induction d; simpl; auto. Qed.

Lemma toString10_has_no_dot (n : Z) : count_dots (toString10 n) = 0%nat.
Proof.
  unfold toString10, DecimalString.NilZero.string_of_uint.
  destruct (N.to_uint (Z.to_N n)) eqn:E; try reflexivity;
    rewrite <- E; apply digits_have_no_dot.
Qed.

(** The rendering of an address has one dot less than it has bytes: three
    dots for the four bytes of a complete address, none for a single byte
    or for no byte at all. *)
Theorem ipToString_dots :
  forall ip : list Z,
    bytes_ok ip ->
    count_dots (ipToString ip) = (length ip - 1)%nat.
Proof.
  intros ip _. unfold ipToString.
  induction ip as [|b rest IH]; [reflexivity|].
  cbn [map String.concat].
  destruct rest as [|b' rest].
  - simpl. apply toString10_has_no_dot.
  - cbn [map] in *.
    rewrite !count_dots_append, toString10_has_no_dot, IH.
    simpl. lia.
Qed.

Lemma ipToString_dots_witness :
  count_dots (ipToString [93; 184; 216; 34]) = (4 - 1)%nat.
Proof.
  apply (ipToString_dots [93; 184; 216; 34]).
  apply bytes_ok_check. reflexivity.
Defined.

(** ** A chain of referrals *)

Lemma extends_refl {A} (run : M A) : extends run run.
Proof. intros r _. reflexivity. Qed.

Lemma extends_bind {A B} (run more : M A) (k k' : A -> M B) :
  extends run more -> (forall a, extends (k a) (k' a)) ->
  extends (bind run k) (bind more k').
Proof.
  intros Hrun Hk r Hfin. unfold bind in *.
  destruct (run r) as [[a r1]| |] eqn:E; try contradiction.
  - rewrite (Hrun r), E by now rewrite E. now apply Hk.
  - rewrite (Hrun r), E by now rewrite E. reflexivity.
Qed.

Lemma extends_times {A} (run more : M A) (count : nat) :
  extends run more -> extends (times count run) (times count more).
Proof.
  intros H. induction count as [|count IH]; [apply extends_refl|].
  cbn [times]. apply extends_bind; [assumption|]. intros entry.
  apply extends_bind; [assumption|]. intros entries. apply extends_refl.
Qed.

Lemma decodeNameSimple_loop_mono (fuel : nat) :
  forall (fuel' : nat) (parts : list (list Z)),
    (fuel <= fuel')%nat ->
    extends (decodeNameSimple_loop fuel parts)
            (decodeNameSimple_loop fuel' parts).
Proof.
  induction fuel as [|fuel IH]; intros fuel' parts Hle;
    [intros r Hfin; contradiction|].
  destruct fuel' as [|fuel']; [lia|]. apply le_S_n in Hle.
  cbn [decodeNameSimple_loop].
  apply extends_bind; [apply extends_refl|]. intros bytes.
  destruct (at0 bytes =? 0); [apply extends_refl|].
  apply extends_bind; [apply extends_refl|]. intros part. now apply IH.
Qed.

Lemma parseQuestion_mono (fuel fuel' : nat) :
  (fuel <= fuel')%nat -> extends (parseQuestion fuel) (parseQuestion fuel').
Proof.
  intros Hle. unfold parseQuestion.
  apply extends_bind; [now apply decodeNameSimple_loop_mono|].
  intros name. apply extends_refl.
Qed.

Lemma decodeName_mono (fuel fuel' : nat) :
  (fuel <= fuel')%nat -> extends (decodeName fuel) (decodeName fuel').
Proof.
  intros Hle r Hfin. now apply decodeName_loop_mono.
Qed.

Lemma parseRecord_mono (fuel fuel' : nat) :
  (fuel <= fuel')%nat -> extends (parseRecord fuel) (parseRecord fuel').
Proof.
  intros Hle. unfold parseRecord.
  apply extends_bind; [now apply decodeName_mono|]. intros name.
  apply extends_bind; [apply extends_refl|]. intros buffer.
  apply extends_bind; [apply extends_refl|]. intros type_.
  apply extends_bind; [apply extends_refl|]. intros class_.
  apply extends_bind; [apply extends_refl|]. intros ttl.
  apply extends_bind; [apply extends_refl|]. intros dataLen.
  apply extends_bind; [|intros data; apply extends_refl].
  destruct (type_ =? TYPE_NS); [|apply extends_refl].
  apply extends_bind; [now apply decodeName_mono|].
  intros name'. apply extends_refl.
Qed.

Lemma parseDNSPacket_mono (fuel fuel' : nat) (data : list Z) :
  (fuel <= fuel')%nat -> finished (parseDNSPacket fuel data) ->
  parseDNSPacket fuel' data = parseDNSPacket fuel data.
Proof.
  intros Hle Hfin. unfold parseDNSPacket in *.
  match goal with
  | |- rbind (?more _) _ = rbind (?run _) _ =>
      assert (H : extends run more)
  end.
  { apply extends_bind; [apply extends_refl|]. intros header.
    apply extends_bind;
      [now apply extends_times, parseQuestion_mono|]. intros questions.
    apply extends_bind;
      [now apply extends_times, parseRecord_mono|]. intros answers.
    apply extends_bind;
      [now apply extends_times, parseRecord_mono|]. intros authorities.
    apply extends_bind;
      [now apply extends_times, parseRecord_mono|]. intros additionals.
    apply extends_refl. }
  rewrite H; [reflexivity|].
  unfold rbind in Hfin.
  match type of Hfin with
  | finished (match ?run with _ => _ end) => destruct run as [[? ?]| |]
  end; simpl; auto.
Qed.

(** A decoded reply is the same whatever the fuel that sufficed. *)
Lemma parseDNSPacket_any_fuel (fuel fuel' : nat) (data : list Z)
                              (packet : DNSPacket.t) :
  parseDNSPacket fuel data = Ok packet ->
  parseDNSPacket fuel' data = Ok packet
  \/ parseDNSPacket fuel' data = OutOfFuel.
Proof.
  intros H. destruct (Nat.le_ge_cases fuel fuel') as [Hle|Hle].
  - left. rewrite (parseDNSPacket_mono fuel fuel' data Hle), H by now rewrite H.
    reflexivity.
  - destruct (parseDNSPacket fuel' data) as [packet'|e|] eqn:E;
      [left|exfalso|now right].
    + rewrite (parseDNSPacket_mono fuel' fuel data Hle) in H by now rewrite E.
      rewrite E in H. assumption.
    + rewrite (parseDNSPacket_mono fuel' fuel data Hle) in H by now rewrite E.
      rewrite E in H. discriminate.
Qed.

Section Referrals.

Variable World : Type.
Variable random : World -> Z * World.
Variable exchange : Data -> list Z -> World -> result (list Z) * World.

(** Every server asked replies with bytes that decode to a referral. *)
Hypothesis exchange_refers :
  forall hostname query w,
    exists reply w' fuel packet,
      exchange hostname query w = (Ok reply, w')
      /\ bytes_ok reply
      /\ parseDNSPacket fuel reply = Ok packet
      /\ refers_on packet.

Lemma resolve_loop_follows_referrals (fuel : nat) :
  forall (nameserver : Data) (domainName : string) (recortType : Z)
         (w : World),
    fst (resolve_loop World random exchange fuel nameserver domainName
                      recortType w) = OutOfFuel.
Proof.
  induction fuel as [|fuel IH]; intros nameserver domainName recortType w;
    [reflexivity|].
  cbn [resolve_loop]. unfold sendQuery.
  destruct (random w) as [id w0].
  destruct (exchange_refers nameserver
              (buildQuery id domainName recortType) w0)
    as (reply & w1 & fuel0 & packet & Hex & Hbytes & Hparse & Hnone & Hglue).
  rewrite Hex. cbn [rbind].
  destruct (parseDNSPacket_any_fuel fuel0 fuel reply packet Hparse)
    as [Hsame|Hout]; [|now rewrite Hout].
  rewrite Hsame.
  destruct (parseDNSPacket_ok fuel0 reply packet Hbytes Hparse)
    as (_ & Hauthorities & Hadditionals).
  unfold getAnswer, getNameserverIp, getNameserver.
  rewrite getAnswer_loop_find, getNameserverIp_loop_find,
    getNameserver_loop_find, Hnone.
  destruct (find isA (DNSPacket.additionals packet)) as [glue|] eqn:Eg;
    [|contradiction].
  destruct (found_address _ _ Hadditionals Eg) as (address & -> & Hne).
  assert (Hns : exists nsDomain,
    match find isNS (DNSPacket.authorities packet) with
    | Some authority => TextDecoder_decode (DNSRecord.data authority)
    | None => Ok ""%string
    end = Ok nsDomain).
  { destruct (find isNS (DNSPacket.authorities packet)) as [ns|] eqn:E.
    - destruct (found_nameserver _ _ Hauthorities E) as [name ->].
      eexists. reflexivity.
    - eexists. reflexivity. }
  destruct Hns as [nsDomain ->].
  simpl truthy. cbv iota. rewrite Hne. apply IH.
Qed.

(** [resolve] keeps no count of the servers it has asked: as long as every
    reply refers it to another address without answering, it goes on
    asking and returns nothing, neither an address nor an error. *)
Theorem resolve_follows_referrals_without_limit :
  forall (domainName : string) (recortType : Z) (w : World),
    never_returns
      (fun fuel =>
         fst (resolve World random exchange fuel domainName recortType w)).
Proof.
  intros domainName recortType w fuel. unfold resolve.
  apply resolve_loop_follows_referrals.
Qed.

End Referrals.

Lemma resolve_follows_referrals_without_limit_witness :
  never_returns
    (fun fuel =>
       fst (resolve nat fixed_draw (always referral_reply) fuel "x" TYPE_A
                    0%nat)).
Proof.
  apply (resolve_follows_referrals_without_limit nat fixed_draw
           (always referral_reply)).
  intros hostname query w.
  exists referral_reply, (S w), 4%nat, referral_packet.
  split; [reflexivity|].
  split; [apply bytes_ok_check; reflexivity|].
  split; [vm_compute; reflexivity|].
  split; [reflexivity|discriminate].
Defined.

(** ** The cursor in sequence *)

Lemma firstn_plus {A} (a b : nat) :
  forall l : list A, firstn (a + b) l = firstn a l ++ firstn b (skipn a l).
Proof.
  induction a as [|a IH]; intros l; [reflexivity|].
  destruct l as [|x l]; [now rewrite !firstn_nil|].
  simpl. now rewrite IH.
Qed.

Lemma subarray_split (array : list Z) (begin middle end_ : Z) :
  0 <= begin <= middle -> middle <= end_ ->
  subarray array begin middle ++ subarray array middle end_
  = subarray array begin end_.
Proof.
  intros Hb He. unfold subarray.
  replace (Z.to_nat (end_ - begin))
    with (Z.to_nat (middle - begin) + Z.to_nat (end_ - middle))%nat by lia.
  rewrite firstn_plus, skipn_skipn.
  now replace (Z.to_nat (middle - begin) + Z.to_nat begin)%nat
    with (Z.to_nat middle) by lia.
Qed.

(** Two reads in a row deliver what one read of the two sizes delivers,
    and leave the cursor at the same place, as long as the first one stops
    before the end of the buffer. *)
Theorem reads_in_sequence :
  forall (data : list Z) (p n m : Z),
    0 <= p -> 0 <= n -> 0 <= m -> p + n < len data ->
    (first <- read n ;; second <- read m ;; ret (first ++ second))
      (Reader data p)
    = read (n + m) (Reader data p).
Proof.
  intros data p n m Hp Hn Hm Hlen. unfold bind.
  rewrite (read_inside n) by (simpl; lia). cbv zeta.
  cbn [SeekableBytesReader.data SeekableBytesReader.position].
  rewrite (read_inside m) by (simpl; lia). cbv zeta.
  cbn [SeekableBytesReader.data SeekableBytesReader.position].
  rewrite (read_inside (n + m)) by (simpl; lia). cbv zeta.
  cbn [SeekableBytesReader.data SeekableBytesReader.position].
  unfold ret.
  replace (Z.min (p + n) (len data)) with (p + n) by lia.
  replace (p + n + m) with (p + (n + m)) by lia.
  rewrite subarray_split by lia. reflexivity.
Qed.

Lemma reads_in_sequence_witness :
  (first <- read 1 ;; second <- read 2 ;; ret (first ++ second))
    (Reader [7; 8; 9; 10] 0)
  = read (1 + 2) (Reader [7; 8; 9; 10] 0).
Proof.
  apply (reads_in_sequence [7; 8; 9; 10] 0 1 2); unfold len; simpl; lia.
Defined.

(** Seeking back to where a read started and reading again delivers the
    same bytes: what [decodeCompressedName] relies on when it returns to
    the position it saved. *)
Theorem seek_back_and_read_again :
  forall (data : list Z) (p n : Z),
    0 <= p < len data -> 0 <= n ->
    exists bytes r,
      read n (Reader data p) = Ok (bytes, r)
      /\ (first <- read n ;; seek p ;;; second <- read n ;;
          ret (first, second)) (Reader data p)
         = Ok ((bytes, bytes), r).
Proof.
  intros data p n Hp Hn. unfold bind.
  rewrite (read_inside n) by (simpl; lia). cbv zeta.
  cbn [SeekableBytesReader.data SeekableBytesReader.position].
  do 2 eexists. split; [reflexivity|].
  rewrite seek_inside by (simpl; lia).
  cbn [SeekableBytesReader.data SeekableBytesReader.position].
  rewrite (read_inside n) by (simpl; lia). reflexivity.
Qed.

Lemma seek_back_and_read_again_witness :
  exists bytes r,
    read 2 (Reader [7; 8; 9; 10] 1) = Ok (bytes, r)
    /\ (first <- read 2 ;; seek 1 ;;; second <- read 2 ;;
        ret (first, second)) (Reader [7; 8; 9; 10] 1)
       = Ok ((bytes, bytes), r).
Proof.
  apply (seek_back_and_read_again [7; 8; 9; 10] 1 2); unfold len; simpl; lia.
Defined.
